(** * keithleygui: control flow of the GUI glue around the Keithley 2600 driver

    A shallow embedding of the parts of [keithleygui/main.py] that carry
    logic of their own: the SMU list helper, the drain-voltage parser, the
    gate/drain selector slots, the integration-time guard of the sweep
    button, the sweep thread and the real-time measurement thread.

    Conventions of the embedding.
    - Python exceptions are values of [exn]; a call that may raise returns
      a [result].  Only subclasses of [Exception] are modelled (what
      [except Exception] catches); interpreter-level [BaseException]s such
      as [KeyboardInterrupt] are outside the model.
    - Python floats are an abstract type with the operations the program
      uses ([PyFloat]); nothing proved here depends on rounding.
    - The driver ([keithley2600]), Qt and [time]/[random] are external:
      their answers are supplied by the environment of a run. *)

From Stdlib Require Import List String Ascii Bool Arith ZArith QArith Qabs Lia.
From Stdlib Require Import DecimalString.
From Equations Require Import Equations.
Import ListNotations.
Local Close Scope Q_scope.
Local Open Scope string_scope.
Local Open Scope list_scope.

Set Implicit Arguments.

(* ===================================================================== *)
(** ** Python values: exceptions and fallible calls                       *)
(* ===================================================================== *)

Module Py.

(** The exception classes that occur in [main.py]. *)
Inductive exn_class : Type :=
| ExceptionC
| ValueErrorC
| ZeroDivisionErrorC
| AttributeErrorC
| VisaIOErrorC
| OtherC (name : string).

(** An exception instance: its class and [str(exc)]. *)
Record exn : Type := mkExn { exn_cls : exn_class; exn_str : string }.

Definition Exception (msg : string) : exn := mkExn ExceptionC msg.
Definition ValueError (msg : string) : exn := mkExn ValueErrorC msg.

Definition is_VisaIOError (e : exn) : bool :=
  match exn_cls e with VisaIOErrorC => true | _ => false end.

Definition is_ValueError (e : exn) : bool :=
  match exn_cls e with ValueErrorC => true | _ => false end.

(** A Python call either returns or raises. *)
Inductive result (A : Type) : Type :=
| Returns (a : A)
| Raises (e : exn).
Arguments Returns {A} a.
Arguments Raises {A} e.

Definition bind {A B} (r : result A) (k : A -> result B) : result B :=
  match r with
  | Returns a => k a
  | Raises e => Raises e
  end.

(** [try: body / except Exception: handler]. *)
Definition try_except {A} (body : result A) (handler : exn -> A) : A :=
  match body with
  | Returns a => a
  | Raises e => handler e
  end.

(** [try: body / except cls: handler], other classes propagate. *)
Definition try_except_cls {A} (is_cls : exn -> bool)
           (body : result A) (handler : exn -> result A) : result A :=
  match body with
  | Returns a => Returns a
  | Raises e => if is_cls e then handler e else Raises e
  end.

(** Reading an attribute: [hasattr] is false exactly on [AttributeError];
    a property may also raise something else. *)
Inductive attr (A : Type) : Type :=
| Absent
| Present (a : A)
| Faulty (e : exn).
Arguments Absent {A}.
Arguments Present {A} a.
Arguments Faulty {A} e.

Definition hasattr {A} (x : attr A) : result bool :=
  match x with
  | Absent => Returns false
  | Present _ => Returns true
  | Faulty e => Raises e
  end.

Definition getattr {A} (name : string) (x : attr A) : result A :=
  match x with
  | Absent => Raises (mkExn AttributeErrorC name)
  | Present a => Returns a
  | Faulty e => Raises e
  end.

(** [sub in s] on strings. *)
Fixpoint str_in (sub s : string) : bool :=
  String.prefix sub s
  || match s with
     | EmptyString => false
     | String _ rest => str_in sub rest
     end.

End Py.

Import Py.

Declare Scope py_scope.
Notation "x <- c ;; k" := (Py.bind c (fun x => k))
  (at level 61, c at next level, right associativity) : py_scope.
Local Open Scope py_scope.

(* ===================================================================== *)
(** ** [_get_smus]                                                        *)
(* ===================================================================== *)

(** What [_get_smus] looks at in the driver object: the [connected]
    attribute and the result of [dir(keithley)]. *)
Record keithley_view : Type := mkView {
  connected : Py.attr bool;
  dir_ : Py.result (list string)
}.

Definition default_smus : list string := ["smu1"; "smu2"].
Definition placeholder : string := "--".

(** The [while len(smu_list) < 2: smu_list.append("--")] loop. *)
Equations? pad_smus (smu_list : list string) : list string
  by wf (2 - List.length smu_list) lt :=
  pad_smus smu_list with lt_dec (List.length smu_list) 2 := {
    | left _ := pad_smus (smu_list ++ [placeholder]);
    | right _ := smu_list }.
Proof.
  destruct smu_list as [|a [|b rest]]; simpl in *; lia.
Qed.

(** The body of the [try] block of [_get_smus]. *)
Definition _get_smus_try (keithley : keithley_view) : Py.result (list string) :=
  h <- Py.hasattr (connected keithley) ;;
  disconnected <-
    (if h then c <- Py.getattr "connected" (connected keithley) ;; Returns (negb c)
     else Returns false) ;;
  if disconnected then Returns default_smus
  else
    names <- dir_ keithley ;;
    Returns (filter (String.prefix "smu") names).

Definition _get_smus (keithley : keithley_view) : list string :=
  let smu_list := Py.try_except (_get_smus_try keithley) (fun _ => default_smus) in
  pad_smus smu_list.

(* ===================================================================== *)
(** ** Python floats                                                      *)
(* ===================================================================== *)

(** The operations on floats that [main.py] uses.  [flit q] is the float
    denoted by the decimal literal [q]; [fdiv] is [None] where Python
    raises [ZeroDivisionError]; [float_of_str] is [float(s)], [None] where
    it raises [ValueError]; [sleep_ok d] tells whether [time.sleep(d)]
    accepts its argument (a non-negative number). *)
Class PyFloat (F : Type) : Type := {
  flit : Q -> F;
  fadd : F -> F -> F;
  fsub : F -> F -> F;
  fmul : F -> F -> F;
  fdiv : F -> F -> option F;
  fabs : F -> F;
  fsin : F -> F;
  fsign : F -> F;
  fpi : F;
  flt : F -> F -> bool;
  fstr : F -> string;
  float_of_str : string -> option F;
  sleep_ok : F -> bool
}.

Definition float_div {F} `{PyFloat F} (x y : F) : Py.result F :=
  match fdiv x y with
  | Some q => Returns q
  | None => Raises (Py.mkExn Py.ZeroDivisionErrorC "float division by zero")
  end.

(** [time.sleep(d)]. *)
Definition time_sleep {F} `{PyFloat F} (d : F) : Py.result unit :=
  if sleep_ok d then Returns tt
  else Raises (Py.ValueError "sleep length must be non-negative").

(* ===================================================================== *)
(** ** [KeithleyGuiApp._string_to_vd]                                     *)
(* ===================================================================== *)

(** A drain voltage is a number or the word "trailing". *)
Inductive vd (F : Type) : Type :=
| VdFloat (x : F)
| VdStr (s : string).
Arguments VdFloat {F} x.
Arguments VdStr {F} s.

Definition py_float {F} `{PyFloat F} (s : string) : Py.result F :=
  match float_of_str s with
  | Some x => Returns x
  | None => Raises (Py.ValueError ("could not convert string to float: " ++ s))
  end.

Definition _string_to_vd {F} `{PyFloat F} (string : string) : Py.result (vd F) :=
  Py.try_except_cls Py.is_ValueError
    (x <- py_float string ;; Returns (VdFloat x))
    (fun _ =>
       if Py.str_in "trailing" string then Returns (VdStr "trailing")
       else Raises (Py.ValueError "Invalid drain voltage.")).

(* ===================================================================== *)
(** ** [SweepSettingsWidget]: the gate and drain selectors                *)
(* ===================================================================== *)

Module Selectors.

(** A [QComboBox] as far as the slots see it: the number of items and
    the current index ([-1] when nothing is selected). *)
Record combo : Type := mkCombo { count : Z; currentIndex : Z }.

Record SweepSettingsWidget : Type := mkWidget {
  smu_list : list string;
  smu_gate : combo;
  smu_drain : combo
}.

Inductive selector : Type := Gate | Drain.

Definition other (s : selector) : selector :=
  match s with Gate => Drain | Drain => Gate end.

Definition get (s : selector) (w : SweepSettingsWidget) : combo :=
  match s with Gate => smu_gate w | Drain => smu_drain w end.

Definition put (s : selector) (c : combo) (w : SweepSettingsWidget)
  : SweepSettingsWidget :=
  match s with
  | Gate => mkWidget (smu_list w) c (smu_drain w)
  | Drain => mkWidget (smu_list w) (smu_gate w) c
  end.

(** The index a combo box ends up with when asked for [i]: an index
    outside the items clears the selection. *)
Definition target (c : combo) (i : Z) : Z :=
  if ((0 <=? i) && (i <? count c))%Z then i else (-1)%Z.

(** The body shared by [on_smu_gate_changed] and [on_smu_drain_changed]:
    [setOther] is [setCurrentIndex] of the opposite selector. *)
Definition on_smu_changed
           (setOther : SweepSettingsWidget -> Z -> option SweepSettingsWidget)
           (w : SweepSettingsWidget) (int_smu : Z) : option SweepSettingsWidget :=
  if ((int_smu =? 0)%Z && (List.length (smu_list w) <? 3)%nat) then setOther w 1%Z
  else if ((int_smu =? 1)%Z && (List.length (smu_list w) <? 3)%nat) then setOther w 0%Z
  else Some w.

(** [setCurrentIndex] with the [currentIndexChanged] signal delivered
    synchronously to the connected slot, which may in turn set the other
    selector.  [fuel] bounds the depth of this cascade; [None] means the
    bound was hit. *)
Fixpoint setCurrentIndex (fuel : nat) (s : selector)
         (w : SweepSettingsWidget) (i : Z) : option SweepSettingsWidget :=
  match fuel with
  | O => None
  | S fuel' =>
      let c := get s w in
      let j := target c i in
      if (j =? currentIndex c)%Z then Some w
      else
        on_smu_changed (setCurrentIndex fuel' (other s))
                       (put s (mkCombo (count c) j) w) j
  end.

Definition on_smu_gate_changed (fuel : nat) :=
  on_smu_changed (setCurrentIndex fuel Drain).

Definition on_smu_drain_changed (fuel : nat) :=
  on_smu_changed (setCurrentIndex fuel Gate).

(** The user picks entry [i] of a selector. *)
Definition user_selects (fuel : nat) (s : selector)
           (w : SweepSettingsWidget) (i : Z) : option SweepSettingsWidget :=
  setCurrentIndex fuel s w i.

(** The text shown by a selector. *)
Definition currentText (s : selector) (w : SweepSettingsWidget) : string :=
  if (currentIndex (get s w) <? 0)%Z then ""
  else nth (Z.to_nat (currentIndex (get s w))) (smu_list w) "".

(** The widget as [__init__] and [update_smu_list] build it from the
    driver: both selectors list [_get_smus(keithley)]. *)
Definition of_smus (smus : list string) (gate drain : Z) : SweepSettingsWidget :=
  let n := Z.of_nat (List.length smus) in
  mkWidget smus (mkCombo n gate) (mkCombo n drain).

End Selectors.

(* ===================================================================== *)
(** ** Actions: a result together with the effects performed on the way   *)
(* ===================================================================== *)

Module Act.

(** A computation that performs effects of type [E] (in order) and then
    returns or raises. *)
Definition act (E A : Type) : Type := (list E * Py.result A)%type.

Definition ret {E A} (a : A) : act E A := ([], Returns a).
Definition tell {E} (e : E) : act E unit := ([e], Returns tt).
Definition lift {E A} (r : Py.result A) : act E A := ([], r).

Definition bind {E A B} (c : act E A) (k : A -> act E B) : act E B :=
  match snd c with
  | Returns a => (fst c ++ fst (k a), snd (k a))
  | Raises e => (fst c, Raises e)
  end.

Definition effects {E A} (c : act E A) : list E := fst c.
Definition outcome {E A} (c : act E A) : Py.result A := snd c.

End Act.

Notation "x <~ c ;; k" := (Act.bind c (fun x => k))
  (at level 61, c at next level, right associativity) : py_scope.
Notation "c ;;; k" := (Act.bind c (fun _ => k))
  (at level 61, right associativity) : py_scope.

(* ===================================================================== *)
(** ** The sweep button and [MeasureThread]                               *)
(* ===================================================================== *)

Module Sweep.
Section WithFloat.

Context {F : Type} `{PyFloat F}.

(** The values stored in the [params] dictionary. *)
Inductive value : Type :=
| VStr (s : string)
| VFloat (x : F)
| VBool (b : bool)
| VSmu (name : string)
| VList (l : list (vd F)).

(** A [dict] with string keys, in insertion order. *)
Definition dict : Type := list (string * value).

Fixpoint dict_set (k : string) (v : value) (d : dict) : dict :=
  match d with
  | [] => [(k, v)]
  | (k', v') :: rest =>
      if String.eqb k k' then (k, v) :: rest else (k', v') :: dict_set k v rest
  end.

Fixpoint dict_get (k : string) (d : dict) : Py.result value :=
  match d with
  | [] => Raises (Py.mkExn (Py.OtherC "KeyError") k)
  | (k', v) :: rest => if String.eqb k k' then Returns v else dict_get k rest
  end.

(** [d[k1], d[k2], ...] evaluated left to right. *)
Fixpoint dict_gets (ks : list string) (d : dict) : Py.result (list value) :=
  match ks with
  | [] => Returns []
  | k :: ks' => v <- dict_get k d ;; vs <- dict_gets ks' d ;; Returns (v :: vs)
  end.

Definition is_str (v : value) (s : string) : bool :=
  match v with VStr s' => String.eqb s' s | _ => false end.

Definition as_float (v : value) : Py.result F :=
  match v with
  | VFloat x => Returns x
  | _ => Raises (Py.mkExn (Py.OtherC "TypeError") "unsupported operand type(s)")
  end.

Record FETResultTable : Type := mkTable {
  column_titles : list string;
  units : list string;
  data : list (list F);
  table_params : dict
}.

(** The driver object and numpy, as [MeasureThread.run] uses them. *)
Record driver : Type := mkDriver {
  transfer_measurement : list value -> Py.result FETResultTable;
  output_measurement : list value -> Py.result FETResultTable;
  voltage_sweep_single_smu :
    value -> list F -> value -> value -> value -> Py.result (list F * list F);
  beep : F -> F -> Py.result unit;
  reset : Py.result unit;
  np_arange : F -> F -> F -> Py.result (list F)
}.

(** [np.array([v, i]).transpose()]: one row per sample; the two columns
    must have the same length. *)
Definition np_transpose2 (v i : list F) : Py.result (list (list F)) :=
  if (List.length v =? List.length i)%nat
  then Returns (map (fun vi => [fst vi; snd vi]) (combine v i))
  else Raises (Py.ValueError "setting an array element with a sequence.").

Inductive signal : Type :=
| started_sig
| finished_sig (sweep_data : option FETResultTable)
| error_sig (exc : Py.exn).

Definition transfer_keys : list string :=
  ["smu_gate"; "smu_drain"; "VgStart"; "VgStop"; "VgStep"; "VdList";
   "tInt"; "delay"; "pulsed"].

Definition output_keys : list string :=
  ["smu_gate"; "smu_drain"; "VdStart"; "VdStop"; "VdStep"; "VgList";
   "tInt"; "delay"; "pulsed"].

(** The [iv] branch of [MeasureThread.run]. *)
Definition iv_sweep (keithley : driver) (params : dict) : Py.result FETResultTable :=
  vstop <- (x <- dict_get "VStop" params ;; as_float x) ;;
  vstart <- (x <- dict_get "VStart" params ;; as_float x) ;;
  let direction := fsign (fsub vstop vstart) in
  vstep <- (x <- dict_get "VStep" params ;; as_float x) ;;
  let stp := fmul direction (fabs vstep) in
  vstart' <- (x <- dict_get "VStart" params ;; as_float x) ;;
  vstop' <- (x <- dict_get "VStop" params ;; as_float x) ;;
  sweeplist <- np_arange keithley vstart' (fadd vstop' stp) stp ;;
  let sweeplist := sweeplist ++ rev sweeplist in
  smu_sweep <- dict_get "smu_sweep" params ;;
  tInt <- dict_get "tInt" params ;;
  delay <- dict_get "delay" params ;;
  pulsed <- dict_get "pulsed" params ;;
  vi <- voltage_sweep_single_smu keithley smu_sweep sweeplist tInt delay pulsed ;;
  tInt' <- dict_get "tInt" params ;;
  delay' <- dict_get "delay" params ;;
  pulsed' <- dict_get "pulsed" params ;;
  let params' :=
    [("sweep_type", VStr "iv"); ("t_int", tInt'); ("delay", delay');
     ("pulsed", pulsed')] in
  rows <- np_transpose2 (fst vi) (snd vi) ;;
  Returns (mkTable ["Voltage"; "Current"] ["V"; "A"] rows params').

(** The body of the [try] block of [MeasureThread.run] up to the emit:
    the value handed to [finished_sig]. *)
Definition run_try (keithley : driver) (params : dict)
  : Py.result (option FETResultTable) :=
  sweep_data <-
    (ty <- dict_get "sweep_type" params ;;
     if is_str ty "transfer" then
       args <- dict_gets transfer_keys params ;;
       t <- transfer_measurement keithley args ;; Returns (Some t)
     else
       ty <- dict_get "sweep_type" params ;;
       if is_str ty "output" then
         args <- dict_gets output_keys params ;;
         t <- output_measurement keithley args ;; Returns (Some t)
       else
         ty <- dict_get "sweep_type" params ;;
         if is_str ty "iv" then
           t <- iv_sweep keithley params ;; Returns (Some t)
         else Returns None) ;;
  _ <- beep keithley (flit (3 # 10)) (flit (2400 # 1)) ;;
  _ <- reset keithley ;;
  Returns sweep_data.

(** [MeasureThread.run]: the signals emitted, in order. *)
Definition run (keithley : driver) (params : dict) : list signal :=
  started_sig ::
  Py.try_except
    (sweep_data <- run_try keithley params ;; Returns [finished_sig sweep_data])
    (fun exc => [error_sig exc]).

Definition is_result_signal (s : signal) : bool :=
  match s with started_sig => false | _ => true end.

(** *** [KeithleyGuiApp.on_sweep_clicked] *)

(** What the slot reads from the window and the driver. *)
Record gui : Type := mkGui {
  busy : bool;
  apply_smu_settings : Py.result unit;
  tab_index : Z;
  vg_start : F; vg_stop : F; vg_step : F; vd_list : list (vd F);
  vd_start : F; vd_stop : F; vd_step : F; vg_list : list (vd F);
  v_start : F; v_stop : F; v_step : F; smu_sweep_text : string;
  smu_gate_text : string; smu_drain_text : string;
  t_int : F; t_settling : F; sweep_type_index : Z;
  has_smu : string -> bool;
  linefreq : F
}.

Inductive ui_effect : Type :=
| MessageBox (title msg : string)
| StatusBar (msg : string)
| GuiStateBusy
| StartMeasureThread (params : dict).

(** [getattr(self.keithley, name)] for an SMU name. *)
Definition keithley_getattr (g : gui) (name : string) : Py.result value :=
  if has_smu g name then Returns (VSmu name)
  else Raises (Py.mkExn Py.AttributeErrorC name).

(** [not 0.001 / freq < tInt < 25.0 / freq]: the chained comparison
    evaluates the upper bound only when the lower one holds. *)
Definition tint_invalid (freq tInt : F) : Py.result bool :=
  lo <- float_div (flit (1 # 1000)) freq ;;
  inside <-
    (if flt lo tInt then hi <- float_div (flit (25 # 1)) freq ;; Returns (flt tInt hi)
     else Returns false) ;;
  Returns (negb inside).

Definition parameter_error_msg (freq : F) : string :=
  "Integration time must be between 0.001 and 25 "
  ++ ("power line cycles of 1/(" ++ fstr freq ++ " Hz).").

(** The sweep settings of the selected tab; [None] is the bare [return]
    of the last [else]. *)
Definition tab_params (g : gui) : Act.act ui_effect (option dict) :=
  let params : dict := [] in
  if (tab_index g =? 0)%Z then
    Act.tell (StatusBar "    Recording transfer curve.") ;;;
    let params := dict_set "sweep_type" (VStr "transfer") params in
    let params := dict_set "VgStart" (VFloat (vg_start g)) params in
    let params := dict_set "VgStop" (VFloat (vg_stop g)) params in
    let params := dict_set "VgStep" (VFloat (vg_step g)) params in
    let params := dict_set "VdList" (VList (vd_list g)) params in
    Act.ret (Some params)
  else if (tab_index g =? 1)%Z then
    Act.tell (StatusBar "    Recording output curve.") ;;;
    let params := dict_set "sweep_type" (VStr "output") params in
    let params := dict_set "VdStart" (VFloat (vd_start g)) params in
    let params := dict_set "VdStop" (VFloat (vd_stop g)) params in
    let params := dict_set "VdStep" (VFloat (vd_step g)) params in
    let params := dict_set "VgList" (VList (vg_list g)) params in
    Act.ret (Some params)
  else if (tab_index g =? 2)%Z then
    Act.tell (StatusBar "    Recording IV curve.") ;;;
    let params := dict_set "sweep_type" (VStr "iv") params in
    let params := dict_set "VStart" (VFloat (v_start g)) params in
    let params := dict_set "VStop" (VFloat (v_stop g)) params in
    let params := dict_set "VStep" (VFloat (v_step g)) params in
    smu <~ Act.lift (keithley_getattr g (smu_sweep_text g)) ;;
    Act.ret (Some (dict_set "smu_sweep" smu params))
  else Act.ret None.

Definition on_sweep_clicked (g : gui) : Act.act ui_effect unit :=
  if busy g then
    Act.tell (MessageBox "Keithley Busy"
                         "Keithley is currently busy. Please try again later.")
  else
    Act.lift (apply_smu_settings g) ;;;
    sel <~ tab_params g ;;
    match sel with
    | None => Act.ret tt
    | Some params =>
        let params := dict_set "tInt" (VFloat (t_int g)) params in
        let params := dict_set "delay" (VFloat (t_settling g)) params in
        gate <~ Act.lift (keithley_getattr g (smu_gate_text g)) ;;
        let params := dict_set "smu_gate" gate params in
        drain <~ Act.lift (keithley_getattr g (smu_drain_text g)) ;;
        let params := dict_set "smu_drain" drain params in
        let params :=
          dict_set "pulsed" (VBool (negb (sweep_type_index g =? 0)%Z)) params in
        let freq := linefreq g in
        invalid <~ Act.lift (tint_invalid freq (t_int g)) ;;
        if invalid then
          Act.tell (MessageBox "Parameter Error" (parameter_error_msg freq))
        else
          Act.tell GuiStateBusy ;;;
          Act.tell (StartMeasureThread params)
    end.

Definition starts_thread (e : ui_effect) : bool :=
  match e with StartMeasureThread _ => true | _ => false end.

Definition is_parameter_error (e : ui_effect) : bool :=
  match e with MessageBox title _ => String.eqb title "Parameter Error" | _ => false end.

Definition started (g : gui) : bool :=
  existsb starts_thread (Act.effects (on_sweep_clicked g)).

Definition parameter_error_shown (g : gui) : bool :=
  existsb is_parameter_error (Act.effects (on_sweep_clicked g)).

(** [tInt] lies strictly between [0.001 / freq] and [25.0 / freq]. *)
Definition tint_in_bounds (freq tInt : F) : Prop :=
  exists lo hi,
    fdiv (flit (1 # 1000)) freq = Some lo /\ fdiv (flit (25 # 1)) freq = Some hi
    /\ flt lo tInt = true /\ flt tInt hi = true.

(** Both bounds exist: the line frequency is not zero. *)
Definition bounds_defined (freq : F) : Prop :=
  fdiv (flit (1 # 1000)) freq <> None /\ fdiv (flit (25 # 1)) freq <> None.

(** The slot gets as far as the check of the integration time: the
    instrument is not busy, the SMU settings could be applied, one of the
    three sweep tabs is selected and the selected SMUs exist. *)
Definition reaches_validation (g : gui) : Prop :=
  busy g = false
  /\ apply_smu_settings g = Returns tt
  /\ (tab_index g = 0 \/ tab_index g = 1
      \/ (tab_index g = 2 /\ has_smu g (smu_sweep_text g) = true))%Z
  /\ has_smu g (smu_gate_text g) = true
  /\ has_smu g (smu_drain_text g) = true.

(** What [run] emits once the sweep call of the selected shape has
    returned or raised: the beep and the reset still have to succeed. *)
Definition after_sweep (keithley : driver) (sweep : Py.result FETResultTable)
  : list signal :=
  match sweep with
  | Raises e => [error_sig e]
  | Returns t =>
      match beep keithley (flit (3 # 10)) (flit (2400 # 1)) with
      | Raises e => [error_sig e]
      | Returns _ =>
          match reset keithley with
          | Raises e => [error_sig e]
          | Returns _ => [finished_sig (Some t)]
          end
      end
  end.

End WithFloat.
End Sweep.

(* ===================================================================== *)
(** ** [RealtimeMeasureThread]                                            *)
(* ===================================================================== *)

Module Realtime.
Section WithFloat.

Context {F : Type} `{PyFloat F}.

(** The three list objects of the thread.  A payload holds references to
    them, not copies: what a reader of the payload sees is whatever the
    lists hold when it looks. *)
Inductive list_ref : Type := TimeData | VoltageData | CurrentData.

(** The [data] dictionary handed to [data_sig]. *)
Record payload : Type := mkPayload {
  p_time : list_ref;
  p_voltage : list_ref;
  p_current : list_ref;
  last_value : F * F * F
}.

Inductive signal : Type :=
| data_sig (data : payload)
| error_sig (exc : Py.exn)
| finished_sig.

(** What a run does that can be observed from outside the thread.
    Console output ([print]) is left out. *)
Inductive event : Type :=
| Emit (s : signal)
| MeasureV
| MeasureI
| KeithleyReset
| Sleep (d : F).

(** The attributes of the thread object, with the part of the driver
    object that [run] consults.  [k_visa_timeout] is [None] when
    [keithley.visa.timeout] is absent or cannot be read;
    [k_set_timeout] and [k_restore_timeout] are the outcomes of the two
    assignments to it, the one before the loop and the one in the
    [finally] clause. *)
Record thread : Type := mkThread {
  k_connected : Py.attr bool;
  k_visa_timeout : option Z;
  k_has_reset : bool;
  smu : option string;
  interval : F;
  running : bool;
  time_data : list F;
  voltage_data : list F;
  current_data : list F;
  start_time : F;
  simulation_mode : bool;
  current_voltage : F;
  k_set_timeout : Py.result unit;
  k_restore_timeout : Py.result unit
}.

Definition set_running (b : bool) (st : thread) : thread :=
  mkThread (k_connected st) (k_visa_timeout st) (k_has_reset st) (smu st)
           (interval st) b (time_data st) (voltage_data st) (current_data st)
           (start_time st) (simulation_mode st) (current_voltage st)
           (k_set_timeout st) (k_restore_timeout st).

Definition set_current_voltage (v : F) (st : thread) : thread :=
  mkThread (k_connected st) (k_visa_timeout st) (k_has_reset st) (smu st)
           (interval st) (running st) (time_data st) (voltage_data st)
           (current_data st) (start_time st) (simulation_mode st) v
           (k_set_timeout st) (k_restore_timeout st).

Definition set_visa_timeout (t : option Z) (st : thread) : thread :=
  mkThread (k_connected st) t (k_has_reset st) (smu st)
           (interval st) (running st) (time_data st) (voltage_data st)
           (current_data st) (start_time st) (simulation_mode st)
           (current_voltage st) (k_set_timeout st) (k_restore_timeout st).

(** [self.time_data = []] and its two siblings, then [self.start_time]. *)
Definition reset_data (now : F) (st : thread) : thread :=
  mkThread (k_connected st) (k_visa_timeout st) (k_has_reset st) (smu st)
           (interval st) (running st) [] [] [] now (simulation_mode st)
           (current_voltage st) (k_set_timeout st) (k_restore_timeout st).

(** The three [append]s of one sample. *)
Definition append_sample (t v i : F) (st : thread) : thread :=
  mkThread (k_connected st) (k_visa_timeout st) (k_has_reset st) (smu st)
           (interval st) (running st)
           (time_data st ++ [t]) (voltage_data st ++ [v]) (current_data st ++ [i])
           (start_time st) (simulation_mode st) (current_voltage st)
           (k_set_timeout st) (k_restore_timeout st).

Definition deref (st : thread) (r : list_ref) : list F :=
  match r with
  | TimeData => time_data st
  | VoltageData => voltage_data st
  | CurrentData => current_data st
  end.

(** [RealtimeMeasureThread.__init__]; [smu_attr] is the outcome of
    [getattr(self.keithley, smu_name)], the last two arguments are how
    the driver handed over will answer the assignments to
    [visa.timeout]. *)
Definition __init__ (connected_attr : Py.attr bool) (visa_timeout : option Z)
           (has_reset : bool) (smu_attr : Py.result string)
           (interval_arg : F) (simulation_mode_arg : bool)
           (set_timeout restore_timeout : Py.result unit) : thread :=
  mkThread connected_attr visa_timeout has_reset
           (Py.try_except (s <- smu_attr ;; Returns (Some s)) (fun _ => None))
           interval_arg true [] [] [] (flit (0 # 1)) simulation_mode_arg
           (flit (1 # 1)) set_timeout restore_timeout.

(** Calls made on the thread object from the UI thread. *)
Inductive ui_call : Type :=
| stop
| update_simulation_voltage (new_voltage : F).

Definition ui_apply (c : ui_call) (st : thread) : thread :=
  match c with
  | stop => set_running false st
  | update_simulation_voltage v => set_current_voltage v st
  end.

Definition ui_calls (cs : list ui_call) (st : thread) : thread :=
  fold_left (fun s c => ui_apply c s) cs st.

(** How a pass through a loop body leaves the loop. *)
Inductive flow : Type :=
| Next
| Break
| Propagate (e : Py.exn).

(** One pass through a loop body: the events, the payload emitted (with
    the thread as it was at the [emit]), the thread afterwards. *)
Record iteration : Type := mkIteration {
  events : list event;
  emitted : option (payload * thread);
  after : thread;
  errors_after : nat;
  leaves : flow
}.

(** Why a loop was left; [Unfinished] when the schedule of the
    environment ends while the loop is still going. *)
Inductive loop_exit : Type :=
| Cancelled
| Threshold
| Raised (e : Py.exn)
| Unfinished.

Definition the_payload (t v i : F) : payload :=
  mkPayload TimeData VoltageData CurrentData (t, v, i).

(** *** The simulation loop *)

Definition frequency : F := flit (2 # 10).
Definition noise_level : F := flit (1 # 10).
Definition baseline : F := flit (1 # 1000000).
Definition amplitude : F := flit (1 # 1000000).

(** The environment of one pass: the UI calls that land between the loop
    test and the locked read, the value drawn by
    [random.uniform(-noise_level, noise_level)], and the UI calls that
    land between the read and the next loop test. *)
Record sim_env : Type := mkSimEnv {
  ui_before : list ui_call;
  uniform : F;
  ui_after : list ui_call
}.

Definition sim_current (simulated_voltage t noise_draw : F) : F :=
  let current_scale := fmul (fabs simulated_voltage) (flit (2 # 1000000)) in
  let sine_component :=
    fmul amplitude (fsin (fmul (fmul (fmul (flit (2 # 1)) fpi) frequency) t)) in
  let noise := fmul noise_draw amplitude in
  fadd (fadd (fadd baseline current_scale) sine_component) noise.

Definition sim_iteration (env : sim_env) (st : thread) (t : F) : iteration :=
  let st := ui_calls (ui_before env) st in
  let simulated_voltage := current_voltage st in
  let i := sim_current simulated_voltage t (uniform env) in
  let st := append_sample t simulated_voltage i st in
  let data := the_payload t simulated_voltage i in
  let slept := time_sleep (interval st) in
  mkIteration [Emit (data_sig data); Sleep (interval st)]
              (Some (data, st))
              (ui_calls (ui_after env) st)
              0
              (match slept with Returns _ => Next | Raises e => Propagate e end).

(** [while self.running: ...] of [_run_simulation]. *)
Fixpoint sim_loop (envs : list sim_env) (st : thread) (t : F)
  : list iteration * loop_exit * thread :=
  if negb (running st) then ([], Cancelled, st)
  else
    match envs with
    | [] => ([], Unfinished, st)
    | env :: rest =>
        let it := sim_iteration env st t in
        match leaves it with
        | Next =>
            let '(its, ex, st') := sim_loop rest (after it) (fadd t (interval st)) in
            (it :: its, ex, st')
        | Break => ([it], Threshold, after it)
        | Propagate e => ([it], Raised e, after it)
        end
    end.

Definition _run_simulation (now : F) (envs : list sim_env) (st : thread)
  : list iteration * loop_exit * thread :=
  sim_loop envs (reset_data now st) (flit (0 # 1)).

(** *** The real-device loop *)

Definition max_consecutive_errors : nat := 3.

(** The environment of one pass: the outcomes of [smu.measure.v()] and
    [smu.measure.i()], the clock, the outcome of [keithley.reset()] should
    the recovery path call it, and the UI calls that land before the next
    loop test. *)
Record real_env : Type := mkRealEnv {
  measure_v : Py.result F;
  measure_i : Py.result F;
  now : F;
  reset_outcome : Py.result unit;
  ui_during : list ui_call
}.

(** The recovery attempt after a timeout; whatever it raises is
    swallowed. *)
Definition recovery (env : real_env) (st : thread) : list event :=
  Sleep (flit (5 # 10)) ::
  (if k_has_reset st then
     KeithleyReset ::
     match reset_outcome env with
     | Returns _ => [Sleep (flit (1 # 1))]
     | Raises _ => []
     end
   else []).

(** The calls of the two reads: [measure.i()] is reached only when
    [measure.v()] has returned. *)
Definition read_calls (env : real_env) : list event :=
  MeasureV :: match measure_v env with Returns _ => [MeasureI] | Raises _ => [] end.

Definition real_iteration (env : real_env) (st : thread)
           (consecutive_errors : nat) : iteration :=
  let reads := read_calls env in
  let st_end := ui_calls (ui_during env) in
  match (v <- measure_v env ;; i <- measure_i env ;; Returns (v, i)) with
  | Returns (v, i) =>
      let t := fsub (now env) (start_time st) in
      let st := append_sample t v i st in
      let data := the_payload t v i in
      let consecutive_errors := 0 in
      let slept := time_sleep (interval st) in
      mkIteration (reads ++ [Emit (data_sig data); Sleep (interval st)])
                  (Some (data, st)) (st_end st) consecutive_errors
                  (match slept with Returns _ => Next | Raises e => Propagate e end)
  | Raises e =>
      if Py.is_VisaIOError e then
        let consecutive_errors := consecutive_errors + 1 in
        let rec :=
          if Py.str_in "VI_ERROR_TMO" (Py.exn_str e) then recovery env st else [] in
        if (max_consecutive_errors <=? consecutive_errors)%nat then
          mkIteration
            (reads ++ rec ++
             [Emit (error_sig
                      (Py.Exception ("多次测量失败，停止测量: " ++ Py.exn_str e)))])
            None (st_end st) consecutive_errors Break
        else
          mkIteration (reads ++ rec) None (st_end st) consecutive_errors Next
      else
        let consecutive_errors := consecutive_errors + 1 in
        if (max_consecutive_errors <=? consecutive_errors)%nat then
          mkIteration (reads ++ [Emit (error_sig e)])
                      None (st_end st) consecutive_errors Break
        else
          mkIteration reads None (st_end st) consecutive_errors Next
  end.

(** [while self.running: ...] of [run]. *)
Fixpoint real_loop (envs : list real_env) (st : thread) (consecutive_errors : nat)
  : list iteration * loop_exit * thread :=
  if negb (running st) then ([], Cancelled, st)
  else
    match envs with
    | [] => ([], Unfinished, st)
    | env :: rest =>
        let it := real_iteration env st consecutive_errors in
        match leaves it with
        | Next =>
            let '(its, ex, st') := real_loop rest (after it) (errors_after it) in
            (it :: its, ex, st')
        | Break => ([it], Threshold, after it)
        | Propagate e => ([it], Raised e, after it)
        end
    end.

(** From [self.time_data = []] to the end of the loop. *)
Definition run_device (now0 : F) (envs : list real_env) (st : thread)
  : list iteration * loop_exit * thread :=
  real_loop envs (reset_data now0 st) 0.

(** *** [run] *)

(** What the environment supplies to one run. *)
Record schedule : Type := mkSchedule {
  now0 : F;
  sim_envs : list sim_env;
  real_envs : list real_env
}.

Definition trace_of (its : list iteration) : list event :=
  List.concat (map events its).

(** How the [try] block of [run] ends. *)
Inductive body_end : Type :=
| Returned
| Escaped (e : Py.exn)
| Running.

Definition end_of (ex : loop_exit) : body_end :=
  match ex with
  | Cancelled | Threshold => Returned
  | Raised e => Escaped e
  | Unfinished => Running
  end.

(** The [try] around [self.keithley.visa.timeout = 30000]: the
    assignment is made when the attribute exists and could be read; when
    it raises, the exception is printed and the timeout stays as it
    is. *)
Definition raise_timeout (st : thread) : thread :=
  match k_visa_timeout st with
  | Some _ =>
      match k_set_timeout st with
      | Returns _ => set_visa_timeout (Some 30000%Z) st
      | Raises _ => st
      end
  | None => st
  end.

(** The [try] block of [run]: its events, how it ends, the thread, and
    the local [original_timeout] when it was bound. *)
Definition run_body (sch : schedule) (st : thread)
  : list event * body_end * thread * option Z :=
  if simulation_mode st then
    let '(its, ex, st') := _run_simulation (now0 sch) (sim_envs sch) st in
    (trace_of its, end_of ex, st', None)
  else
    match (h <- Py.hasattr (k_connected st) ;;
           if negb h then Returns true
           else c <- Py.getattr "connected" (k_connected st) ;; Returns (negb c)) with
    | Raises e => ([], Escaped e, st, None)
    | Returns true =>
        ([Emit (error_sig (Py.Exception "设备未连接"))], Returned, st, None)
    | Returns false =>
        match smu st with
        | None =>
            ([Emit (error_sig (Py.Exception "无法获取SMU对象"))], Returned, st, None)
        | Some _ =>
            let original_timeout := k_visa_timeout st in
            let st := raise_timeout st in
            let '(its, ex, st') := run_device (now0 sch) (real_envs sch) st in
            (trace_of its, end_of ex, st', original_timeout)
        end
    end.

Record run_result : Type := mkRun {
  trace : list event;
  ended : bool;
  final : thread
}.

(** [RealtimeMeasureThread.run]: the [try] block, the [except Exception]
    clause and the [finally] clause, whose restoring assignment sits in
    a [try] of its own with [except Exception: pass]. *)
Definition run (sch : schedule) (st : thread) : run_result :=
  let '(evs, e, st', original_timeout) := run_body sch st in
  match e with
  | Running => mkRun evs false st'
  | _ =>
      let handled :=
        match e with Escaped exc => [Emit (error_sig exc)] | _ => [] end in
      let st'' :=
        match k_visa_timeout st', original_timeout with
        | Some _, Some t =>
            match k_restore_timeout st' with
            | Returns _ => set_visa_timeout (Some t) st'
            | Raises _ => st'
            end
        | _, _ => st'
        end in
      mkRun (evs ++ handled ++ [Emit finished_sig]) true st''
  end.

(** *** [KeithleyGuiApp.on_start_realtime_clicked] *)

(** What the slot reads from the window and the driver. *)
Record gui : Type := mkGui {
  smu_name : string;
  realtime_interval : F;
  realtime_voltage : F;
  keithley_connected : Py.attr bool;
  keithley_visa_timeout : option Z;
  keithley_has_reset : bool;
  keithley_smu : Py.result string;
  apply_voltage : Py.result unit;
  dialog_cancelled : bool;
  keithley_set_timeout : Py.result unit;
  keithley_restore_timeout : Py.result unit
}.

Inductive ui_effect : Type :=
| MessageBox (title msg : string)
| StatusBar (msg : string)
| CanvasClear
| StartThread (th : thread).

Definition on_start_realtime_clicked (g : gui) : Act.act ui_effect (option thread) :=
  if String.eqb (smu_name g) "--" then
    Act.tell (MessageBox "参数错误" "请选择有效的SMU") ;;;
    Act.ret None
  else
    c <~ Act.lift (Py.getattr "connected" (keithley_connected g)) ;;
    let simulation_mode := negb c in
    go <~
      (if negb simulation_mode then
         match (smu <- keithley_smu g ;; apply_voltage g) with
         | Returns _ => Act.ret true
         | Raises e =>
             Act.tell (MessageBox "设置错误" ("设置电压时出错: " ++ Py.exn_str e)) ;;;
             Act.ret false
         end
       else
         Act.tell (MessageBox "模拟模式" "设备未连接，将使用模拟数据") ;;;
         Act.ret (negb (dialog_cancelled g))) ;;
    if go then
      let th :=
        __init__ (keithley_connected g) (keithley_visa_timeout g)
                 (keithley_has_reset g) (keithley_smu g)
                 (realtime_interval g) simulation_mode
                 (keithley_set_timeout g) (keithley_restore_timeout g) in
      Act.tell CanvasClear ;;;
      Act.tell (StartThread th) ;;;
      Act.tell (StatusBar (if simulation_mode then "    正在进行模拟测量..."
                           else "    正在进行实时测量...")) ;;;
      Act.ret (Some th)
    else Act.ret None.

(** *** Observations on traces *)

Definition is_read (e : event) : bool :=
  match e with MeasureV | MeasureI => true | _ => false end.

Definition is_measure_v (e : event) : bool :=
  match e with MeasureV => true | _ => false end.

Definition is_measure_i (e : event) : bool :=
  match e with MeasureI => true | _ => false end.

Definition is_error_sig (e : event) : bool :=
  match e with Emit (error_sig _) => true | _ => false end.

Definition is_finished_sig (e : event) : bool :=
  match e with Emit finished_sig => true | _ => false end.

Definition emissions (its : list iteration) : list (payload * thread) :=
  flat_map (fun it => match emitted it with Some x => [x] | None => [] end) its.

(** A pass of the real-device loop failed when it emitted nothing. *)
Definition failed (it : iteration) : bool :=
  match emitted it with Some _ => false | None => true end.

(** What [run] adds after a loop that was left by [ex]: the outer
    [except] clause and the [finally] clause. *)
Definition closing (ex : loop_exit) : list event :=
  match ex with
  | Unfinished => []
  | Raised e => [Emit (error_sig e); Emit finished_sig]
  | Cancelled | Threshold => [Emit finished_sig]
  end.

Definition unfinished (ex : loop_exit) : bool :=
  match ex with Unfinished => true | _ => false end.

(** The payloads carried by the [data_sig] emissions of a trace. *)
Definition payloads_of (tr : list event) : list payload :=
  flat_map (fun e => match e with Emit (data_sig p) => [p] | _ => [] end) tr.

(** A payload seen in thread state [s]: its three lists hold [n] earlier
    samples and one last sample each, and [last_value] is the triple of
    the last samples. *)
Definition well_formed_payload (n : nat) (p : payload) (s : thread) : Prop :=
  exists ts vs cs t v i,
    deref s (p_time p) = ts ++ [t]
    /\ deref s (p_voltage p) = vs ++ [v]
    /\ deref s (p_current p) = cs ++ [i]
    /\ List.length ts = n /\ List.length vs = n /\ List.length cs = n
    /\ last_value p = (t, v, i).

(** [t] after [k] more passes of the simulation loop. *)
Fixpoint sim_time_from (t interval : F) (k : nat) : F :=
  match k with
  | O => t
  | S k' => sim_time_from (fadd t interval) interval k'
  end.

Definition is_stop (c : ui_call) : bool :=
  match c with stop => true | _ => false end.

(** The counter of the spec: the number of failed read attempts since the
    last successful one, after the attempts [oks] (true for a success),
    starting from [c]. *)
Definition consecutive_failures (c : nat) (oks : list bool) : nat :=
  fold_left (fun (c : nat) (ok : bool) => if ok then 0 else S c) oks c.

(** The value of [t] in pass [k] of the simulation: [interval] added [k]
    times to zero. *)
Fixpoint sim_time (interval : F) (k : nat) : F :=
  match k with
  | O => flit (0 # 1)
  | S k' => fadd (sim_time interval k') interval
  end.

(** Whether the reads of an environment succeed. *)
Definition read_ok (env : real_env) : bool :=
  match measure_v env, measure_i env with
  | Returns _, Returns _ => true
  | _, _ => false
  end.

(** [stop()] was called on the thread during one of these passes. *)
Definition stop_seen_real (envs : list real_env) : bool :=
  existsb (fun env => existsb is_stop (ui_during env)) envs.

Definition stop_seen_sim (envs : list sim_env) : bool :=
  existsb (fun env => existsb is_stop (ui_before env ++ ui_after env)) envs.

End WithFloat.
End Realtime.

(* ===================================================================== *)
(** ** The two threads and the mutex                                      *)
(* ===================================================================== *)

(** The accesses to the attributes of a [RealtimeMeasureThread] made by
    the UI thread and by the worker in simulation mode, one operation per
    attribute access, interleaved by an arbitrary scheduler. *)
Module Threads.
Section WithFloat.

Variable F : Type.

Inductive tid : Type := UI | Worker.

Inductive attribute : Type :=
| running
| current_voltage
| time_data
| voltage_data
| current_data
| start_time
| interval.

Inductive op : Type :=
| Acquire                       (* self.lock.lock() *)
| Release                       (* self.lock.unlock() *)
| Read (a : attribute)
| Write (a : attribute)         (* a write or an in-place update *)
| WriteVoltage (v : F).         (* self.current_voltage = v *)

Definition target (o : op) : option attribute :=
  match o with
  | Acquire | Release => None
  | Read a | Write a => Some a
  | WriteVoltage _ => Some current_voltage
  end.

Definition attribute_eqb (a b : attribute) : bool :=
  match a, b with
  | running, running | current_voltage, current_voltage
  | time_data, time_data | voltage_data, voltage_data
  | current_data, current_data | start_time, start_time
  | interval, interval => true
  | _, _ => false
  end.

Definition touches (a : attribute) (o : op) : bool :=
  match target o with Some b => attribute_eqb a b | None => false end.

(** What runs on the UI thread: the two methods of the thread object
    and the slot that receives a payload, which reads the lists the
    payload refers to. *)
Inductive ui_call : Type :=
| stop
| update_simulation_voltage (new_voltage : F)
| on_realtime_data.

Definition ui_ops (c : ui_call) : list op :=
  match c with
  | stop => [Write running]
  | update_simulation_voltage v => [Acquire; WriteVoltage v; Release]
  | on_realtime_data => [Read time_data; Read time_data; Read current_data]
  end.

(** One pass of the [while self.running] loop of [_run_simulation]. *)
Definition sim_pass : list op :=
  [Read running;
   Acquire; Read current_voltage; Release;
   Write time_data; Write voltage_data; Write current_data;
   Read time_data; Read voltage_data; Read current_data;
   Read interval; Read interval].

(** [_run_simulation] with [n] passes and the loop test that ends it. *)
Definition _run_simulation (n : nat) : list op :=
  [Write time_data; Write voltage_data; Write current_data; Write start_time]
  ++ List.concat (repeat sim_pass n) ++ [Read running].

Definition ui_program (calls : list ui_call) : list op :=
  flat_map ui_ops calls.

(** One access as it happened: who, what, who held the mutex, and the
    setpoint seen or stored. *)
Record access : Type := mkAccess {
  by_thread : tid;
  what : op;
  holder : option tid;
  setpoint : F
}.

Record machine : Type := mkMachine {
  lock : option tid;
  voltage : F;
  ui_rest : list op;
  worker_rest : list op;
  log : list access
}.

Definition tid_eqb (a b : tid) : bool :=
  match a, b with UI, UI | Worker, Worker => true | _, _ => false end.

Definition rest_of (t : tid) (m : machine) : list op :=
  match t with UI => ui_rest m | Worker => worker_rest m end.

Definition advance (t : tid) (m : machine) (lk : option tid) (v : F) (o : op)
  : machine :=
  let entry := mkAccess t o (lock m) v in
  match t with
  | UI => mkMachine lk v (tl (ui_rest m)) (worker_rest m) (log m ++ [entry])
  | Worker => mkMachine lk v (ui_rest m) (tl (worker_rest m)) (log m ++ [entry])
  end.

(** Thread [t] is given the processor for one operation.  [lock()] on a
    held mutex blocks: the thread does not move. *)
Definition step (t : tid) (m : machine) : machine :=
  match rest_of t m with
  | [] => m
  | o :: _ =>
      match o with
      | Acquire =>
          match lock m with
          | None => advance t m (Some t) (voltage m) o
          | Some _ => m
          end
      | Release => advance t m None (voltage m) o
      | WriteVoltage v => advance t m (lock m) v o
      | Read _ | Write _ => advance t m (lock m) (voltage m) o
      end
  end.

Definition exec (sched : list tid) (m : machine) : machine :=
  fold_left (fun m t => step t m) sched m.

(** The start: the mutex free, the setpoint as [__init__] left it. *)
Definition init (v0 : F) (calls : list ui_call) (n : nat) : machine :=
  mkMachine None v0 (ui_program calls) (_run_simulation n) [].

Definition on_voltage (x : access) : bool := touches current_voltage (what x).

(** The setpoint most recently written according to a log. *)
Fixpoint last_written (v0 : F) (l : list access) : F :=
  match l with
  | [] => v0
  | x :: rest =>
      last_written (match what x with WriteVoltage v => v | _ => v0 end) rest
  end.

(** Each read of the setpoint in a log returned the value most recently
    written before it. *)
Fixpoint reads_latest (v0 : F) (l : list access) : Prop :=
  match l with
  | [] => True
  | x :: rest =>
      match what x with
      | Read current_voltage => setpoint x = v0 /\ reads_latest v0 rest
      | WriteVoltage v => reads_latest v rest
      | _ => reads_latest v0 rest
      end
  end.

(** Attribute [a] is accessed on the UI side / by the worker. *)
Definition ui_accesses (a : attribute) : Prop :=
  exists c, existsb (touches a) (ui_ops c) = true.

Definition worker_accesses (a : attribute) : Prop :=
  existsb (touches a) sim_pass = true.

(** A program takes and releases the mutex in turn, and touches the
    setpoint exactly while it holds it; [held] tells whether it holds the
    mutex at its start. *)
Fixpoint bracketed (held : bool) (p : list op) : bool :=
  match p with
  | [] => true
  | Acquire :: rest => negb held && bracketed true rest
  | Release :: rest => held && bracketed false rest
  | o :: rest => Bool.eqb (touches current_voltage o) held && bracketed held rest
  end.

Definition holds (t : tid) (m : machine) : bool :=
  match lock m with Some t' => tid_eqb t t' | None => false end.

(** Both programs are well bracketed with respect to who holds the
    mutex. *)
Definition balanced (m : machine) : Prop :=
  bracketed (holds UI m) (ui_rest m) = true
  /\ bracketed (holds Worker m) (worker_rest m) = true.

(** An access to an attribute was made holding the mutex exactly when the
    attribute is the setpoint. *)
Definition exclusive (x : access) : Prop :=
  forall a, target (what x) = Some a ->
            (holder x = Some (by_thread x) <-> a = current_voltage).

(** The last part of the claim: the setpoint is the only attribute that
    both threads access. *)
Definition only_voltage_shared : Prop :=
  forall a, ui_accesses a -> worker_accesses a -> a = current_voltage.

End WithFloat.
End Threads.

(* ===================================================================== *)
(** ** An exact interpretation of the float operations                    *)
(* ===================================================================== *)

(** Rationals in place of floats, to run the definitions above on concrete
    inputs.  [fsin] is the cubic Taylor polynomial and [float_of_str] reads
    plain decimals ([-12.5]); neither is used by any general statement. *)
Module Exact.

Definition digit (c : ascii) : option Z :=
  let n := nat_of_ascii c in
  if ((48 <=? n) && (n <=? 57))%nat then Some (Z.of_nat (n - 48)) else None.

(** Leading digits of [s]: their value after [acc], how many, the rest. *)
Fixpoint read_digits (s : string) (acc : Z) (n : nat) : Z * nat * string :=
  match s with
  | EmptyString => (acc, n, s)
  | String c rest =>
      match digit c with
      | Some d => read_digits rest (10 * acc + d)%Z (S n)
      | None => (acc, n, s)
      end
  end.

Definition unsigned_decimal (s : string) : option Q :=
  let '(ip, n1, rest) := read_digits s 0%Z 0 in
  match rest with
  | EmptyString => if (0 <? n1)%nat then Some (inject_Z ip) else None
  | String "." frac =>
      let '(fp, n2, rest') := read_digits frac 0%Z 0 in
      match rest' with
      | EmptyString =>
          if (0 <? n1 + n2)%nat
          then Some (inject_Z ip + (fp # Pos.pow 10 (Pos.of_nat n2)) * (if (n2 =? 0)%nat then 0 else 1))%Q
          else None
      | _ => None
      end
  | _ => None
  end.

Definition decimal (s : string) : option Q :=
  match s with
  | String "-" rest => option_map Qopp (unsigned_decimal rest)
  | _ => unsigned_decimal s
  end.

Definition show_Z (z : Z) : string := NilZero.string_of_int (Z.to_int z).

Definition Qltb (x y : Q) : bool := negb (Qle_bool y x).

#[export] Instance QFloat : PyFloat Q := {
  flit := fun q => q;
  fadd := Qplus;
  fsub := Qminus;
  fmul := Qmult;
  fdiv := fun x y => if Qeq_bool y 0 then None else Some (x / y)%Q;
  fabs := Qabs;
  fsin := fun x => (x - x * x * x / 6)%Q;
  fsign := fun x => if Qltb x 0 then (-1)%Q else if Qltb 0 x then 1%Q else 0%Q;
  fpi := (355 # 113)%Q;
  flt := Qltb;
  fstr := fun x => (show_Z (Qnum x) ++ "/" ++ show_Z (Zpos (Qden x)))%string;
  float_of_str := decimal;
  sleep_ok := Qle_bool 0
}.

End Exact.

Import Exact.

(** Concrete inputs, over the exact floats. *)
Module Samples.

Definition timeout : Py.exn :=
  Py.mkExn Py.VisaIOErrorC "VI_ERROR_TMO (-1073807339): Timeout expired".

Definition failing_read : Realtime.real_env :=
  Realtime.mkRealEnv (Py.Raises timeout) (Py.Returns (1 # 1000))%Q (1 # 1)%Q
                     (Py.Returns tt) [].

Definition good_read (t : Q) : Realtime.real_env :=
  Realtime.mkRealEnv (Py.Returns (1 # 1)%Q) (Py.Returns (1 # 1000)%Q) t
                     (Py.Returns tt) [].

(** A connected instrument with channel [smua], sampled twice a second. *)
Definition device_thread : Realtime.thread :=
  Realtime.__init__ (Py.Present true) (Some 10000%Z) true (Py.Returns "smua")
                    (1 # 2)%Q false (Py.Returns tt) (Py.Returns tt).

(** One good read, then three timeouts in a row, then a good read that
    is never reached. *)
Definition three_timeouts : Realtime.schedule :=
  Realtime.mkSchedule (0 # 1)%Q []
    [good_read (1 # 10)%Q; failing_read; failing_read; failing_read;
     good_read (3 # 1)%Q].

(** The window with no instrument connected, the dialog accepted. *)
Definition offline_gui : Realtime.gui :=
  Realtime.mkGui "smu1" (1 # 2)%Q (1 # 1)%Q (Py.Present false) None false
                 (Py.Raises (Py.mkExn Py.AttributeErrorC "smu1")) (Py.Returns tt)
                 false (Py.Returns tt) (Py.Returns tt).

Definition offline_thread : Realtime.thread :=
  Realtime.__init__ (Py.Present false) None false
                    (Py.Raises (Py.mkExn Py.AttributeErrorC "smu1"))
                    (1 # 2)%Q true (Py.Returns tt) (Py.Returns tt).

(** Two passes of the simulation; the UI raises the setpoint to 2 V
    during the first and stops the thread during the second. *)
Definition two_passes : Realtime.schedule :=
  Realtime.mkSchedule (0 # 1)%Q
    [Realtime.mkSimEnv [] (1 # 20)%Q [Realtime.update_simulation_voltage (2 # 1)%Q];
     Realtime.mkSimEnv [] (0 # 1)%Q [@Realtime.stop Q]]
    [].

(** The sweep page at 50 Hz with an integration time of 0.1 s. *)
Definition sweep_gui (tInt : Q) : Sweep.gui :=
  Sweep.mkGui false (Py.Returns tt) 0
              (0 # 1)%Q (10 # 1)%Q (1 # 1)%Q [VdFloat (5 # 1)%Q; VdStr "trailing"]
              (0 # 1)%Q (0 # 1)%Q (0 # 1)%Q []
              (0 # 1)%Q (0 # 1)%Q (0 # 1)%Q "smua"
              "smua" "smub" tInt (-1 # 1)%Q 0
              (fun name => String.eqb name "smua" || String.eqb name "smub")
              (50 # 1)%Q.

End Samples.

(* ===================================================================== *)
(** ** Further observations on the sweep button and the sweep thread       *)
(* ===================================================================== *)

Module SweepMore.
Import Sweep.
Section WithFloat.

Context {F : Type} `{PyFloat F}.

Definition is_message_box (e : @ui_effect F) : bool :=
  match e with MessageBox _ _ => true | _ => false end.

Definition is_gui_busy (e : @ui_effect F) : bool :=
  match e with GuiStateBusy => true | _ => false end.

(** The [pulsed] flag as the slot computes it:
    [bool(self.general_sweep_settings.sweep_type.currentIndex())]. *)
Definition pulsed_of (g : @gui F) : bool := negb (sweep_type_index g =? 0)%Z.

(** The step of the IV sweep: the sign of the direction times [|VStep|]. *)
Definition iv_step (g : @gui F) : F :=
  fmul (fsign (fsub (v_stop g) (v_start g))) (fabs (v_step g)).

(** A list of voltages that goes somewhere and comes back the same way. *)
Definition there_and_back (l : list F) : Prop :=
  rev l = l /\ Nat.even (List.length l) = true.

End WithFloat.
End SweepMore.

(* ===================================================================== *)
(** ** Further observations on the real-time thread                       *)
(* ===================================================================== *)

Module RealtimeMore.
Import Realtime.
Section WithFloat.

Context {F : Type} `{PyFloat F}.

Definition is_start_thread (e : @ui_effect F) : bool :=
  match e with StartThread _ => true | _ => false end.

Definition is_message_box (e : @ui_effect F) : bool :=
  match e with MessageBox _ _ => true | _ => false end.

Definition is_reset (e : @event F) : bool :=
  match e with KeithleyReset => true | _ => false end.

(** The exception that ends the two reads of a pass, if any. *)
Definition read_error (env : @real_env F) : option Py.exn :=
  match measure_v env with
  | Raises e => Some e
  | Returns _ => match measure_i env with Raises e => Some e | Returns _ => None end
  end.

(** The reads of a pass ended with a VISA timeout. *)
Definition timed_out (env : @real_env F) : bool :=
  match read_error env with
  | Some e => Py.is_VisaIOError e && Py.str_in "VI_ERROR_TMO" (Py.exn_str e)
  | None => false
  end.

(** The voltage and the current of a pass whose two reads returned. *)
Definition read_pair (env : @real_env F) : list (F * F) :=
  match measure_v env, measure_i env with
  | Returns v, Returns i => [(v, i)]
  | _, _ => []
  end.

Definition returned {A : Type} (r : Py.result A) : bool :=
  match r with Returns _ => true | Raises _ => false end.

(** The run gets as far as the real-device loop. *)
Definition enters_loop (st : @thread F) : bool :=
  negb (simulation_mode st)
  && match k_connected st with Py.Present true => true | _ => false end
  && match smu st with Some _ => true | None => false end.

(** The conditions under which the start button creates a thread. *)
Definition may_start (g : @gui F) : Prop :=
  String.eqb (smu_name g) "--" = false
  /\ ((keithley_connected g = Py.Present true
       /\ (exists name, keithley_smu g = Returns name)
       /\ apply_voltage g = Returns tt)
      \/ (keithley_connected g = Py.Present false /\ dialog_cancelled g = false)).

End WithFloat.
End RealtimeMore.

(** More concrete inputs, over the exact floats. *)
Module MoreSamples.

(** The sweep page at 50 Hz with the given tab selected. *)
Definition sweep_gui_on (tab : Z) : Sweep.gui :=
  Sweep.mkGui false (Py.Returns tt) tab
              (0 # 1)%Q (10 # 1)%Q (1 # 1)%Q [VdFloat (5 # 1)%Q; VdStr "trailing"]
              (0 # 1)%Q (20 # 1)%Q (2 # 1)%Q [VdFloat (0 # 1)%Q; VdFloat (10 # 1)%Q]
              (0 # 1)%Q (-(3 # 1))%Q (1 # 1)%Q "smub"
              "smua" "smub" (1 # 10)%Q (-1 # 1)%Q 1
              (fun name => String.eqb name "smua" || String.eqb name "smub")
              (50 # 1)%Q.

(** The dictionary of the first thread started among some effects. *)
Fixpoint first_thread (effs : list (@Sweep.ui_effect Q)) : @Sweep.dict Q :=
  match effs with
  | [] => []
  | Sweep.StartMeasureThread params :: _ => params
  | _ :: rest => first_thread rest
  end.

Definition empty_table : @Sweep.FETResultTable Q := Sweep.mkTable [] [] [] [].

(** A driver that answers every sweep; its [arange] gives two points and
    the single-SMU sweep returns the voltages with a current of 1 mA
    each. *)
Definition answering : @Sweep.driver Q :=
  Sweep.mkDriver (fun _ => Py.Returns empty_table)
                 (fun _ => Py.Returns empty_table)
                 (fun _ l _ _ _ => Py.Returns (l, map (fun _ => (1 # 1000)%Q) l))
                 (fun _ _ => Py.Returns tt) (Py.Returns tt)
                 (fun a _ c => Py.Returns [a; (a + c)%Q]).

(** The same driver, refusing sweep lists with an odd number of points. *)
Definition even_only : @Sweep.driver Q :=
  Sweep.mkDriver (Sweep.transfer_measurement answering)
                 (Sweep.output_measurement answering)
                 (fun smu l a b c =>
                    if Nat.even (List.length l)
                    then Sweep.voltage_sweep_single_smu answering smu l a b c
                    else Py.Raises (Py.ValueError "odd sweep list"))
                 (Sweep.beep answering) (Sweep.reset answering)
                 (Sweep.np_arange answering).

(** A driver whose single-SMU sweep fails. *)
Definition no_answer : Py.exn := Py.mkExn (Py.OtherC "KeithleyIOError") "no answer".

Definition failing_sweep : @Sweep.driver Q :=
  Sweep.mkDriver (Sweep.transfer_measurement answering)
                 (Sweep.output_measurement answering)
                 (fun _ _ _ _ _ => Py.Raises no_answer)
                 (Sweep.beep answering) (Sweep.reset answering)
                 (Sweep.np_arange answering).

(** A connected instrument that takes the long timeout but refuses the
    assignment that would restore the old one. *)
Definition stuck_thread : Realtime.thread :=
  Realtime.__init__ (Py.Present true) (Some 10000%Z) true (Py.Returns "smua")
                    (1 # 2)%Q false (Py.Returns tt)
                    (Py.Raises (Py.mkExn Py.VisaIOErrorC "VI_ERROR_CONN_LOST")).

(** A thread for a real instrument whose cable is unplugged. *)
Definition unplugged_thread : Realtime.thread :=
  Realtime.__init__ (Py.Present false) (Some 10000%Z) true (Py.Returns "smua")
                    (1 # 2)%Q false (Py.Returns tt) (Py.Returns tt).

End MoreSamples.

(* ===================================================================== *)
(** ** [SweepSettingsWidget.update_smu_list]                              *)
(* ===================================================================== *)

Module SelectorsMore.
Import Selectors.

(** [QComboBox.clear()]: no items and no selection are left; a change of
    the current index is signalled to the connected slot. *)
Definition clear (fuel : nat) (s : selector) (w : SweepSettingsWidget)
  : option SweepSettingsWidget :=
  let c := get s w in
  let w' := put s (mkCombo 0 (-1)) w in
  if (currentIndex c =? -1)%Z then Some w'
  else on_smu_changed (setCurrentIndex fuel (other s)) w' (-1)%Z.

(** [QComboBox.addItems(items)]: in a box that was empty the first new
    item becomes the current one, which is signalled to the slot. *)
Definition addItems (fuel : nat) (s : selector) (items : list string)
           (w : SweepSettingsWidget) : option SweepSettingsWidget :=
  let c := get s w in
  let n := (count c + Z.of_nat (List.length items))%Z in
  if ((count c =? 0) && (currentIndex c =? -1) && (0 <? n))%Z
  then on_smu_changed (setCurrentIndex fuel (other s)) (put s (mkCombo n 0) w) 0%Z
  else Some (put s (mkCombo n (currentIndex c)) w).

Definition and_then {A B} (x : option A) (k : A -> option B) : option B :=
  match x with Some a => k a | None => None end.

(** The body of [update_smu_list]; [smus] is [_get_smus(self.keithley)].
    None of the calls raises, so the [except] clause stays unused. *)
Definition update_smu_list (fuel : nat) (smus : list string)
           (w : SweepSettingsWidget) : option SweepSettingsWidget :=
  let w := mkWidget smus (smu_gate w) (smu_drain w) in
  and_then (clear fuel Gate w) (fun w =>
  and_then (clear fuel Drain w) (fun w =>
  and_then (addItems fuel Gate smus w) (fun w =>
  and_then (addItems fuel Drain smus w) (fun w =>
  and_then (setCurrentIndex fuel Gate w 0%Z) (fun w =>
  setCurrentIndex fuel Drain w 1%Z))))).

End SelectorsMore.

(* ===================================================================== *)
(** ** The connection state of the window                                 *)
(* ===================================================================== *)

Module Connection.

(** What the slots consult in the driver object: the [connected]
    attribute, the outcome of reading [localnode.model] and of reading
    [busy]. *)
Record keithley : Type := mkKeithley {
  connected : Py.attr bool;
  localnode_model : Py.result unit;
  busy : Py.result bool
}.

(** [self.keithley.connected = b]. *)
Definition set_connected (b : bool) (k : keithley) : keithley :=
  mkKeithley (Present b) (localnode_model k) (busy k).

(** The widgets that the three interface states enable or disable, the
    text of the status bar and the LED. *)
Record window : Type := mkWindow {
  pushButtonRun : bool;
  pushButtonAbort : bool;
  actionConnect : bool;
  actionDisconnect : bool;
  pushButtonStartRealtime : bool;
  pushButtonStopRealtime : bool;
  apply_keithley_settings : option bool;
  statusBar : string;
  led : bool
}.

Definition _gui_state_busy (w : window) : window :=
  mkWindow false true false false
           (pushButtonStartRealtime w) (pushButtonStopRealtime w)
           (apply_keithley_settings w) "    Measuring." true.

Definition _gui_state_idle (w : window) : window :=
  mkWindow true false false true
           (pushButtonStartRealtime w) (pushButtonStopRealtime w)
           (apply_keithley_settings w) "    Ready." true.

Definition _gui_state_disconnected (w : window) : window :=
  mkWindow false false true false true false
           (option_map (fun _ => false) (apply_keithley_settings w))
           "    No Keithley connected." false.

(** The [try] block of [update_gui_connection].  Whatever raises in it
    raises before the driver or the window has been changed. *)
Definition update_gui_connection_try (k : keithley) (w : window)
  : Py.result (keithley * window) :=
  has <- Py.hasattr (connected k) ;;
  if negb has then Returns (set_connected false k, _gui_state_disconnected w)
  else
    c <- Py.getattr "connected" (connected k) ;;
    if c then
      match localnode_model k with
      | Raises _ => Returns (set_connected false k, _gui_state_disconnected w)
      | Returns _ =>
          b <- busy k ;;
          Returns (k, if b then _gui_state_busy w else _gui_state_idle w)
      end
    else Returns (k, _gui_state_disconnected w).

Definition update_gui_connection (k : keithley) (w : window)
  : Py.result (keithley * window) :=
  match update_gui_connection_try k w with
  | Returns r => Returns r
  | Raises _ =>
      has <- Py.hasattr (connected k) ;;
      Returns (if has then set_connected false k else k,
               _gui_state_disconnected w)
  end.

(** What [on_connect_clicked] does besides: [update_smu_list], whose body
    is one [try] with an [except Exception], and the dialogs. *)
Inductive effect : Type :=
| UpdateSmuList
| MessageBox (title msg : string).

(** The environment of a click on Connect: the outcome of
    [keithley.connect()], the driver as that call leaves it, and the
    outcome of reading [keithley.visa_address]. *)
Record connect_env : Type := mkConnectEnv {
  connect : Py.result unit;
  after_connect : keithley;
  visa_address : Py.result string
}.

Definition newline : string := String (Ascii.ascii_of_nat 10) EmptyString.

(** The [except Exception as e] clause, entered with the effects so
    far, the driver and the window as they are. *)
Definition connect_failed (e : Py.exn) (effs : list effect)
           (k : keithley) (w : window)
  : list effect * Py.result (keithley * window) :=
  (effs ++ [MessageBox "连接错误"
                       ("连接Keithley设备时出错:" ++ newline ++ Py.exn_str e)],
   update_gui_connection (set_connected false k) w).

Definition on_connect_clicked (env : connect_env) (w : window)
  : list effect * Py.result (keithley * window) :=
  let k := after_connect env in
  match connect env with
  | Raises e => connect_failed e [] k w
  | Returns _ =>
      match update_gui_connection k w with
      | Raises e => connect_failed e [UpdateSmuList] k w
      | Returns (k', w') =>
          match Py.getattr "connected" (connected k') with
          | Raises e => connect_failed e [UpdateSmuList] k' w'
          | Returns true => ([UpdateSmuList], Returns (k', w'))
          | Returns false =>
              match visa_address env with
              | Raises e => connect_failed e [UpdateSmuList] k' w'
              | Returns address =>
                  ([UpdateSmuList;
                    MessageBox "连接错误"
                      ("Keithley无法在" ++ address ++ "地址连接。 "
                       ++ "请检查地址是否正确，Keithley设备是否已打开。")],
                   Returns (k', w'))
              end
          end
      end
  end.

Definition is_message_box (e : effect) : bool :=
  match e with MessageBox _ _ => true | _ => false end.

End Connection.

(* ===================================================================== *)
(** ** The slots of the real-time page                                    *)
(* ===================================================================== *)

Module Slots.
Import Realtime.
Section WithFloat.

Context {F : Type} `{PyFloat F}.

Local Abbreviation thread := (@Realtime.thread F).
Local Abbreviation gui := (@Realtime.gui F).
Local Abbreviation payload := (@Realtime.payload F).
Local Abbreviation event := (@Realtime.event F).
Local Abbreviation ui_call := (@Realtime.ui_call F).
Local Abbreviation sim_env := (@Realtime.sim_env F).

(** What the slots do to the instrument and to the window. *)
Inductive slot_effect : Type :=
| ApplyVoltage (smu : string) (v : F)
| OutputOff (smu : string)
| ShowMessage (msg : string)
| ResetRealtimeUi
| SetLabels (t v i : F)
| ClearCanvas
| PlotXY (xs ys : list F).

(** [self.realtime_thread]: [None], or the thread object together with
    [isRunning()]. *)
Definition thread_slot : Type := option (thread * bool).

Definition on_voltage_changed (g : gui) (rt : thread_slot) (new_voltage : F)
  : Act.act slot_effect thread_slot :=
  match rt with
  | Some (th, true) =>
      let simulation_mode := simulation_mode th in
      device <~ (if negb simulation_mode
                 then Act.lift (Py.getattr "connected" (keithley_connected g))
                 else Act.ret false) ;;
      if device then
        if negb (String.eqb (smu_name g) "--") then
          match keithley_smu g with
          | Raises e =>
              Act.tell (ShowMessage ("    电压更新失败: " ++ Py.exn_str e)) ;;;
              Act.ret rt
          | Returns smu =>
              Act.tell (ApplyVoltage smu new_voltage) ;;;
              match apply_voltage g with
              | Raises e =>
                  Act.tell (ShowMessage ("    电压更新失败: " ++ Py.exn_str e)) ;;;
                  Act.ret rt
              | Returns _ =>
                  Act.tell (ShowMessage
                              ("    电压已更新: " ++ fstr new_voltage ++ " V")) ;;;
                  Act.ret rt
              end
          end
        else Act.ret rt
      else if simulation_mode then
        Act.tell (ShowMessage
                    ("    模拟电压已更新: " ++ fstr new_voltage ++ " V")) ;;;
        Act.ret (Some (ui_apply (update_simulation_voltage new_voltage) th, true))
      else Act.ret rt
  | _ => Act.ret rt
  end.

(** The innermost [try] of [on_realtime_finished]; the effect records
    the assignment to [smu.source.output], whatever its outcome. *)
Definition switch_output_off (g : gui) : list slot_effect :=
  if negb (String.eqb (smu_name g) "--") then
    match keithley_smu g with
    | Returns smu => [OutputOff smu]
    | Raises _ => []
    end
  else [].

Definition on_realtime_finished (g : gui) (rt : option thread) : list slot_effect :=
  [ShowMessage "    Ready."; ResetRealtimeUi]
  ++ match rt with
     | Some th =>
         if negb (simulation_mode th) then
           match (has <- Py.hasattr (keithley_connected g) ;;
                  if has then Py.getattr "connected" (keithley_connected g)
                  else Returns false) with
           | Returns true => switch_output_off g
           | Returns false => []
           | Raises _ => [ResetRealtimeUi]
           end
         else []
     | None => []
     end.

(** [on_realtime_data(data)], run by the UI thread while the measuring
    thread is in state [st]: the lists of the payload are read then. *)
Definition on_realtime_data (data : payload) (st : thread) : list slot_effect :=
  let '(t, v, i) := last_value data in
  SetLabels t v i
  :: (if (1 <? List.length (deref st (p_time data)))%nat
      then [ClearCanvas;
            PlotXY (deref st (p_time data)) (deref st (p_current data))]
      else []).

Definition touches_instrument (e : slot_effect) : bool :=
  match e with ApplyVoltage _ _ | OutputOff _ => true | _ => false end.

Definition is_plot (e : slot_effect) : bool :=
  match e with PlotXY _ _ => true | _ => false end.

(** What a run asks of the instrument. *)
Definition asks_instrument (e : event) : bool :=
  match e with MeasureV | MeasureI | KeithleyReset => true | _ => false end.

(** The payload of a pass, if it has one, refers to the lists of the
    thread. *)
Definition refers_to_thread (it : @iteration F) : Prop :=
  match emitted it with
  | Some (p, _) => p_time p = TimeData /\ p_current p = CurrentData
  | None => True
  end.

(** The setpoint after some calls from the UI. *)
Definition last_setpoint (v : F) (cs : list ui_call) : F :=
  fold_left (fun v c => match c with
                        | update_simulation_voltage v' => v'
                        | stop => v
                        end) cs v.

(** The setpoints that the passes of the simulation loop read, from the
    setpoint [v] before the first pass. *)
Fixpoint setpoints (v : F) (envs : list sim_env) : list F :=
  match envs with
  | [] => []
  | env :: rest =>
      let v1 := last_setpoint v (ui_before env) in
      v1 :: setpoints (last_setpoint v1 (ui_after env)) rest
  end.

End WithFloat.
End Slots.

(** Concrete inputs for the slots. *)
Module SlotSamples.

(** The window with the instrument connected and channel [smua]
    selected. *)
Definition online_gui : Realtime.gui :=
  Realtime.mkGui "smua" (1 # 2)%Q (3 # 1)%Q (Py.Present true) (Some 10000%Z) true
                 (Py.Returns "smua") (Py.Returns tt) false
                 (Py.Returns tt) (Py.Returns tt).

(** A driver that stopped answering after it had connected. *)
Definition silent : Connection.keithley :=
  Connection.mkKeithley (Py.Present true)
                        (Py.Raises (Py.mkExn Py.VisaIOErrorC "VI_ERROR_TMO"))
                        (Py.Returns false).

Definition fresh_window : Connection.window :=
  Connection.mkWindow false false true false true false None "" false.

Definition refused : Connection.connect_env :=
  Connection.mkConnectEnv (Py.Raises (Py.mkExn Py.VisaIOErrorC "VI_ERROR_RSRC_NFOUND"))
                          silent (Py.Returns "TCPIP0::192.168.2.121::INSTR").

(** The passes of the simulated run of [Samples.two_passes], and the
    payload and the thread at its emissions. *)
Definition simulated_passes : list (@Realtime.iteration Q) :=
  fst (fst (Realtime._run_simulation
              (0 # 1)%Q (Realtime.sim_envs Samples.two_passes)
              Samples.offline_thread)).

Definition emission (k : nat) : @Realtime.payload Q * @Realtime.thread Q :=
  nth k (Realtime.emissions simulated_passes)
      (Realtime.the_payload (0 # 1)%Q (0 # 1)%Q (0 # 1)%Q, Samples.offline_thread).

End SlotSamples.

(* ===================================================================== *)
(** ** Waiting for the mutex                                              *)
(* ===================================================================== *)

Module ThreadsMore.
Import Threads.
Section WithFloat.

Variable F : Type.

Definition other (t : tid) : tid :=
  match t with UI => Worker | Worker => UI end.

(** Thread [t] would move if it were given the processor: it has an
    operation left, and this is not [lock()] on a held mutex. *)
Definition can_move (t : tid) (m : machine F) : bool :=
  match rest_of t m with
  | [] => false
  | Acquire _ :: _ => match lock m with None => true | Some _ => false end
  | _ => true
  end.

(** A program takes and releases the mutex in turn and does not end
    holding it; [held] tells whether it holds the mutex at its start. *)
Fixpoint completes (held : bool) (p : list (op F)) : bool :=
  match p with
  | [] => negb held
  | Acquire _ :: rest => negb held && completes true rest
  | Release _ :: rest => held && completes false rest
  | _ :: rest => completes held rest
  end.

Definition settled (m : machine F) : Prop :=
  completes (holds UI m) (ui_rest m) = true
  /\ completes (holds Worker m) (worker_rest m) = true.

(** Both programs have run to their end. *)
Definition finished (m : machine F) : Prop :=
  ui_rest m = [] /\ worker_rest m = [].

Definition remaining (m : machine F) : nat :=
  List.length (ui_rest m) + List.length (worker_rest m).

End WithFloat.
End ThreadsMore.

(** * Theorems *)

(* ===================================================================== *)
(** ** Strings                                                            *)
(* ===================================================================== *)

Lemma prefix_app (p s : string) :
  String.prefix p s = true <-> exists r, s = (p ++ r)%string.
Proof.
  revert s; induction p as [|c p IH]; intros s.
  - split; [intros _; exists s; reflexivity | intros _; destruct s; reflexivity].
  - destruct s as [|d s]; simpl.
    + split; [discriminate | intros [r Hr]; discriminate].
    + destruct (Ascii.ascii_dec c d) as [->|Hne].
      * rewrite IH. split; intros [r Hr]; exists r; congruence.
      * split; [discriminate | intros [r Hr]; congruence].
Qed.

(** [sub in s] holds exactly when [s] is some text, then [sub], then some
    more text. *)
Lemma str_in_spec (sub s : string) :
  Py.str_in sub s = true <-> exists a b, s = (a ++ sub ++ b)%string.
Proof.
  induction s as [|c s IH].
  - cbn [Py.str_in]. rewrite orb_false_r, prefix_app. split.
    + intros [r Hr]. exists EmptyString, r. exact Hr.
    + intros [a [b Hab]]. destruct a; simpl in Hab; [exists b; exact Hab | discriminate].
  - cbn [Py.str_in]. rewrite orb_true_iff, prefix_app, IH. split.
    + intros [[r Hr] | [a [b Hab]]].
      * exists EmptyString, r. exact Hr.
      * exists (String c a), b. simpl. congruence.
    + intros [a [b Hab]]. destruct a as [|c' a]; simpl in Hab.
      * left. exists b. exact Hab.
      * right. exists a, b. congruence.
Qed.

(* ===================================================================== *)
(** ** [_get_smus]                                                        *)
(* ===================================================================== *)

(** The padding loop appends exactly the placeholders that are missing. *)
Lemma pad_smus_spec (l : list string) :
  pad_smus l = l ++ repeat placeholder (2 - List.length l).
Proof.
  funelim (pad_smus l).
  - rewrite H. rewrite List.length_app. simpl.
    destruct smu_list as [|a [|b rest]]; simpl in *; try reflexivity; lia.
  - replace (2 - List.length smu_list) with 0 by lia. simpl.
    rewrite app_nil_r. reflexivity.
Qed.

Lemma get_smus_try_cases (keithley : keithley_view) :
  Py.try_except (_get_smus_try keithley) (fun _ => default_smus)
  = match connected keithley, dir_ keithley with
    | Py.Present false, _ => default_smus
    | Py.Faulty _, _ => default_smus
    | _, Py.Raises _ => default_smus
    | _, Py.Returns names => filter (String.prefix "smu") names
    end.
Proof.
  unfold _get_smus_try.
  destruct (connected keithley) as [|[|]|e]; simpl; try reflexivity;
    destruct (dir_ keithley); reflexivity.
Qed.

Lemma get_smus_padded (keithley : keithley_view) :
  _get_smus keithley
  = Py.try_except (_get_smus_try keithley) (fun _ => default_smus)
    ++ repeat placeholder
         (2 - List.length (Py.try_except (_get_smus_try keithley) (fun _ => default_smus))).
Proof. unfold _get_smus. cbv zeta. apply pad_smus_spec. Qed.

Lemma get_smus_length (keithley : keithley_view) :
  2 <= List.length (_get_smus keithley).
Proof.
  rewrite get_smus_padded, List.length_app, List.repeat_length. lia.
Qed.

(** C8.  [_get_smus] always returns at least two entries: the attribute
    names that start with "smu" when the device is not known to be
    disconnected and they can be read, the default pair when it is
    disconnected or anything raises, in each case followed by as many
    "--" placeholders as are missing to reach two. *)
Theorem get_smus_at_least_two (keithley : keithley_view) :
  2 <= List.length (_get_smus keithley)
  /\ exists base,
      _get_smus keithley = base ++ repeat placeholder (2 - List.length base)
      /\ (connected keithley = Py.Present false -> base = default_smus)
      /\ (forall e, connected keithley = Py.Faulty e -> base = default_smus)
      /\ (forall e, connected keithley <> Py.Present false ->
                    dir_ keithley = Py.Raises e -> base = default_smus)
      /\ (forall names,
             connected keithley = Py.Present true \/ connected keithley = Py.Absent ->
             dir_ keithley = Py.Returns names ->
             base = filter (String.prefix "smu") names).
Proof.
  split; [apply get_smus_length|].
  eexists. split; [apply get_smus_padded|].
  rewrite get_smus_try_cases. repeat split.
  - intros ->. reflexivity.
  - intros e ->. reflexivity.
  - intros e Hc ->. destruct (connected keithley) as [|[|]|]; congruence.
  - intros names [-> | ->] ->; reflexivity.
Qed.

Example get_smus_one_channel :
  _get_smus (mkView (Py.Present true) (Py.Returns ["beeper"; "smua"; "visa"]))
  = ["smua"; "--"].
Proof. reflexivity. Qed.

Example get_smus_disconnected :
  _get_smus (mkView (Py.Present false) (Py.Returns ["smua"; "smub"; "smuc"]))
  = ["smu1"; "smu2"].
Proof. reflexivity. Qed.

(* ===================================================================== *)
(** ** [_string_to_vd]                                                    *)
(* ===================================================================== *)

(** C9.  [_string_to_vd] returns the float when the string parses as one;
    otherwise the string "trailing" when "trailing" occurs in the input;
    otherwise it raises [ValueError("Invalid drain voltage.")]. *)
Theorem string_to_vd_cases (F : Type) (PF : PyFloat F) (s : string) :
  (forall x, float_of_str s = Some x -> _string_to_vd s = Py.Returns (VdFloat x))
  /\ (float_of_str s = None ->
      (exists a b, s = (a ++ "trailing" ++ b)%string) ->
      _string_to_vd s = Py.Returns (VdStr "trailing"))
  /\ (float_of_str s = None ->
      ~ (exists a b, s = (a ++ "trailing" ++ b)%string) ->
      _string_to_vd s = Py.Raises (Py.ValueError "Invalid drain voltage.")).
Proof.
  unfold _string_to_vd, py_float. repeat split.
  - intros x ->. reflexivity.
  - intros -> Hin. apply str_in_spec in Hin. simpl. rewrite Hin. reflexivity.
  - intros -> Hin. simpl.
    destruct (Py.str_in "trailing" s) eqn:E; [|reflexivity].
    apply str_in_spec in E. contradiction.
Qed.

Example string_to_vd_number :
  _string_to_vd "-12.5" = Py.Returns (VdFloat (-(12 + (5 # 10)))%Q).
Proof. vm_compute. reflexivity. Qed.

Example string_to_vd_trailing :
  @_string_to_vd Q _ " trailing " = Py.Returns (VdStr "trailing").
Proof. vm_compute. reflexivity. Qed.

Example string_to_vd_invalid :
  @_string_to_vd Q _ "5V" = Py.Raises (Py.ValueError "Invalid drain voltage.").
Proof. vm_compute. reflexivity. Qed.

(* ===================================================================== *)
(** ** The gate and drain selectors                                       *)
(* ===================================================================== *)

Module SelectorFacts.
Import Selectors.

Lemma get_smus_length_two (keithley : keithley_view) :
  List.length (_get_smus keithley) < 3 -> List.length (_get_smus keithley) = 2.
Proof.
  intros Hlt. pose proof (get_smus_length keithley). lia.
Qed.

Lemma smu_prefix_not_placeholder (x : string) :
  String.prefix "smu" x = true -> x <> placeholder.
Proof.
  intros Hp ->. vm_compute in Hp. discriminate.
Qed.

(** A two-entry SMU list repeats a name only when both entries are the
    placeholder, provided [dir] lists each attribute once. *)
Lemma get_smus_two_names (keithley : keithley_view) :
  (forall names, dir_ keithley = Py.Returns names -> NoDup names) ->
  List.length (_get_smus keithley) = 2 ->
  exists a b, _get_smus keithley = [a; b] /\ (a = b -> a = placeholder).
Proof.
  intros Hnd Hlen. rewrite get_smus_padded in *.
  rewrite get_smus_try_cases in *.
  assert (Hdef : exists a b, default_smus ++
                   repeat placeholder (2 - List.length default_smus) = [a; b]
                   /\ (a = b -> a = placeholder)).
  { exists "smu1", "smu2". split; [reflexivity | discriminate]. }
  destruct (connected keithley) as [|[|]|e]; try exact Hdef;
    destruct (dir_ keithley) as [names|e']; try exact Hdef.
  all: specialize (Hnd names eq_refl).
  all: pose proof (NoDup_filter (String.prefix "smu") Hnd) as Hnf.
  all: pose proof (fun x => proj1 (filter_In (String.prefix "smu") x names)) as Hin.
  all: destruct (filter (String.prefix "smu") names) as [|a [|b rest]];
    simpl in *.
  all: try (exists placeholder, placeholder; split; [reflexivity | reflexivity]).
  all: try (exists a, placeholder; split; [reflexivity |];
            intros ->; exfalso;
            apply (@smu_prefix_not_placeholder placeholder); [|reflexivity];
            apply (Hin placeholder); left; reflexivity).
  all: destruct rest; simpl in Hlen; try discriminate.
  all: exists a, b; split; [reflexivity|]; intros ->;
    inversion Hnf as [|? ? Hnotin _]; exfalso; apply Hnotin; left; reflexivity.
Qed.

Lemma setCurrentIndex_S (fuel : nat) (s : selector) (w : SweepSettingsWidget) (i : Z) :
  setCurrentIndex (S fuel) s w i
  = if (target (get s w) i =? currentIndex (get s w))%Z then Some w
    else on_smu_changed (setCurrentIndex fuel (other s))
                        (put s (mkCombo (count (get s w)) (target (get s w) i)) w)
                        (target (get s w) i).
Proof. reflexivity. Qed.

Lemma on_smu_changed_two setOther (w : SweepSettingsWidget) (i : Z) :
  List.length (smu_list w) = 2 ->
  (i = 0 \/ i = 1)%Z ->
  on_smu_changed setOther w i = setOther w (1 - i)%Z.
Proof.
  intros Hlen [-> | ->]; unfold on_smu_changed; rewrite Hlen; reflexivity.
Qed.

Lemma target_two (c : combo) (i : Z) :
  count c = 2%Z -> (i = 0 \/ i = 1)%Z -> target c i = i.
Proof. intros Hc [-> | ->]; unfold target; rewrite Hc; reflexivity. Qed.

Lemma get_put_same (s : selector) (c : combo) (w : SweepSettingsWidget) :
  get s (put s c w) = c.
Proof. destruct s; reflexivity. Qed.

Lemma get_put_other (s : selector) (c : combo) (w : SweepSettingsWidget) :
  get (other s) (put s c w) = get (other s) w.
Proof. destruct s; reflexivity. Qed.

Lemma get_other_put (s : selector) (c : combo) (w : SweepSettingsWidget) :
  get s (put (other s) c w) = get s w.
Proof. destruct s; reflexivity. Qed.

Lemma smu_list_put (s : selector) (c : combo) (w : SweepSettingsWidget) :
  smu_list (put s c w) = smu_list w.
Proof. destruct s; reflexivity. Qed.

Lemma put_get (s : selector) (w : SweepSettingsWidget) :
  put s (get s w) w = w.
Proof. destruct s, w; reflexivity. Qed.

Lemma put_same (s : selector) (c : combo) (w : SweepSettingsWidget) :
  get s w = c -> put s c w = w.
Proof. intros <-. apply put_get. Qed.

(** The cascade of one user selection on a two-entry list: the selector
    takes the chosen index, the other one the remaining index. *)
Lemma user_selects_two (w : SweepSettingsWidget) (i : Z) (s : selector)
      (fuel : nat) :
  List.length (smu_list w) = 2 ->
  count (smu_gate w) = 2%Z -> count (smu_drain w) = 2%Z ->
  (i = 0 \/ i = 1)%Z ->
  currentIndex (get s w) <> i ->
  3 <= fuel ->
  user_selects fuel s w i
  = Some (put (other s) (mkCombo 2 (1 - i)) (put s (mkCombo 2 i) w)).
Proof.
  intros Hlen Hg Hd Hi Hne Hfuel.
  assert (Hc : forall s', count (get s' w) = 2%Z) by (intros []; assumption).
  assert (Hi' : (1 - i = 0 \/ 1 - i = 1)%Z) by lia.
  destruct fuel as [|[|[|fuel]]]; try lia.
  unfold user_selects.
  rewrite setCurrentIndex_S, (target_two _ (Hc s) Hi), Hc.
  destruct (Z.eqb_spec i (currentIndex (get s w))) as [E|_]; [congruence|].
  rewrite on_smu_changed_two by (rewrite ?smu_list_put; assumption).
  rewrite setCurrentIndex_S, get_put_other, (target_two _ (Hc (other s)) Hi'), Hc.
  destruct (Z.eqb_spec (1 - i) (currentIndex (get (other s) w))) as [E|_].
  - f_equal. symmetry. apply put_same.
    rewrite get_put_other. specialize (Hc (other s)).
    destruct (get (other s) w). cbn in *. congruence.
  - rewrite on_smu_changed_two by (rewrite ?smu_list_put; assumption).
    replace (1 - (1 - i))%Z with i by lia.
    replace (other (other s)) with s by (destruct s; reflexivity).
    rewrite setCurrentIndex_S, get_other_put, get_put_same.
    cbn [count currentIndex].
    rewrite (@target_two (mkCombo 2 i) i eq_refl Hi), Z.eqb_refl.
    reflexivity.
Qed.

(** C4.  With fewer than three selectable SMUs, a user change of the gate
    selector to index 0 leaves the drain selector at index 1, a change to
    index 1 leaves it at index 0, and the same with the two selectors
    exchanged; so after a change the two selectors point at different
    entries, and they show the same text only when both entries are the
    "--" placeholder, which names no SMU. *)
Theorem selectors_exclusive (keithley : keithley_view) (gate drain i : Z)
        (s : selector) (fuel : nat) :
  List.length (_get_smus keithley) < 3 ->
  (forall names, dir_ keithley = Py.Returns names -> NoDup names) ->
  (i = 0 \/ i = 1)%Z ->
  currentIndex (get s (of_smus (_get_smus keithley) gate drain)) <> i ->
  3 <= fuel ->
  exists w',
    user_selects fuel s (of_smus (_get_smus keithley) gate drain) i = Some w'
    /\ smu_list w' = _get_smus keithley
    /\ currentIndex (get s w') = i
    /\ currentIndex (get (other s) w') = (1 - i)%Z
    /\ currentIndex (smu_gate w') <> currentIndex (smu_drain w')
    /\ (currentText Gate w' = currentText Drain w' ->
        currentText Gate w' = placeholder).
Proof.
  intros Hlt Hnd Hi Hne Hfuel.
  pose proof (get_smus_length_two keithley Hlt) as Hlen.
  destruct (get_smus_two_names keithley Hnd Hlen) as [a [b [Hab Hsame]]].
  eexists. split.
  - apply user_selects_two; try assumption;
      unfold of_smus; cbn [smu_list smu_gate smu_drain count];
      rewrite ?Hlen; reflexivity.
  - rewrite Hab in *. unfold of_smus. cbn [List.length Z.of_nat].
    destruct s, Hi as [-> | ->]; cbn; repeat split; try lia; try discriminate;
      change (Pos.to_nat 1) with 1; cbn iota; intros E;
      assert (Eab : a = b) by congruence; specialize (Hsame Eab); congruence.
Qed.

(** A device with one channel: picking entry 1 ("--") as gate moves the
    drain to entry 0. *)
Lemma selectors_exclusive_witness :
  exists w',
    user_selects 3 Gate
      (of_smus (_get_smus (mkView (Py.Present true) (Py.Returns ["smua"]))) 0 1) 1
    = Some w'
    /\ smu_list w' = ["smua"; "--"]
    /\ currentIndex (smu_gate w') = 1%Z
    /\ currentIndex (smu_drain w') = 0%Z.
Proof.
  destruct (@selectors_exclusive
              (mkView (Py.Present true) (Py.Returns ["smua"])) 0 1 1 Gate 3)
    as [w' [H1 [H2 [H3 [H4 _]]]]].
  - vm_compute. lia.
  - intros names E. injection E as <-. repeat constructor. intros [].
  - right. reflexivity.
  - vm_compute. discriminate.
  - lia.
  - exists w'. repeat split; assumption.
Defined.

End SelectorFacts.

(* ===================================================================== *)
(** ** The sweep thread and the sweep button                              *)
(* ===================================================================== *)

Module SweepFacts.
Import Sweep.
Section WithFloat.

Context {F : Type} `{PyFloat F}.

Local Abbreviation dict := (@Sweep.dict F).
Local Abbreviation driver := (@Sweep.driver F).
Local Abbreviation gui := (@Sweep.gui F).

Lemma run_signals (keithley : driver) (params : dict) :
  filter is_result_signal (run keithley params)
  = match run_try keithley params with
    | Py.Returns t => [finished_sig t]
    | Py.Raises e => [error_sig e]
    end.
Proof.
  unfold run. destruct (run_try keithley params); reflexivity.
Qed.

Ltac sweep_branch :=
  cbn [Py.bind is_str String.eqb Ascii.eqb Bool.eqb].

Ltac sweep_finish keithley :=
  destruct (beep keithley _ _); sweep_branch; [|reflexivity];
  destruct (reset keithley); reflexivity.

Lemma dict_gets_head (k : string) (ks : list string) (d : dict) v vs :
  dict_gets (k :: ks) d = Py.Returns (v :: vs) ->
  dict_get k d = Py.Returns v /\ dict_gets ks d = Py.Returns vs.
Proof.
  cbn [dict_gets]. destruct (dict_get k d); cbn; [|discriminate].
  destruct (dict_gets ks d); cbn; [|discriminate].
  intros E. injection E as <- <-. split; reflexivity.
Qed.

(** C3.  Every run of [MeasureThread.run] delivers exactly one result
    signal: [finished_sig] with the result table when the driver calls of
    the selected shape, the beep and the reset all return, [error_sig]
    with the exception of the first step that raises.  For the transfer
    and the output shape the driver call is the measurement method on the
    nine parameters; for the IV shape the steps are [np.arange], the
    sweep of the SMU over the list and its reverse, and the transposition
    of the two columns into the rows of the table.  A missing parameter
    raises in the same way, and a shape that is none of the three gives
    [finished_sig] with no table. *)
Theorem run_one_result_signal (keithley : driver) (params : dict) :
  (exists s, filter is_result_signal (run keithley params) = [s])
  /\ (forall t, run_try keithley params = Py.Returns t <->
                filter is_result_signal (run keithley params) = [finished_sig t])
  /\ (forall e, run_try keithley params = Py.Raises e <->
                filter is_result_signal (run keithley params) = [error_sig e])
  /\ (forall args,
         dict_get "sweep_type" params = Py.Returns (VStr "transfer") ->
         dict_gets transfer_keys params = Py.Returns args ->
         filter is_result_signal (run keithley params)
         = after_sweep keithley (transfer_measurement keithley args))
  /\ (forall args,
         dict_get "sweep_type" params = Py.Returns (VStr "output") ->
         dict_gets output_keys params = Py.Returns args ->
         filter is_result_signal (run keithley params)
         = after_sweep keithley (output_measurement keithley args))
  /\ (forall vstop vstart vstep smu_sweep tInt delay pulsed,
         dict_get "sweep_type" params = Py.Returns (VStr "iv") ->
         dict_gets ["VStop"; "VStart"; "VStep"; "smu_sweep"; "tInt"; "delay";
                    "pulsed"] params
         = Py.Returns [VFloat vstop; VFloat vstart; VFloat vstep; smu_sweep;
                       tInt; delay; pulsed] ->
         filter is_result_signal (run keithley params)
         = match np_arange keithley vstart
                   (fadd vstop (fmul (fsign (fsub vstop vstart)) (fabs vstep)))
                   (fmul (fsign (fsub vstop vstart)) (fabs vstep)) with
           | Py.Raises e => [error_sig e]
           | Py.Returns l =>
               match voltage_sweep_single_smu keithley smu_sweep (l ++ rev l)
                                              tInt delay pulsed with
               | Py.Raises e => [error_sig e]
               | Py.Returns (v, i) =>
                   match np_transpose2 v i with
                   | Py.Raises e => [error_sig e]
                   | Py.Returns rows =>
                       match beep keithley (flit (3 # 10)) (flit (2400 # 1)) with
                       | Py.Raises e => [error_sig e]
                       | Py.Returns _ =>
                           match reset keithley with
                           | Py.Raises e => [error_sig e]
                           | Py.Returns _ =>
                               [finished_sig
                                  (Some (mkTable ["Voltage"; "Current"] ["V"; "A"]
                                                 rows
                                                 [("sweep_type", VStr "iv");
                                                  ("t_int", tInt);
                                                  ("delay", delay);
                                                  ("pulsed", pulsed)]))]
                           end
                       end
                   end
               end
           end)
  /\ (forall e,
         dict_get "sweep_type" params = Py.Raises e ->
         filter is_result_signal (run keithley params) = [error_sig e])
  /\ (forall e,
         (dict_get "sweep_type" params = Py.Returns (VStr "transfer")
          /\ dict_gets transfer_keys params = Py.Raises e)
         \/ (dict_get "sweep_type" params = Py.Returns (VStr "output")
             /\ dict_gets output_keys params = Py.Raises e) ->
         filter is_result_signal (run keithley params) = [error_sig e])
  /\ (forall ty,
         dict_get "sweep_type" params = Py.Returns ty ->
         is_str ty "transfer" = false -> is_str ty "output" = false ->
         is_str ty "iv" = false ->
         filter is_result_signal (run keithley params)
         = match beep keithley (flit (3 # 10)) (flit (2400 # 1)) with
           | Py.Raises e => [error_sig e]
           | Py.Returns _ =>
               match reset keithley with
               | Py.Raises e => [error_sig e]
               | Py.Returns _ => [finished_sig None]
               end
           end).
Proof.
  rewrite run_signals.
  split; [|split; [|split; [|split; [|split; [|split; [|split; [|split]]]]]]].
  - destruct (run_try keithley params); eexists; reflexivity.
  - intros t. destruct (run_try keithley params); split; congruence.
  - intros e. destruct (run_try keithley params); split; congruence.
  - intros args Hty Hargs. unfold run_try, after_sweep.
    rewrite Hty. sweep_branch. rewrite Hargs. sweep_branch.
    destruct (transfer_measurement keithley args); sweep_branch; [|reflexivity].
    sweep_finish keithley.
  - intros args Hty Hargs. unfold run_try, after_sweep.
    rewrite Hty. sweep_branch. rewrite Hargs. sweep_branch.
    destruct (output_measurement keithley args); sweep_branch; [|reflexivity].
    sweep_finish keithley.
  - intros vstop vstart vstep smu_sweep tInt delay pulsed Hty Hargs.
    repeat match type of Hargs with
           | dict_gets (_ :: _) _ = Py.Returns (_ :: _) =>
               let Hg := fresh "Hget" in
               apply dict_gets_head in Hargs; destruct Hargs as [Hg Hargs]
           end.
    unfold run_try, iv_sweep. rewrite Hty. sweep_branch.
    repeat match goal with
           | Hg : dict_get _ params = _ |- _ => rewrite Hg; clear Hg
           end.
    cbn [Py.bind as_float].
    destruct (np_arange keithley _ _ _) as [l|e]; cbn [Py.bind]; [|reflexivity].
    destruct (voltage_sweep_single_smu keithley _ _ _ _ _) as [[v i]|e];
      cbn [Py.bind fst snd]; [|reflexivity].
    destruct (np_transpose2 v i) as [rows|e]; cbn [Py.bind]; [|reflexivity].
    sweep_finish keithley.
  - intros e Hty. unfold run_try. rewrite Hty. reflexivity.
  - intros e [[Hty Hargs] | [Hty Hargs]]; unfold run_try; rewrite Hty;
      sweep_branch; rewrite Hargs; reflexivity.
  - intros ty Hty H1 H2 H3. unfold run_try. rewrite Hty. cbn [Py.bind].
    rewrite H1, H2, H3. cbn [Py.bind].
    sweep_finish keithley.
Qed.

(** The check of the integration time, case by case. *)
Lemma tint_invalid_cases (freq tInt : F) :
  match tint_invalid freq tInt with
  | Py.Returns false => tint_in_bounds freq tInt
  | Py.Returns true => ~ tint_in_bounds freq tInt
  | Py.Raises _ => ~ bounds_defined freq
  end.
Proof.
  unfold tint_invalid, float_div, tint_in_bounds, bounds_defined.
  destruct (fdiv (flit (1 # 1000)) freq) as [lo|] eqn:Elo; cbn.
  - destruct (flt lo tInt) eqn:Elt; cbn.
    + destruct (fdiv (flit (25 # 1)) freq) as [hi|] eqn:Ehi; cbn.
      * destruct (flt tInt hi) eqn:Ehi'; cbn.
        -- exists lo, hi. auto.
        -- intros [lo' [hi' [E1 [E2 [E3 E4]]]]]. congruence.
      * intros [_ Hd]. congruence.
    + intros [lo' [hi' [E1 [E2 [E3 E4]]]]]. congruence.
  - intros [Hd _]. congruence.
Qed.

(** Up to the check, the slot only writes to the status bar. *)
Lemma on_sweep_clicked_reaching (g : gui) :
  reaches_validation g ->
  exists msg params,
    on_sweep_clicked g
    = match tint_invalid (linefreq g) (t_int g) with
      | Py.Returns true =>
          ([StatusBar msg;
            MessageBox "Parameter Error" (parameter_error_msg (linefreq g))],
           Py.Returns tt)
      | Py.Returns false =>
          ([StatusBar msg; GuiStateBusy; StartMeasureThread params], Py.Returns tt)
      | Py.Raises e => ([StatusBar msg], Py.Raises e)
      end.
Proof.
  intros [Hbusy [Happly [Htab [Hgate Hdrain]]]].
  unfold on_sweep_clicked, tab_params, keithley_getattr.
  rewrite Hbusy, Happly, Hgate, Hdrain.
  destruct Htab as [-> | [-> | [-> Hsweep]]]; try rewrite Hsweep;
    cbn -[tint_invalid dict_set];
    destruct (tint_invalid (linefreq g) (t_int g)) as [[|]|e];
    cbn -[dict_set]; do 2 eexists.
  all: try reflexivity.
  all: exact [].
Qed.

(** A measurement thread is only ever started past the check. *)
Lemma started_in_bounds (g : gui) :
  started g = true -> tint_in_bounds (linefreq g) (t_int g).
Proof.
  unfold started, on_sweep_clicked, tab_params, keithley_getattr.
  pose proof (tint_invalid_cases (linefreq g) (t_int g)) as Hc.
  destruct (busy g); [discriminate|].
  destruct (apply_smu_settings g) as [[]|]; [|discriminate].
  destruct (tab_index g =? 0)%Z; [|destruct (tab_index g =? 1)%Z;
                                    [|destruct (tab_index g =? 2)%Z;
                                      [destruct (has_smu g (smu_sweep_text g))|]]];
    cbn -[tint_invalid dict_set]; try discriminate.
  all: destruct (has_smu g (smu_gate_text g)); cbn -[tint_invalid dict_set];
    try discriminate.
  all: destruct (has_smu g (smu_drain_text g)); cbn -[tint_invalid dict_set];
    try discriminate.
  all: destruct (tint_invalid (linefreq g) (t_int g)) as [[|]|e];
    cbn -[dict_set]; try discriminate; intros _; exact Hc.
Qed.

(** C5.  The measurement thread is started only when the integration time
    lies strictly between 0.001/freq and 25.0/freq.  When the slot gets as
    far as this check (and the line frequency is not zero), the thread is
    started if the time is inside the bounds; otherwise the "Parameter
    Error" dialog is shown and the slot returns without starting
    anything. *)
Theorem on_sweep_clicked_validates (g : gui) :
  (started g = true -> tint_in_bounds (linefreq g) (t_int g))
  /\ (reaches_validation g -> bounds_defined (linefreq g) ->
      (tint_in_bounds (linefreq g) (t_int g) ->
       started g = true /\ parameter_error_shown g = false)
      /\ (~ tint_in_bounds (linefreq g) (t_int g) ->
          parameter_error_shown g = true /\ started g = false
          /\ Act.outcome (on_sweep_clicked g) = Py.Returns tt)).
Proof.
  split; [apply started_in_bounds|].
  intros Hreach Hdef.
  destruct (on_sweep_clicked_reaching Hreach) as [msg [params Hrun]].
  pose proof (tint_invalid_cases (linefreq g) (t_int g)) as Hc.
  unfold started, parameter_error_shown. rewrite Hrun.
  destruct (tint_invalid (linefreq g) (t_int g)) as [[|]|e].
  - split; [intros Hin; contradiction|]. intros _. repeat split.
  - split; [intros _; split; reflexivity | intros Hout; contradiction].
  - contradiction.
Qed.

End WithFloat.
End SweepFacts.

(** An IV sweep on a driver whose sweep call raises: the exception is
    what the run reports. *)
Lemma run_one_result_signal_witness :
  filter Sweep.is_result_signal
         (Sweep.run MoreSamples.failing_sweep
            (MoreSamples.first_thread
               (Act.effects (Sweep.on_sweep_clicked (MoreSamples.sweep_gui_on 2)))))
  = [Sweep.error_sig MoreSamples.no_answer].
Proof.
  destruct (@SweepFacts.run_one_result_signal
              Q _ MoreSamples.failing_sweep
              (MoreSamples.first_thread
                 (Act.effects (Sweep.on_sweep_clicked (MoreSamples.sweep_gui_on 2)))))
    as [_ [_ [_ [_ [_ [Hiv _]]]]]].
  rewrite (Hiv (-(3 # 1))%Q (0 # 1)%Q (1 # 1)%Q (Sweep.VSmu "smub")
               (Sweep.VFloat (1 # 10)%Q) (Sweep.VFloat (-1 # 1)%Q)
               (Sweep.VBool true) eq_refl eq_refl).
  reflexivity.
Defined.

(* ===================================================================== *)
(** ** The real-time measurement thread                                   *)
(* ===================================================================== *)

Module RealtimeFacts.
Import Realtime.
Section WithFloat.

Context {F : Type} `{PyFloat F}.

Local Abbreviation thread := (@Realtime.thread F).
Local Abbreviation iteration := (@Realtime.iteration F).
Local Abbreviation event := (@Realtime.event F).
Local Abbreviation ui_call := (@Realtime.ui_call F).
Local Abbreviation real_env := (@Realtime.real_env F).
Local Abbreviation sim_env := (@Realtime.sim_env F).
Local Abbreviation schedule := (@Realtime.schedule F).

(** *** Calls from the UI thread leave everything but the flag and the
    setpoint alone *)

Lemma ui_calls_frame (cs : list ui_call) (st : thread) :
  interval (ui_calls cs st) = interval st
  /\ time_data (ui_calls cs st) = time_data st
  /\ voltage_data (ui_calls cs st) = voltage_data st
  /\ current_data (ui_calls cs st) = current_data st
  /\ start_time (ui_calls cs st) = start_time st
  /\ k_has_reset (ui_calls cs st) = k_has_reset st.
Proof.
  revert st. induction cs as [|c cs IH]; intros st; [repeat split|].
  cbn [ui_calls fold_left]. fold (ui_calls cs (ui_apply c st)).
  destruct (IH (ui_apply c st)) as [H1 [H2 [H3 [H4 [H5 H6]]]]].
  rewrite H1, H2, H3, H4, H5, H6. destruct c; repeat split.
Qed.

Lemma ui_calls_running (cs : list ui_call) (st : thread) :
  running (ui_calls cs st) = running st && negb (existsb is_stop cs).
Proof.
  revert st. induction cs as [|c cs IH]; intros st.
  - cbn. rewrite andb_true_r. reflexivity.
  - cbn [ui_calls fold_left]. fold (ui_calls cs (ui_apply c st)).
    rewrite IH. destruct c; cbn; [|reflexivity].
    rewrite andb_false_r. reflexivity.
Qed.

(** *** One pass of the real-device loop *)

Lemma recovery_no_signal (env : real_env) (st : thread) :
  existsb is_error_sig (recovery env st) = false
  /\ existsb is_read (recovery env st) = false
  /\ existsb is_finished_sig (recovery env st) = false.
Proof.
  unfold recovery. destruct (k_has_reset st); [|repeat split].
  destruct (reset_outcome env); repeat split.
Qed.

Lemma read_ok_cases (env : real_env) :
  match (v <- measure_v env ;; i <- measure_i env ;; Py.Returns (v, i)) with
  | Py.Returns _ => read_ok env = true
  | Py.Raises _ => read_ok env = false
  end.
Proof.
  unfold read_ok. destruct (measure_v env); [|reflexivity].
  destruct (measure_i env); reflexivity.
Qed.

(** A pass resets the counter on a successful read and increments it on a
    failed one; it emits [error_sig] and breaks exactly when the counter
    reaches three. *)
Lemma real_iteration_counter (env : real_env) (st : thread) (c : nat) :
  c < 3 ->
  let it := real_iteration env st c in
  errors_after it = (if read_ok env then 0 else S c)
  /\ failed it = negb (read_ok env)
  /\ (existsb is_error_sig (events it) = true <-> errors_after it = 3)
  /\ (leaves it = Break <-> errors_after it = 3)
  /\ errors_after it <= 3
  /\ (sleep_ok (interval st) = true -> errors_after it < 3 -> leaves it = Next).
Proof.
  intros Hc it. subst it. unfold real_iteration, time_sleep.
  pose proof (read_ok_cases env) as Hok.
  destruct (recovery_no_signal env st) as [Hrec _].
  assert (Hreads : existsb is_error_sig (read_calls env) = false)
    by (unfold read_calls; destruct (measure_v env); reflexivity).
  destruct (v <- measure_v env ;; i <- measure_i env ;; Py.Returns (v, i))
    as [[v i]|e]; rewrite Hok.
  - cbn [errors_after failed emitted events leaves negb].
    rewrite existsb_app, Hreads. cbn.
    repeat split; intros; try reflexivity; try lia; try discriminate.
    + destruct (sleep_ok (interval st)); discriminate.
    + match goal with Hs : sleep_ok _ = true |- _ => rewrite Hs end. reflexivity.
  - destruct (Py.is_VisaIOError e);
      destruct (Py.str_in "VI_ERROR_TMO" (Py.exn_str e));
      destruct c as [|[|[|c]]]; try lia;
      cbn [max_consecutive_errors Nat.leb Nat.add errors_after failed emitted
           events leaves negb];
      rewrite ?existsb_app, ?Hreads, ?Hrec; cbn;
      repeat split; try lia; try discriminate; try reflexivity;
      intros; try lia; try reflexivity; try discriminate.
Qed.

Lemma real_iteration_frame (env : real_env) (st : thread) (c : nat) :
  interval (after (real_iteration env st c)) = interval st
  /\ start_time (after (real_iteration env st c)) = start_time st.
Proof.
  unfold real_iteration.
  destruct (v <- measure_v env ;; i <- measure_i env ;; Py.Returns (v, i))
    as [[v i]|e].
  - cbn [after]. destruct (ui_calls_frame (ui_during env)
                   (append_sample (fsub (now env) (start_time st)) v i st))
      as [-> [_ [_ [_ [-> _]]]]]. split; reflexivity.
  - destruct (ui_calls_frame (ui_during env) st) as [Hi [_ [_ [_ [Hs _]]]]].
    destruct (Py.is_VisaIOError e);
      repeat match goal with |- context [if ?b then _ else _] => destruct b end;
      cbn [after]; rewrite Hi, Hs; split; reflexivity.
Qed.

Lemma consecutive_failures_cons (c : nat) (ok : bool) (oks : list bool) :
  consecutive_failures c (ok :: oks)
  = consecutive_failures (if ok then 0 else S c) oks.
Proof. reflexivity. Qed.

Lemma trace_of_cons (it : iteration) (its : list iteration) :
  trace_of (it :: its) = events it ++ trace_of its.
Proof. reflexivity. Qed.

(** The loop and the counter of the spec agree, pass by pass. *)
Lemma real_loop_counter (envs : list real_env) :
  forall (st : thread) (c : nat) its ex st',
    c < 3 ->
    real_loop envs st c = (its, ex, st') ->
    (forall k it,
        nth_error its k = Some it ->
        errors_after it = consecutive_failures c (map read_ok (firstn (S k) envs))
        /\ (existsb is_error_sig (events it) = true <-> errors_after it = 3)
        /\ (leaves it = Break <-> errors_after it = 3)
        /\ (sleep_ok (interval st) = true -> errors_after it < 3 -> leaves it = Next))
    /\ (ex = Threshold <-> existsb is_error_sig (trace_of its) = true)
    /\ (sleep_ok (interval st) = true -> forall e, ex <> Raised e).
Proof.
  induction envs as [|env rest IH]; intros st c its ex st' Hc Hrun;
    cbn [real_loop] in Hrun.
  - destruct (negb (running st)); injection Hrun as <- <- <-;
      (split; [intros [|k] it Hk; discriminate|]);
      split; try (split; discriminate); intros; discriminate.
  - destruct (negb (running st)).
    { injection Hrun as <- <- <-.
      split; [intros [|k] it Hk; discriminate|].
      split; [split; discriminate | intros; discriminate]. }
    pose proof (real_iteration_counter env st Hc) as Hit. cbv zeta in Hit.
    destruct Hit as [Hcnt [_ [Hsig [Hbrk [Hle Hnext]]]]].
    destruct (real_iteration_frame env st c) as [Hint _].
    set (it0 := real_iteration env st c) in *.
    destruct (leaves it0) eqn:Hleave.
    + assert (Hlt : errors_after it0 < 3).
      { destruct (Nat.eq_dec (errors_after it0) 3) as [E|E]; [|lia].
        apply Hbrk in E. discriminate. }
      destruct (real_loop rest (after it0) (errors_after it0))
        as [[its' ex'] st''] eqn:Hrest.
      injection Hrun as <- <- <-.
      destruct (IH _ _ _ _ _ Hlt Hrest) as [IHk [IHex IHraise]].
      rewrite Hint in *.
      split; [|split].
      * intros [|k] it Hk.
        -- injection Hk as <-. cbn [firstn map].
           rewrite consecutive_failures_cons. cbn [consecutive_failures fold_left].
           rewrite Hleave. repeat split; auto; try apply Hsig; try apply Hbrk;
             intros; try discriminate; try lia.
        -- cbn [nth_error] in Hk. cbn [firstn map].
           rewrite consecutive_failures_cons, <- Hcnt. apply IHk. exact Hk.
      * rewrite trace_of_cons, existsb_app, IHex.
        destruct (existsb is_error_sig (events it0)) eqn:E; [|reflexivity].
        exfalso. assert (errors_after it0 = 3) by (apply Hsig; reflexivity). lia.
      * exact IHraise.
    + injection Hrun as <- <- <-.
      assert (E3 : errors_after it0 = 3) by (apply Hbrk; reflexivity).
      split; [|split].
      * intros [|[|k]] it Hk; try discriminate.
        injection Hk as <-. cbn [firstn map].
        rewrite consecutive_failures_cons. cbn [consecutive_failures fold_left].
        rewrite Hleave. repeat split; auto; try apply Hsig; intros; try lia.
      * rewrite trace_of_cons, existsb_app.
        replace (existsb is_error_sig (events it0)) with true
          by (symmetry; apply Hsig; exact E3).
        split; reflexivity.
      * intros; discriminate.
    + injection Hrun as <- <- <-.
      assert (E3 : errors_after it0 <> 3)
        by (intros E3; apply Hbrk in E3; discriminate).
      split; [|split].
      * intros [|[|k]] it Hk; try discriminate.
        injection Hk as <-. cbn [firstn map].
        rewrite consecutive_failures_cons. cbn [consecutive_failures fold_left].
        rewrite Hleave. repeat split; auto; try apply Hsig; try apply Hbrk;
          intros; try discriminate; try lia.
      * rewrite trace_of_cons, existsb_app. cbn [trace_of map List.concat existsb].
        rewrite orb_false_r.
        split; [discriminate|]. intros E. apply Hsig in E. contradiction.
      * intros Hs e' _.
        assert (Propagate e = Next) by (apply Hnext; [assumption | lia]).
        discriminate.
Qed.

(** *** [run] in terms of its loops *)

Lemma run_device_mode (sch : schedule) (st : thread) its ex st' :
  simulation_mode st = false ->
  k_connected st = Py.Present true ->
  smu st <> None ->
  run_device (now0 sch) (real_envs sch) (raise_timeout st) = (its, ex, st') ->
  trace (run sch st) = trace_of its ++ closing ex
  /\ ended (run sch st) = negb (unfinished ex).
Proof.
  intros Hsim Hconn Hsmu Hrun. unfold run, run_body.
  rewrite Hsim, Hconn. cbn [Py.hasattr Py.getattr Py.bind negb].
  destruct (smu st) as [name|]; [|congruence].
  rewrite Hrun.
  destruct ex; cbn [end_of closing unfinished negb trace ended];
    repeat match goal with
           | |- context [match ?x with Some _ => _ | None => _ end] => destruct x
           end; cbn [trace ended]; rewrite ?app_nil_r; split; reflexivity.
Qed.

Lemma run_simulation_mode (sch : schedule) (st : thread) its ex st' :
  simulation_mode st = true ->
  _run_simulation (now0 sch) (sim_envs sch) st = (its, ex, st') ->
  trace (run sch st) = trace_of its ++ closing ex
  /\ ended (run sch st) = negb (unfinished ex).
Proof.
  intros Hsim Hrun. unfold run, run_body. rewrite Hsim, Hrun.
  destruct ex; cbn [end_of closing unfinished negb trace ended];
    repeat match goal with
           | |- context [match ?x with Some _ => _ | None => _ end] => destruct x
           end; cbn [trace ended]; rewrite ?app_nil_r; split; reflexivity.
Qed.

Lemma raise_timeout_frame (st : thread) :
  interval (raise_timeout st) = interval st
  /\ running (raise_timeout st) = running st
  /\ simulation_mode (raise_timeout st) = simulation_mode st.
Proof.
  unfold raise_timeout.
  destruct (k_visa_timeout st); [destruct (k_set_timeout st)|]; repeat split.
Qed.

(** *** How far the loops get *)

Lemma real_iteration_running (env : real_env) (st : thread) (c : nat) :
  running (after (real_iteration env st c))
  = running st && negb (existsb is_stop (ui_during env)).
Proof.
  unfold real_iteration.
  destruct (v <- measure_v env ;; i <- measure_i env ;; Py.Returns (v, i))
    as [[v i]|e].
  - cbn [after]. rewrite ui_calls_running. reflexivity.
  - destruct (Py.is_VisaIOError e);
      repeat match goal with |- context [if ?b then _ else _] => destruct b end;
      cbn [after]; rewrite ui_calls_running; reflexivity.
Qed.

Lemma real_iteration_measure_v (env : real_env) (st : thread) (c : nat) :
  filter is_measure_v (events (real_iteration env st c)) = [MeasureV].
Proof.
  unfold real_iteration.
  assert (Hrec : filter is_measure_v (recovery env st) = []).
  { unfold recovery. destruct (k_has_reset st); [|reflexivity].
    destruct (reset_outcome env); reflexivity. }
  assert (Hreads : filter is_measure_v (read_calls env) = [MeasureV])
    by (unfold read_calls; destruct (measure_v env); reflexivity).
  destruct (v <- measure_v env ;; i <- measure_i env ;; Py.Returns (v, i))
    as [[v i]|e];
    [|destruct (Py.is_VisaIOError e);
      repeat match goal with |- context [if ?b then _ else _] => destruct b end];
    cbn [events]; rewrite ?filter_app, ?Hreads, ?Hrec; reflexivity.
Qed.

Lemma sim_iteration_pass (env : sim_env) (st : thread) (t : F) :
  running (after (sim_iteration env st t))
  = running st && negb (existsb is_stop (ui_before env ++ ui_after env))
  /\ interval (after (sim_iteration env st t)) = interval st
  /\ (leaves (sim_iteration env st t) = Next <-> sleep_ok (interval st) = true)
  /\ leaves (sim_iteration env st t) <> Break
  /\ List.length (payloads_of (events (sim_iteration env st t))) = 1
  /\ (exists x, emitted (sim_iteration env st t) = Some x).
Proof.
  unfold sim_iteration. cbn [after leaves events emitted].
  rewrite !ui_calls_running. cbn [append_sample running].
  rewrite ui_calls_running, existsb_app, negb_orb, andb_assoc.
  split; [reflexivity|].
  destruct (ui_calls_frame (ui_after env)
              (append_sample t (current_voltage (ui_calls (ui_before env) st))
                 (sim_current (current_voltage (ui_calls (ui_before env) st)) t
                              (uniform env))
                 (ui_calls (ui_before env) st))) as [-> _].
  cbn [append_sample interval].
  destruct (ui_calls_frame (ui_before env) st) as [-> _].
  split; [reflexivity|]. unfold time_sleep.
  destruct (sleep_ok (interval st)); repeat split; try discriminate;
    try reflexivity; eexists; reflexivity.
Qed.

Lemma payloads_split (a b : list event) :
  payloads_of (a ++ b) = payloads_of a ++ payloads_of b.
Proof. apply flat_map_app. Qed.

Lemma emissions_step (it : iteration) (its : list iteration) :
  emissions (it :: its)
  = match emitted it with Some x => [x] | None => [] end ++ emissions its.
Proof. reflexivity. Qed.

Lemma stop_seen_real_cons (env : real_env) (envs : list real_env) :
  stop_seen_real (env :: envs)
  = existsb is_stop (ui_during env) || stop_seen_real envs.
Proof. reflexivity. Qed.

Lemma stop_seen_sim_cons (env : sim_env) (envs : list sim_env) :
  stop_seen_sim (env :: envs)
  = existsb is_stop (ui_before env ++ ui_after env) || stop_seen_sim envs.
Proof. reflexivity. Qed.

(** The real-device loop makes a first pass when the flag is set and the
    schedule has an environment; after a pass it makes another one
    exactly when the counter is below three, nobody has called [stop()]
    and the schedule goes on.  It is reported unfinished only when the
    schedule has run out. *)
Lemma real_loop_progress (envs : list real_env) :
  forall (st : thread) (c : nat) its ex st',
    c < 3 ->
    sleep_ok (interval st) = true ->
    real_loop envs st c = (its, ex, st') ->
    (its = [] <-> running st = false \/ envs = [])
    /\ (forall k it,
           nth_error its k = Some it ->
           (S k < List.length its
            <-> errors_after it < 3
                /\ stop_seen_real (firstn (S k) envs) = false
                /\ S k < List.length envs))
    /\ (ex = Unfinished -> List.length its = List.length envs)
    /\ List.length (filter is_measure_v (trace_of its)) = List.length its.
Proof.
  induction envs as [|env rest IH]; intros st c its ex st' Hc Hs Hrun;
    cbn [real_loop] in Hrun.
  - destruct (negb (running st)); injection Hrun as <- <- <-;
      (split; [split; [intros _; right; reflexivity | reflexivity]|]);
      (split; [intros [|k] it Hk; discriminate|]);
      split; reflexivity.
  - destruct (running st) eqn:Hr; cbn [negb] in Hrun.
    2:{ injection Hrun as <- <- <-.
        split; [split; [intros _; left; reflexivity | reflexivity]|].
        split; [intros [|k] it Hk; discriminate|].
        split; [discriminate | reflexivity]. }
    pose proof (real_iteration_counter env st Hc) as Hit. cbv zeta in Hit.
    destruct Hit as [_ [_ [_ [Hbrk [Hle Hnext]]]]].
    destruct (real_iteration_frame env st c) as [Hint _].
    pose proof (real_iteration_running env st c) as Hrun'.
    pose proof (real_iteration_measure_v env st c) as Hmv.
    rewrite Hr in Hrun'. cbn [andb] in Hrun'.
    set (it0 := real_iteration env st c) in *.
    destruct (leaves it0) eqn:Hleave.
    + assert (Hlt : errors_after it0 < 3).
      { destruct (Nat.eq_dec (errors_after it0) 3) as [E|E]; [|lia].
        apply Hbrk in E. discriminate. }
      destruct (real_loop rest (after it0) (errors_after it0))
        as [[its' ex'] st''] eqn:Hrest.
      injection Hrun as <- <- <-.
      assert (Hs' : sleep_ok (interval (after it0)) = true) by (rewrite Hint; exact Hs).
      destruct (IH _ _ _ _ _ Hlt Hs' Hrest) as [IH0 [IHk [IHun IHmv]]].
      split; [split; [discriminate | intros [E|E]; discriminate]|].
      split; [|split].
      * intros [|k] it Hk.
        -- injection Hk as <-. cbn [List.length firstn].
           rewrite stop_seen_real_cons. cbn [stop_seen_real existsb].
           rewrite orb_false_r.
           split.
           ++ intros Hlen. split; [exact Hlt|].
              assert (Hne : its' <> []) by (destruct its'; [cbn in Hlen; lia|discriminate]).
              destruct (existsb is_stop (ui_during env)) eqn:Est.
              ** exfalso. apply Hne, IH0. left. rewrite Hrun'. reflexivity.
              ** split; [reflexivity|]. destruct rest; [|cbn; lia].
                 exfalso. apply Hne, IH0. right. reflexivity.
           ++ intros [_ [Est Hlen]].
              assert (Hne : its' <> []).
              { intros E. apply IH0 in E. destruct E as [E|E].
                - rewrite Hrun', Est in E. discriminate.
                - subst rest. cbn in Hlen. lia. }
              destruct its'; [congruence|cbn; lia].
        -- cbn [nth_error] in Hk. cbn [List.length].
           assert (Hne : its' <> []) by (intros E; subst its'; destruct k; discriminate).
           assert (Est : existsb is_stop (ui_during env) = false).
           { destruct (existsb is_stop (ui_during env)) eqn:Est; [|reflexivity].
             exfalso. apply Hne, IH0. left. rewrite Hrun'. reflexivity. }
           cbn [firstn]. rewrite stop_seen_real_cons, Est. cbn [orb].
           destruct (IHk k it Hk) as [H1 H2]. split.
           ++ intros Hlen. destruct H1 as [Ha [Hb Hd]]; [lia|].
              repeat split; try assumption. lia.
           ++ intros [Ha [Hb Hd]]. assert (S k < List.length its'); [|lia].
              apply H2. repeat split; try assumption. lia.
      * intros E. cbn [List.length]. rewrite (IHun E). reflexivity.
      * rewrite trace_of_cons, filter_app, List.length_app, Hmv, IHmv. reflexivity.
    + injection Hrun as <- <- <-.
      assert (E3 : errors_after it0 = 3) by (apply Hbrk; reflexivity).
      split; [split; [discriminate | intros [E|E]; discriminate]|].
      split; [|split].
      * intros [|[|k]] it Hk; try discriminate. injection Hk as <-.
        cbn [List.length]. split; [lia | intros [Ha _]; lia].
      * discriminate.
      * rewrite trace_of_cons, filter_app, Hmv. reflexivity.
    + exfalso.
      assert (errors_after it0 < 3).
      { destruct (Nat.eq_dec (errors_after it0) 3) as [E|E]; [|lia].
        apply Hbrk in E. discriminate. }
      assert (Propagate e = Next) by (apply Hnext; assumption). discriminate.
Qed.

(** The simulation loop makes a first pass when the flag is set and the
    schedule has an environment; after a pass it makes another one
    exactly when [time.sleep] accepted the interval, nobody has called
    [stop()] and the schedule goes on.  Every pass emits one payload. *)
Lemma sim_loop_progress (envs : list sim_env) :
  forall (st : thread) (t : F) its ex st',
    sim_loop envs st t = (its, ex, st') ->
    (its = [] <-> running st = false \/ envs = [])
    /\ (forall k it,
           nth_error its k = Some it ->
           (S k < List.length its
            <-> sleep_ok (interval st) = true
                /\ stop_seen_sim (firstn (S k) envs) = false
                /\ S k < List.length envs))
    /\ (ex = Unfinished -> List.length its = List.length envs)
    /\ List.length (payloads_of (trace_of its)) = List.length its
    /\ List.length (emissions its) = List.length its.
Proof.
  induction envs as [|env rest IH]; intros st t its ex st' Hrun;
    cbn [sim_loop] in Hrun.
  - destruct (negb (running st)); injection Hrun as <- <- <-;
      (split; [split; [intros _; right; reflexivity | reflexivity]|]);
      (split; [intros [|k] it Hk; discriminate|]);
      repeat split; reflexivity.
  - destruct (running st) eqn:Hr; cbn [negb] in Hrun.
    2:{ injection Hrun as <- <- <-.
        split; [split; [intros _; left; reflexivity | reflexivity]|].
        split; [intros [|k] it Hk; discriminate|].
        split; [discriminate | split; reflexivity]. }
    destruct (sim_iteration_pass env st t) as [Hrun' [Hint [Hnext [Hnb [Hpay [x Hem]]]]]].
    rewrite Hr in Hrun'. cbn [andb] in Hrun'.
    set (it0 := sim_iteration env st t) in *.
    assert (Hem1 : List.length (emissions [it0]) = 1)
      by (rewrite emissions_step, Hem; reflexivity).
    destruct (leaves it0) eqn:Hleave.
    + assert (Hs : sleep_ok (interval st) = true) by (apply Hnext; reflexivity).
      destruct (sim_loop rest (after it0) (fadd t (interval st)))
        as [[its' ex'] st''] eqn:Hrest.
      injection Hrun as <- <- <-.
      destruct (IH _ _ _ _ _ Hrest) as [IH0 [IHk [IHun [IHpay IHem]]]].
      rewrite Hint in IHk.
      split; [split; [discriminate | intros [E|E]; discriminate]|].
      split; [|split; [|split]].
      * intros [|k] it Hk.
        -- injection Hk as <-. cbn [List.length firstn].
           rewrite stop_seen_sim_cons. cbn [stop_seen_sim existsb].
           rewrite orb_false_r.
           split.
           ++ intros Hlen. split; [exact Hs|].
              assert (Hne : its' <> []) by (destruct its'; [cbn in Hlen; lia|discriminate]).
              destruct (existsb is_stop (ui_before env ++ ui_after env)) eqn:Est.
              ** exfalso. apply Hne, IH0. left. rewrite Hrun'. reflexivity.
              ** split; [reflexivity|]. destruct rest; [|cbn; lia].
                 exfalso. apply Hne, IH0. right. reflexivity.
           ++ intros [_ [Est Hlen]].
              assert (Hne : its' <> []).
              { intros E. apply IH0 in E. destruct E as [E|E].
                - rewrite Hrun', Est in E. discriminate.
                - subst rest. cbn in Hlen. lia. }
              destruct its'; [congruence|cbn; lia].
        -- cbn [nth_error] in Hk. cbn [List.length].
           assert (Hne : its' <> []) by (intros E; subst its'; destruct k; discriminate).
           assert (Est : existsb is_stop (ui_before env ++ ui_after env) = false).
           { destruct (existsb is_stop (ui_before env ++ ui_after env)) eqn:Est;
               [|reflexivity].
             exfalso. apply Hne, IH0. left. rewrite Hrun'. reflexivity. }
           cbn [firstn]. rewrite stop_seen_sim_cons, Est. cbn [orb].
           destruct (IHk k it Hk) as [H1 H2]. split.
           ++ intros Hlen. destruct H1 as [Ha [Hb Hd]]; [lia|].
              repeat split; try assumption. lia.
           ++ intros [Ha [Hb Hd]]. assert (S k < List.length its'); [|lia].
              apply H2. repeat split; try assumption. lia.
      * intros E. cbn [List.length]. rewrite (IHun E). reflexivity.
      * rewrite trace_of_cons, payloads_split, List.length_app, Hpay, IHpay.
        reflexivity.
      * rewrite emissions_step, List.length_app, IHem. rewrite Hem. reflexivity.
    + contradiction.
    + injection Hrun as <- <- <-.
      assert (Hs : sleep_ok (interval st) <> true)
        by (intros E; apply Hnext in E; discriminate).
      split; [split; [discriminate | intros [E|E]; discriminate]|].
      split; [|split; [|split]].
      * intros [|[|k]] it Hk; try discriminate. injection Hk as <-.
        cbn [List.length]. split; [lia | intros [Ha _]; contradiction].
      * discriminate.
      * rewrite trace_of_cons, payloads_split, List.length_app, Hpay. reflexivity.
      * exact Hem1.
Qed.

(** Without any assumption: the loop makes a first pass exactly when the
    flag is set and the schedule has an environment, every pass calls
    [measure.v()] once, and the loop is reported unfinished only when the
    schedule has run out. *)
Lemma real_loop_shape (envs : list real_env) :
  forall (st : thread) (c : nat) its ex st',
    real_loop envs st c = (its, ex, st') ->
    (its = [] <-> running st = false \/ envs = [])
    /\ (ex = Unfinished -> List.length its = List.length envs)
    /\ List.length (filter is_measure_v (trace_of its)) = List.length its.
Proof.
  induction envs as [|env rest IH]; intros st c its ex st' Hrun;
    cbn [real_loop] in Hrun.
  - destruct (negb (running st)); injection Hrun as <- <- <-;
      (split; [split; [intros _; right; reflexivity | reflexivity]|]);
      split; reflexivity.
  - destruct (running st) eqn:Hr; cbn [negb] in Hrun.
    2:{ injection Hrun as <- <- <-.
        split; [split; [intros _; left; reflexivity | reflexivity]|].
        split; [discriminate | reflexivity]. }
    pose proof (real_iteration_measure_v env st c) as Hmv.
    set (it0 := real_iteration env st c) in *.
    destruct (leaves it0) eqn:Hleave.
    + destruct (real_loop rest (after it0) (errors_after it0))
        as [[its' ex'] st''] eqn:Hrest.
      injection Hrun as <- <- <-.
      destruct (IH _ _ _ _ _ Hrest) as [_ [IHun IHmv]].
      split; [split; [discriminate | intros [E|E]; discriminate]|].
      split.
      * intros E. cbn [List.length]. rewrite (IHun E). reflexivity.
      * rewrite trace_of_cons, filter_app, List.length_app, Hmv, IHmv. reflexivity.
    + injection Hrun as <- <- <-.
      split; [split; [discriminate | intros [E|E]; discriminate]|].
      split; [discriminate|].
      rewrite trace_of_cons, filter_app, Hmv. reflexivity.
    + injection Hrun as <- <- <-.
      split; [split; [discriminate | intros [E|E]; discriminate]|].
      split; [discriminate|].
      rewrite trace_of_cons, filter_app, Hmv. reflexivity.
Qed.

Lemma closing_no_measure (ex : loop_exit) :
  filter is_measure_v (@closing F ex) = [].
Proof. destruct ex; reflexivity. Qed.

(** C1.  In the real-device loop the counter of consecutive errors is
    incremented by each failed read and reset to zero by a successful one
    (it is the spec's count of failed attempts since the last success);
    a pass emits [error_sig] and leaves the loop exactly when the counter
    reaches three.  While the counter is below three the loop keeps
    sampling: it makes a first pass when the flag is set and the schedule
    has an environment, and after a pass it makes the next one exactly
    when the counter is below three, nobody has called [stop()] and the
    schedule goes on; every pass calls [measure.v()], so the run has as
    many such calls as the loop has passes.  A run emits [error_sig]
    exactly when the loop was left at the threshold. *)
Theorem retries_three_consecutive_errors (sch : schedule) (st : thread)
        its ex st' :
  simulation_mode st = false ->
  k_connected st = Py.Present true ->
  smu st <> None ->
  sleep_ok (interval st) = true ->
  run_device (now0 sch) (real_envs sch) (raise_timeout st) = (its, ex, st') ->
  (forall k it,
      nth_error its k = Some it ->
      errors_after it
      = consecutive_failures 0 (map read_ok (firstn (S k) (real_envs sch)))
      /\ (existsb is_error_sig (events it) = true <-> errors_after it = 3)
      /\ (leaves it = Break <-> errors_after it = 3)
      /\ (errors_after it < 3 -> leaves it = Next))
  /\ (ex = Threshold <-> existsb is_error_sig (trace_of its) = true)
  /\ (existsb is_error_sig (trace (run sch st)) = true <-> ex = Threshold)
  /\ (its = [] <-> running st = false \/ real_envs sch = [])
  /\ (forall k it,
         nth_error its k = Some it ->
         (S k < List.length its
          <-> consecutive_failures 0 (map read_ok (firstn (S k) (real_envs sch))) < 3
              /\ stop_seen_real (firstn (S k) (real_envs sch)) = false
              /\ S k < List.length (real_envs sch)))
  /\ (ex = Unfinished -> List.length its = List.length (real_envs sch))
  /\ List.length (filter is_measure_v (trace (run sch st))) = List.length its.
Proof.
  intros Hsim Hconn Hsmu Hsleep Hrun.
  destruct (run_device_mode sch st Hsim Hconn Hsmu Hrun) as [Htrace _].
  unfold run_device in Hrun.
  assert (Hs : sleep_ok (interval (reset_data (now0 sch) (raise_timeout st))) = true).
  { cbn [reset_data interval]. destruct (raise_timeout_frame st) as [-> _].
    exact Hsleep. }
  assert (Hr : running (reset_data (now0 sch) (raise_timeout st)) = running st).
  { cbn [reset_data running]. destruct (raise_timeout_frame st) as [_ [-> _]].
    reflexivity. }
  destruct (real_loop_counter (real_envs sch) _ (Nat.lt_0_succ 2) Hrun)
    as [Hk [Hex Hraise]].
  destruct (real_loop_progress (real_envs sch) _ (Nat.lt_0_succ 2) Hs Hrun)
    as [H0 [Hnext [Hun Hmv]]].
  rewrite Hr in H0.
  split; [|split; [|split; [|split; [|split; [|split]]]]].
  - intros k it Hnth. destruct (Hk k it Hnth) as [H1 [H2 [H3 H4]]].
    repeat split; auto; try apply H2; try apply H3.
  - exact Hex.
  - rewrite Htrace, existsb_app.
    specialize (Hraise Hs).
    destruct ex; cbn [closing existsb is_error_sig orb]; rewrite ?orb_false_r;
      try (symmetry; exact Hex).
    exfalso. apply (Hraise e). reflexivity.
  - exact H0.
  - intros k it Hnth. destruct (Hk k it Hnth) as [<- _]. apply (Hnext k it Hnth).
  - exact Hun.
  - rewrite Htrace, filter_app, closing_no_measure, app_nil_r. exact Hmv.
Qed.

(** *** The payloads *)

Lemma payloads_of_app (a b : list event) :
  payloads_of (a ++ b) = payloads_of a ++ payloads_of b.
Proof. apply flat_map_app. Qed.

Lemma recovery_no_payload (env : real_env) (st : thread) :
  payloads_of (recovery env st) = [].
Proof.
  unfold recovery. destruct (k_has_reset st); [|reflexivity].
  destruct (reset_outcome env); reflexivity.
Qed.

Lemma read_calls_no_payload (env : real_env) : payloads_of (read_calls env) = [].
Proof. unfold read_calls. destruct (measure_v env); reflexivity. Qed.

(** What a pass of the real-device loop emits on [data_sig], and what the
    lists hold at that moment. *)
Lemma real_iteration_emitted (env : real_env) (st : thread) (c : nat) (n : nat) :
  List.length (time_data st) = n ->
  List.length (voltage_data st) = n ->
  List.length (current_data st) = n ->
  let it := real_iteration env st c in
  payloads_of (events it)
  = match emitted it with Some ps => [fst ps] | None => [] end
  /\ match emitted it with
     | Some (p, s) =>
         well_formed_payload n p s
         /\ List.length (time_data (after it)) = S n
         /\ List.length (voltage_data (after it)) = S n
         /\ List.length (current_data (after it)) = S n
     | None =>
         List.length (time_data (after it)) = n
         /\ List.length (voltage_data (after it)) = n
         /\ List.length (current_data (after it)) = n
     end.
Proof.
  intros Ht Hv Hc it. subst it. unfold real_iteration.
  destruct (v <- measure_v env ;; i <- measure_i env ;; Py.Returns (v, i))
    as [[v i]|e].
  - cbn [events emitted after fst].
    rewrite payloads_of_app, read_calls_no_payload. split; [reflexivity|].
    destruct (ui_calls_frame (ui_during env)
                (append_sample (fsub (now env) (start_time st)) v i st))
      as [_ [-> [-> [-> _]]]].
    cbn [append_sample time_data voltage_data current_data].
    rewrite !List.length_app, Ht, Hv, Hc. cbn [List.length].
    repeat split; try lia.
    exists (time_data st), (voltage_data st), (current_data st),
      (fsub (now env) (start_time st)), v, i.
    repeat split; assumption.
  - destruct (ui_calls_frame (ui_during env) st) as [_ [Et [Ev [Ec _]]]].
    destruct (Py.is_VisaIOError e);
      repeat match goal with |- context [if ?b then _ else _] => destruct b end;
      cbn [events emitted after];
      rewrite ?payloads_of_app, ?read_calls_no_payload, ?recovery_no_payload,
        Et, Ev, Ec; repeat split; assumption.
Qed.

Lemma emissions_cons (it : iteration) (its : list iteration) :
  emissions (it :: its)
  = match emitted it with Some x => [x] | None => [] end ++ emissions its.
Proof. reflexivity. Qed.

Lemma real_loop_payloads (envs : list real_env) :
  forall (st : thread) (c : nat) its ex st' n,
    real_loop envs st c = (its, ex, st') ->
    List.length (time_data st) = n ->
    List.length (voltage_data st) = n ->
    List.length (current_data st) = n ->
    payloads_of (trace_of its) = map fst (emissions its)
    /\ forall k p s,
        nth_error (emissions its) k = Some (p, s) ->
        well_formed_payload (n + k) p s.
Proof.
  induction envs as [|env rest IH]; intros st c its ex st' n Hrun Ht Hv Hc;
    cbn [real_loop] in Hrun.
  - destruct (negb (running st)); injection Hrun as <- <- <-;
      (split; [reflexivity | intros [|k] p s Hk; discriminate]).
  - destruct (negb (running st)).
    { injection Hrun as <- <- <-.
      split; [reflexivity | intros [|k] p s Hk; discriminate]. }
    pose proof (real_iteration_emitted env st c Ht Hv Hc) as Hit.
    cbv zeta in Hit. destruct Hit as [Hpay Hem].
    set (it0 := real_iteration env st c) in *.
    assert (Hone : payloads_of (trace_of [it0]) = map fst (emissions [it0])
                   /\ forall k p s, nth_error (emissions [it0]) k = Some (p, s) ->
                                    well_formed_payload (n + k) p s).
    { rewrite trace_of_cons, emissions_cons, payloads_of_app, Hpay.
      cbn [trace_of map List.concat payloads_of flat_map emissions].
      rewrite !app_nil_r. destruct (emitted it0) as [[p0 s0]|].
      - split; [reflexivity|]. intros [|[|k]] p s Hk; try discriminate.
        injection Hk as <- <-. rewrite Nat.add_0_r. apply Hem.
      - split; [reflexivity|]. intros [|k] p s Hk; discriminate. }
    destruct (leaves it0) eqn:Hleave; try (injection Hrun as <- <- <-; exact Hone).
    destruct (real_loop rest (after it0) (errors_after it0))
      as [[its' ex'] st''] eqn:Hrest.
    injection Hrun as <- <- <-.
    rewrite trace_of_cons, emissions_cons, payloads_of_app, Hpay, map_app.
    destruct (emitted it0) as [[p0 s0]|].
    + destruct Hem as [Hwf [Ht' [Hv' Hc']]].
      destruct (IH _ _ _ _ _ _ Hrest Ht' Hv' Hc') as [IHp IHk].
      rewrite IHp. split; [reflexivity|].
      intros [|k] p s Hk.
      * injection Hk as <- <-. rewrite Nat.add_0_r. exact Hwf.
      * cbn in Hk. replace (n + S k) with (S n + k) by lia. apply IHk. exact Hk.
    + destruct Hem as [Ht' [Hv' Hc']].
      destruct (IH _ _ _ _ _ _ Hrest Ht' Hv' Hc') as [IHp IHk].
      rewrite IHp. split; [reflexivity|]. exact IHk.
Qed.

(** What a pass of the simulation loop emits: the sample computed from
    the setpoint read in this pass, the time [t] and the noise drawn. *)
Lemma sim_iteration_emitted (env : sim_env) (st : thread) (t : F) (n : nat) :
  List.length (time_data st) = n ->
  List.length (voltage_data st) = n ->
  List.length (current_data st) = n ->
  let it := sim_iteration env st t in
  let v := current_voltage (ui_calls (ui_before env) st) in
  let p := the_payload t v (sim_current v t (uniform env)) in
  events it = [Emit (data_sig p); Sleep (interval st)]
  /\ (exists s, emitted it = Some (p, s)
                /\ well_formed_payload n p s /\ current_voltage s = v)
  /\ List.length (time_data (after it)) = S n
  /\ List.length (voltage_data (after it)) = S n
  /\ List.length (current_data (after it)) = S n
  /\ interval (after it) = interval st.
Proof.
  intros Ht Hv Hc it v p. subst it v p. unfold sim_iteration.
  cbn [events emitted after].
  destruct (ui_calls_frame (ui_before env) st) as [Ei [Et [Ev [Ec _]]]].
  match goal with
  | |- context [ui_calls (ui_after env) ?s] =>
      destruct (ui_calls_frame (ui_after env) s) as [-> [-> [-> [-> _]]]]
  end.
  cbn [append_sample interval time_data voltage_data current_data].
  rewrite Ei. split; [reflexivity|]. split.
  - eexists. split; [reflexivity|]. split; [|reflexivity].
    exists (time_data st), (voltage_data st), (current_data st).
    do 3 eexists. cbn [deref the_payload p_time p_voltage p_current last_value
                             append_sample time_data voltage_data current_data].
    rewrite Et, Ev, Ec. repeat split; assumption.
  - rewrite !List.length_app, Et, Ev, Ec, Ht, Hv, Hc. cbn [List.length].
    repeat split; lia.
Qed.

Lemma sim_loop_payloads (envs : list sim_env) :
  forall (st : thread) (t : F) its ex st' n,
    sim_loop envs st t = (its, ex, st') ->
    List.length (time_data st) = n ->
    List.length (voltage_data st) = n ->
    List.length (current_data st) = n ->
    payloads_of (trace_of its) = map fst (emissions its)
    /\ existsb is_read (trace_of its) = false
    /\ forall k p s,
        nth_error (emissions its) k = Some (p, s) ->
        well_formed_payload (n + k) p s
        /\ exists env,
            nth_error envs k = Some env
            /\ last_value p
               = (sim_time_from t (interval st) k, current_voltage s,
                  sim_current (current_voltage s)
                              (sim_time_from t (interval st) k) (uniform env)).
Proof.
  induction envs as [|env rest IH]; intros st t its ex st' n Hrun Ht Hv Hc;
    cbn [sim_loop] in Hrun.
  - destruct (negb (running st)); injection Hrun as <- <- <-;
      (split; [reflexivity | split; [reflexivity|intros [|k] p s Hk; discriminate]]).
  - destruct (negb (running st)).
    { injection Hrun as <- <- <-.
      split; [reflexivity | split; [reflexivity|intros [|k] p s Hk; discriminate]]. }
    pose proof (sim_iteration_emitted env st t Ht Hv Hc) as Hit.
    cbv zeta in Hit.
    destruct Hit as [Hev [[s0 [Hem [Hwf Hcv]]] [Ht' [Hv' [Hc' Hint]]]]].
    set (it0 := sim_iteration env st t) in *.
    assert (Hhead : forall p s, Some (p, s) = emitted it0 ->
              well_formed_payload (n + 0) p s
              /\ exists env0, nth_error (env :: rest) 0 = Some env0
                 /\ last_value p
                    = (sim_time_from t (interval st) 0, current_voltage s,
                       sim_current (current_voltage s)
                                   (sim_time_from t (interval st) 0) (uniform env0))).
    { intros p s E. rewrite Hem in E. injection E as -> ->.
      rewrite Nat.add_0_r. split; [exact Hwf|].
      exists env. split; [reflexivity|]. rewrite Hcv. reflexivity. }
    assert (Hone : payloads_of (trace_of [it0]) = map fst (emissions [it0])
                   /\ existsb is_read (trace_of [it0]) = false
                   /\ forall k p s, nth_error (emissions [it0]) k = Some (p, s) ->
                        well_formed_payload (n + k) p s
                        /\ exists env0, nth_error (env :: rest) k = Some env0
                           /\ last_value p
                              = (sim_time_from t (interval st) k, current_voltage s,
                                 sim_current (current_voltage s)
                                   (sim_time_from t (interval st) k) (uniform env0))).
    { rewrite trace_of_cons, emissions_cons, Hev. rewrite Hem in *.
      split; [reflexivity|]. split; [reflexivity|].
      intros [|[|k]] p s Hk; try discriminate.
      injection Hk as <- <-. apply Hhead. reflexivity. }
    destruct (leaves it0) eqn:Hleave; try (injection Hrun as <- <- <-; exact Hone).
    destruct (sim_loop rest (after it0) (fadd t (interval st)))
      as [[its' ex'] st''] eqn:Hrest.
    injection Hrun as <- <- <-.
    destruct (IH _ _ _ _ _ _ Hrest Ht' Hv' Hc') as [IHp [IHr IHk]].
    rewrite trace_of_cons, emissions_cons, payloads_of_app, existsb_app, IHp, IHr, Hev.
    rewrite Hem in *. split; [reflexivity|]. split; [reflexivity|].
    intros [|k] p s Hk.
    + injection Hk as <- <-. apply Hhead. reflexivity.
    + cbn in Hk. replace (n + S k) with (S n + k) by lia.
      destruct (IHk k p s Hk) as [Hw [env' [He Hl]]].
      split; [exact Hw|]. exists env'. split; [exact He|].
      rewrite Hint in Hl. exact Hl.
Qed.

Lemma sim_time_from_S (t interval : F) (k : nat) :
  sim_time_from t interval (S k) = fadd (sim_time_from t interval k) interval.
Proof.
  revert t. induction k as [|k IH]; intros t; [reflexivity|].
  cbn [sim_time_from] in *. rewrite IH. reflexivity.
Qed.

Lemma sim_time_from_zero (interval : F) (k : nat) :
  sim_time_from (flit (0 # 1)) interval k = sim_time interval k.
Proof.
  induction k as [|k IH]; [reflexivity|].
  rewrite sim_time_from_S, IH. reflexivity.
Qed.

Lemma closing_no_payload (ex : loop_exit) :
  payloads_of (@closing F ex) = [].
Proof. destruct ex; reflexivity. Qed.

Lemma reset_data_lengths (t0 : F) (st : thread) :
  List.length (time_data (reset_data t0 st)) = 0
  /\ List.length (voltage_data (reset_data t0 st)) = 0
  /\ List.length (current_data (reset_data t0 st)) = 0.
Proof. repeat split. Qed.

(** C10.  In both modes, the payload of the k-th emission of a run (from
    zero), read when it is emitted, has three lists of the same length
    k + 1, one sample longer than at the emission before, and its
    [last_value] is the triple of their last elements; the payloads on
    [data_sig] are exactly these emissions. *)
Theorem payloads_well_formed (sch : schedule) (st : thread) :
  (forall its ex st',
      _run_simulation (now0 sch) (sim_envs sch) st = (its, ex, st') ->
      payloads_of (trace_of its) = map fst (emissions its)
      /\ (simulation_mode st = true ->
          payloads_of (trace (run sch st)) = map fst (emissions its))
      /\ forall k p s,
          nth_error (emissions its) k = Some (p, s) -> well_formed_payload k p s)
  /\ (forall its ex st',
         run_device (now0 sch) (real_envs sch) (raise_timeout st) = (its, ex, st') ->
         payloads_of (trace_of its) = map fst (emissions its)
         /\ (simulation_mode st = false -> k_connected st = Py.Present true ->
             smu st <> None ->
             payloads_of (trace (run sch st)) = map fst (emissions its))
         /\ forall k p s,
             nth_error (emissions its) k = Some (p, s) -> well_formed_payload k p s).
Proof.
  split; intros its ex st' Hrun.
  - pose proof Hrun as Hloop. unfold _run_simulation in Hloop.
    destruct (reset_data_lengths (now0 sch) st) as [Ht [Hv Hc]].
    destruct (sim_loop_payloads _ _ _ Hloop Ht Hv Hc) as [Hp [_ Hk]].
    split; [exact Hp|]. split.
    + intros Hsim. destruct (run_simulation_mode sch st Hsim Hrun) as [-> _].
      rewrite payloads_of_app, closing_no_payload, app_nil_r. exact Hp.
    + intros k p s Hnth. apply (Hk k p s Hnth).
  - pose proof Hrun as Hloop. unfold run_device in Hloop.
    destruct (reset_data_lengths (now0 sch) (raise_timeout st)) as [Ht [Hv Hc]].
    destruct (real_loop_payloads _ _ _ Hloop Ht Hv Hc) as [Hp Hk].
    split; [exact Hp|]. split.
    + intros Hsim Hconn Hsmu.
      destruct (run_device_mode sch st Hsim Hconn Hsmu Hrun) as [-> _].
      rewrite payloads_of_app, closing_no_payload, app_nil_r. exact Hp.
    + intros k p s Hnth. apply (Hk k p s Hnth).
Qed.

(** *** Cancellation and the [finished_sig] *)

Lemma real_iteration_stopped (env : real_env) (st : thread) (c : nat) :
  existsb is_stop (ui_during env) = true ->
  running (after (real_iteration env st c)) = false.
Proof.
  intros Hstop. unfold real_iteration.
  destruct (v <- measure_v env ;; i <- measure_i env ;; Py.Returns (v, i))
    as [[v i]|e];
    [|destruct (Py.is_VisaIOError e);
      repeat match goal with |- context [if ?b then _ else _] => destruct b end];
    cbn [after]; rewrite ui_calls_running, Hstop; apply andb_false_r.
Qed.

Lemma sim_iteration_stopped (env : sim_env) (st : thread) (t : F) :
  existsb is_stop (ui_before env ++ ui_after env) = true ->
  running (after (sim_iteration env st t)) = false.
Proof.
  intros Hstop. unfold sim_iteration. cbn [after].
  rewrite ui_calls_running. cbn [append_sample running].
  rewrite ui_calls_running.
  rewrite existsb_app in Hstop.
  destruct (existsb is_stop (ui_before env)), (existsb is_stop (ui_after env));
    try discriminate; cbn; rewrite ?andb_false_r; reflexivity.
Qed.

(** Once a pass has seen [stop()], the loop consults no later pass of the
    schedule, and it has been left. *)
Lemma real_loop_stop (pre : list real_env) :
  forall (st : thread) (c : nat) (env : real_env) (post : list real_env),
    existsb is_stop (ui_during env) = true ->
    real_loop (pre ++ env :: post) st c = real_loop (pre ++ [env]) st c
    /\ unfinished (snd (fst (real_loop (pre ++ [env]) st c))) = false
    /\ List.length (fst (fst (real_loop (pre ++ [env]) st c))) <= S (List.length pre).
Proof.
  induction pre as [|e0 pre IH]; intros st c env post Hstop.
  - cbn [app real_loop]. destruct (negb (running st)); [repeat split; cbn; lia|].
    pose proof (real_iteration_stopped env st c Hstop) as Hoff.
    destruct (leaves (real_iteration env st c)); try (repeat split; cbn; lia).
    destruct post as [|e1 post]; cbn [real_loop]; rewrite Hoff; cbn;
      repeat split; lia.
  - cbn [app real_loop]. destruct (negb (running st)); [repeat split; cbn; lia|].
    destruct (leaves (real_iteration e0 st c)); try (repeat split; cbn; lia).
    destruct (IH (after (real_iteration e0 st c))
                 (errors_after (real_iteration e0 st c)) env post Hstop)
      as [-> [Hu Hl]].
    destruct (real_loop (pre ++ [env]) (after (real_iteration e0 st c))
                        (errors_after (real_iteration e0 st c)))
      as [[its ex] st'].
    cbn in *. repeat split; try assumption; lia.
Qed.

Lemma sim_loop_stop (pre : list sim_env) :
  forall (st : thread) (t : F) (env : sim_env) (post : list sim_env),
    existsb is_stop (ui_before env ++ ui_after env) = true ->
    sim_loop (pre ++ env :: post) st t = sim_loop (pre ++ [env]) st t
    /\ unfinished (snd (fst (sim_loop (pre ++ [env]) st t))) = false
    /\ List.length (fst (fst (sim_loop (pre ++ [env]) st t))) <= S (List.length pre).
Proof.
  induction pre as [|e0 pre IH]; intros st t env post Hstop.
  - cbn [app sim_loop]. destruct (negb (running st)); [repeat split; cbn; lia|].
    pose proof (sim_iteration_stopped env st t Hstop) as Hoff.
    destruct (leaves (sim_iteration env st t)); try (repeat split; cbn; lia).
    destruct post as [|e1 post]; cbn [sim_loop]; rewrite Hoff; cbn;
      repeat split; lia.
  - cbn [app sim_loop]. destruct (negb (running st)); [repeat split; cbn; lia|].
    destruct (leaves (sim_iteration e0 st t)); try (repeat split; cbn; lia).
    destruct (IH (after (sim_iteration e0 st t)) (fadd t (interval st)) env post Hstop)
      as [-> [Hu Hl]].
    destruct (sim_loop (pre ++ [env]) (after (sim_iteration e0 st t))
                       (fadd t (interval st)))
      as [[its ex] st'].
    cbn in *. repeat split; try assumption; lia.
Qed.

Lemma real_iteration_events (env : real_env) (st : thread) (c : nat) :
  let it := real_iteration env st c in
  filter is_finished_sig (events it) = []
  /\ filter is_read (events it) = read_calls env
  /\ hd_error (events it) = Some MeasureV
  /\ failed it = negb (read_ok env).
Proof.
  cbv zeta. unfold real_iteration.
  pose proof (read_ok_cases env) as Hok.
  assert (Hrec : filter is_finished_sig (recovery env st) = []
                 /\ filter is_read (recovery env st) = []).
  { unfold recovery. destruct (k_has_reset st); [|split; reflexivity].
    destruct (reset_outcome env); split; reflexivity. }
  destruct Hrec as [Hrf Hrr].
  assert (Hreads : filter is_finished_sig (read_calls env) = []
                   /\ filter is_read (read_calls env) = read_calls env
                   /\ forall l, hd_error (read_calls env ++ l) = Some MeasureV).
  { unfold read_calls. destruct (measure_v env); repeat split. }
  destruct Hreads as [Hf [Hr Hh]].
  destruct (v <- measure_v env ;; i <- measure_i env ;; Py.Returns (v, i))
    as [[v i]|e]; rewrite Hok;
    [|destruct (Py.is_VisaIOError e);
      repeat match goal with |- context [if ?b then _ else _] => destruct b end];
    cbn [events failed emitted negb];
    rewrite <- ?(app_nil_r (read_calls env)) at 3;
    rewrite ?filter_app, ?Hf, ?Hr, ?Hrf, ?Hrr, ?Hh, ?app_nil_r;
    repeat split; try reflexivity;
    rewrite <- (app_nil_r (read_calls env)); apply Hh.
Qed.

Lemma filter_trace_of_cons (P : event -> bool) (it : iteration)
      (its : list iteration) :
  filter P (trace_of (it :: its)) = filter P (events it) ++ filter P (trace_of its).
Proof. rewrite trace_of_cons. apply filter_app. Qed.

(** The passes of the real-device loop follow the schedule one by one;
    each begins with the read of the voltage, reads the current when the
    voltage was read, and emits no [finished_sig]. *)
Lemma real_loop_events (envs : list real_env) :
  forall (st : thread) (c : nat) its ex st',
    real_loop envs st c = (its, ex, st') ->
    filter is_finished_sig (trace_of its) = []
    /\ forall k it,
        nth_error its k = Some it ->
        exists env,
          nth_error envs k = Some env
          /\ filter is_read (events it) = read_calls env
          /\ hd_error (events it) = Some MeasureV
          /\ failed it = negb (read_ok env).
Proof.
  induction envs as [|env rest IH]; intros st c its ex st' Hrun;
    cbn [real_loop] in Hrun.
  - destruct (negb (running st)); injection Hrun as <- <- <-;
      (split; [reflexivity | intros [|k] it Hk; discriminate]).
  - destruct (negb (running st)).
    { injection Hrun as <- <- <-.
      split; [reflexivity | intros [|k] it Hk; discriminate]. }
    pose proof (real_iteration_events env st c) as Hit. cbv zeta in Hit.
    destruct Hit as [Hfin Hrest].
    set (it0 := real_iteration env st c) in *.
    assert (Hone : filter is_finished_sig (trace_of [it0]) = []
                   /\ forall k it, nth_error [it0] k = Some it ->
                        exists env0, nth_error (env :: rest) k = Some env0
                          /\ filter is_read (events it) = read_calls env0
                          /\ hd_error (events it) = Some MeasureV
                          /\ failed it = negb (read_ok env0)).
    { rewrite filter_trace_of_cons, Hfin. split; [reflexivity|].
      intros [|[|k]] it Hk; try discriminate. injection Hk as <-.
      exists env. split; [reflexivity | exact Hrest]. }
    destruct (leaves it0); try (injection Hrun as <- <- <-; exact Hone).
    destruct (real_loop rest (after it0) (errors_after it0))
      as [[its' ex'] st''] eqn:Hloop.
    injection Hrun as <- <- <-.
    destruct (IH _ _ _ _ _ Hloop) as [IHf IHk].
    rewrite filter_trace_of_cons, Hfin, IHf. split; [reflexivity|].
    intros [|k] it Hk.
    + injection Hk as <-. exists env. split; [reflexivity | exact Hrest].
    + cbn in Hk. destruct (IHk k it Hk) as [env' Henv']. exists env'. exact Henv'.
Qed.

Lemma sim_loop_events (envs : list sim_env) :
  forall (st : thread) (t : F) its ex st',
    sim_loop envs st t = (its, ex, st') ->
    filter is_finished_sig (trace_of its) = [].
Proof.
  induction envs as [|env rest IH]; intros st t its ex st' Hrun;
    cbn [sim_loop] in Hrun.
  - destruct (negb (running st)); injection Hrun as <- <- <-; reflexivity.
  - destruct (negb (running st)); [injection Hrun as <- <- <-; reflexivity|].
    destruct (leaves (sim_iteration env st t));
      try (injection Hrun as <- <- <-; reflexivity).
    destruct (sim_loop rest (after (sim_iteration env st t)) (fadd t (interval st)))
      as [[its' ex'] st''] eqn:Hloop.
    injection Hrun as <- <- <-.
    rewrite filter_trace_of_cons, (IH _ _ _ _ _ Hloop). reflexivity.
Qed.

Lemma run_body_no_finished (sch : schedule) (st : thread) :
  filter is_finished_sig (fst (fst (fst (run_body sch st)))) = [].
Proof.
  unfold run_body. destruct (simulation_mode st).
  - destruct (_run_simulation (now0 sch) (sim_envs sch) st)
      as [[its ex] st'] eqn:Hrun.
    cbn [fst]. apply (sim_loop_events _ _ _ Hrun).
  - destruct (k_connected st) as [|[|]|e]; cbn; try reflexivity.
    destruct (smu st); [|reflexivity].
    destruct (run_device (now0 sch) (real_envs sch) (raise_timeout st))
      as [[its ex] st'] eqn:Hrun.
    cbn [fst]. apply (proj1 (real_loop_events _ _ _ Hrun)).
Qed.

(** A run that has ended emitted [finished_sig] once, as its last event;
    a run that is still going has not emitted it. *)
Lemma run_finished_once (sch : schedule) (st : thread) :
  filter is_finished_sig (trace (run sch st))
  = (if ended (run sch st) then [Emit finished_sig] else [])
  /\ (ended (run sch st) = true ->
      exists pre, trace (run sch st) = pre ++ [Emit finished_sig]).
Proof.
  pose proof (run_body_no_finished sch st) as Hbody. unfold run.
  destruct (run_body sch st) as [[[evs e] st1] ot]. cbn [fst] in Hbody.
  destruct e; cbn [trace ended]; rewrite ?filter_app, Hbody; split;
    try reflexivity; try discriminate; intros _.
  - exists evs. reflexivity.
  - exists (evs ++ [Emit (error_sig e)]). rewrite <- app_assoc. reflexivity.
Qed.

Lemma run_schedule_ext (sch sch' : schedule) (st : thread) :
  run_body sch st = run_body sch' st -> run sch st = run sch' st.
Proof. unfold run. intros ->. reflexivity. Qed.

(** C6.  Cancellation is the polled flag: once a pass of either loop has
    seen [stop()], no later pass is executed (the rest of the schedule is
    never consulted) and the run ends; and every run that ends, whether
    the loop was cancelled, hit the error threshold or raised, emits
    [finished_sig] exactly once, as its last event. *)
Theorem stop_flag_and_finished_sig (sch : schedule) (st : thread) :
  (filter is_finished_sig (trace (run sch st))
   = (if ended (run sch st) then [Emit finished_sig] else [])
   /\ (ended (run sch st) = true ->
       exists pre, trace (run sch st) = pre ++ [Emit finished_sig]))
  /\ (forall its ex st',
         simulation_mode st = true ->
         _run_simulation (now0 sch) (sim_envs sch) st = (its, ex, st') ->
         ended (run sch st) = negb (unfinished ex))
  /\ (forall its ex st',
         simulation_mode st = false -> k_connected st = Py.Present true ->
         smu st <> None ->
         run_device (now0 sch) (real_envs sch) (raise_timeout st) = (its, ex, st') ->
         ended (run sch st) = negb (unfinished ex))
  /\ (forall pre env post,
         simulation_mode st = true ->
         sim_envs sch = pre ++ env :: post ->
         existsb is_stop (ui_before env ++ ui_after env) = true ->
         run sch st = run (mkSchedule (now0 sch) (pre ++ [env]) (real_envs sch)) st
         /\ ended (run sch st) = true
         /\ List.length
              (fst (fst (_run_simulation (now0 sch) (sim_envs sch) st)))
            <= S (List.length pre))
  /\ (forall pre env post,
         simulation_mode st = false ->
         real_envs sch = pre ++ env :: post ->
         existsb is_stop (ui_during env) = true ->
         run sch st = run (mkSchedule (now0 sch) (sim_envs sch) (pre ++ [env])) st
         /\ ended (run sch st) = true
         /\ List.length
              (fst (fst (run_device (now0 sch) (real_envs sch) (raise_timeout st))))
            <= S (List.length pre)).
Proof.
  split; [apply run_finished_once|].
  split; [intros its ex st' Hsim Hrun; apply (run_simulation_mode sch st Hsim Hrun)|].
  split; [intros its ex st' Hsim Hc Hs Hrun;
          apply (run_device_mode sch st Hsim Hc Hs Hrun)|].
  split.
  - intros pre env post Hsim Hsched Hstop.
    destruct (sim_loop_stop pre (reset_data (now0 sch) st) (flit (0 # 1)) env post Hstop)
      as [Heq [Hun Hlen]].
    assert (Hbody : run_body sch st
                    = run_body (mkSchedule (now0 sch) (pre ++ [env]) (real_envs sch)) st).
    { unfold run_body, _run_simulation. rewrite Hsim.
      cbn [now0 sim_envs real_envs]. rewrite Hsched, Heq. reflexivity. }
    split; [apply run_schedule_ext; exact Hbody|].
    unfold _run_simulation. rewrite Hsched, Heq. split; [|exact Hlen].
    destruct (sim_loop (pre ++ env :: post) (reset_data (now0 sch) st) (flit (0 # 1)))
      as [[its ex] st'] eqn:Hrun.
    assert (Hrun' : _run_simulation (now0 sch) (sim_envs sch) st = (its, ex, st'))
      by (unfold _run_simulation; rewrite Hsched; exact Hrun).
    destruct (run_simulation_mode sch st Hsim Hrun') as [_ ->].
    rewrite <- Heq in Hun. cbn in Hun. rewrite Hun. reflexivity.
  - intros pre env post Hsim Hsched Hstop.
    destruct (real_loop_stop pre (reset_data (now0 sch) (raise_timeout st)) 0 env post Hstop)
      as [Heq [Hun Hlen]].
    assert (Hbody : run_body sch st
                    = run_body (mkSchedule (now0 sch) (sim_envs sch) (pre ++ [env])) st).
    { unfold run_body, run_device. rewrite Hsim.
      cbn [now0 sim_envs real_envs]. rewrite Hsched, Heq. reflexivity. }
    split; [apply run_schedule_ext; exact Hbody|].
    unfold run_device. rewrite Hsched, Heq. split; [|exact Hlen].
    unfold run, run_body, run_device. rewrite Hsim, Hsched.
    destruct (k_connected st) as [|[|]|e]; cbn; try reflexivity.
    destruct (smu st); [|reflexivity].
    destruct (real_loop (pre ++ env :: post) (reset_data (now0 sch) (raise_timeout st)) 0)
      as [[its ex] st'] eqn:Hrun.
    rewrite <- Heq in Hun. cbn in Hun.
    destruct ex; cbn in *; try reflexivity; discriminate.
Qed.

(** *** Starting a measurement *)

Local Abbreviation gui := (@Realtime.gui F).

(** A thread is created only with [simulation_mode = not connected]; in
    real-device mode only after the SMU was found and the voltage
    applied, in simulation mode only when the dialog was accepted. *)
Lemma on_start_creates (g : gui) (th : thread) eff :
  on_start_realtime_clicked g = (eff, Py.Returns (Some th)) ->
  exists c,
    keithley_connected g = Py.Present c
    /\ th = __init__ (keithley_connected g) (keithley_visa_timeout g)
                     (keithley_has_reset g) (keithley_smu g)
                     (realtime_interval g) (negb c)
                     (keithley_set_timeout g) (keithley_restore_timeout g)
    /\ (c = true -> exists name, keithley_smu g = Py.Returns name)
    /\ (c = false -> dialog_cancelled g = false).
Proof.
  unfold on_start_realtime_clicked. intros Hrun.
  destruct (String.eqb (smu_name g) "--"); [discriminate|].
  destruct (keithley_connected g) as [|c|e]; try discriminate.
  exists c. split; [reflexivity|].
  destruct c; cbn in Hrun.
  - destruct (keithley_smu g) as [name|e]; cbn in Hrun; [|discriminate].
    destruct (apply_voltage g); cbn in Hrun; [|discriminate].
    injection Hrun as _ <-. split; [reflexivity|]. split; [|discriminate].
    intros _. exists name. reflexivity.
  - destruct (dialog_cancelled g); cbn in Hrun; [discriminate|].
    injection Hrun as _ <-. split; [reflexivity|]. split; [discriminate|].
    reflexivity.
Qed.

(** C2.  A thread started by [on_start_realtime_clicked] has
    [simulation_mode] true exactly when the instrument is not connected.
    Not connected: its run never calls the read functions, and the k-th
    sample is baseline + |v| * 2e-6 + amplitude * sin(2 pi f t) + u *
    amplitude for the setpoint [v] read in that pass, [t] = k intervals
    and the uniform draw [u]; the generator makes a pass for the first
    environment of the schedule and goes on to the next exactly when
    [time.sleep] accepted the interval, nobody has called [stop()] and
    the schedule goes on, and the run emits one payload per pass.
    Connected: every pass of the loop calls [measure.v()] first and
    [measure.i()] once that has returned; the loop makes a pass for the
    first environment and goes on to the next exactly when fewer than
    three reads have failed in a row, nobody has called [stop()] and the
    schedule goes on, and the run has one [measure.v()] call per pass. *)
Theorem start_selects_mode (g : gui) (th : thread) eff :
  on_start_realtime_clicked g = (eff, Py.Returns (Some th)) ->
  exists c,
    keithley_connected g = Py.Present c
    /\ simulation_mode th = negb c
    /\ (c = false ->
        forall sch its ex st',
          _run_simulation (now0 sch) (sim_envs sch) th = (its, ex, st') ->
          trace (run sch th) = trace_of its ++ closing ex
          /\ existsb is_read (trace (run sch th)) = false
          /\ (forall k p s,
              nth_error (emissions its) k = Some (p, s) ->
              exists env,
                nth_error (sim_envs sch) k = Some env
                /\ last_value p
                   = (sim_time (realtime_interval g) k,
                      current_voltage s,
                      fadd (fadd (fadd (flit (1 # 1000000))
                                       (fmul (fabs (current_voltage s))
                                             (flit (2 # 1000000))))
                                 (fmul (flit (1 # 1000000))
                                       (fsin (fmul (fmul (fmul (flit (2 # 1)) fpi)
                                                         (flit (2 # 10)))
                                                   (sim_time (realtime_interval g) k)))))
                           (fmul (uniform env) (flit (1 # 1000000)))))
          /\ (its = [] <-> sim_envs sch = [])
          /\ (forall k it,
                 nth_error its k = Some it ->
                 (S k < List.length its
                  <-> sleep_ok (realtime_interval g) = true
                      /\ stop_seen_sim (firstn (S k) (sim_envs sch)) = false
                      /\ S k < List.length (sim_envs sch)))
          /\ (ex = Unfinished -> List.length its = List.length (sim_envs sch))
          /\ List.length (emissions its) = List.length its
          /\ List.length (payloads_of (trace (run sch th))) = List.length its)
    /\ (c = true ->
        forall sch its ex st',
          run_device (now0 sch) (real_envs sch) (raise_timeout th) = (its, ex, st') ->
          trace (run sch th) = trace_of its ++ closing ex
          /\ (forall k it,
              nth_error its k = Some it ->
              exists env,
                nth_error (real_envs sch) k = Some env
                /\ hd_error (events it) = Some MeasureV
                /\ filter is_read (events it)
                   = MeasureV :: match measure_v env with
                                 | Py.Returns _ => [MeasureI]
                                 | Py.Raises _ => []
                                 end
                /\ (failed it = false ->
                    filter is_read (events it) = [MeasureV; MeasureI]))
          /\ (its = [] <-> real_envs sch = [])
          /\ (sleep_ok (realtime_interval g) = true ->
              forall k it,
                nth_error its k = Some it ->
                (S k < List.length its
                 <-> consecutive_failures
                       0 (map read_ok (firstn (S k) (real_envs sch))) < 3
                     /\ stop_seen_real (firstn (S k) (real_envs sch)) = false
                     /\ S k < List.length (real_envs sch)))
          /\ (ex = Unfinished -> List.length its = List.length (real_envs sch))
          /\ List.length (filter is_measure_v (trace (run sch th)))
             = List.length its).
Proof.
  intros Hstart. destruct (on_start_creates g Hstart) as [c [Hc [Hth [Hsmu Hdlg]]]].
  assert (Hrunning : running th = true) by (rewrite Hth; reflexivity).
  assert (Hinterval : interval th = realtime_interval g) by (rewrite Hth; reflexivity).
  exists c. split; [exact Hc|]. split; [rewrite Hth; reflexivity|]. split.
  - intros -> sch its ex st' Hrun.
    assert (Hsim : simulation_mode th = true) by (rewrite Hth; reflexivity).
    destruct (run_simulation_mode sch th Hsim Hrun) as [Htr _].
    pose proof Hrun as Hloop. unfold _run_simulation in Hloop.
    destruct (reset_data_lengths (now0 sch) th) as [Ht [Hv Hcur]].
    destruct (sim_loop_payloads _ _ _ Hloop Ht Hv Hcur) as [Hpay [Hreads Hk]].
    destruct (sim_loop_progress _ _ _ Hloop) as [H0 [Hnext [Hun [Hcount Hem]]]].
    cbn [reset_data running interval] in H0, Hnext.
    rewrite Hrunning in H0. rewrite Hinterval in Hnext.
    split; [exact Htr|]. split; [|split; [|split; [|split; [|split; [|split]]]]].
    + rewrite Htr, existsb_app, Hreads. destruct ex; reflexivity.
    + intros k p s Hnth. destruct (Hk k p s Hnth) as [_ [env [Henv Hlast]]].
      exists env. split; [exact Henv|]. rewrite Hlast.
      assert (Hint : interval (reset_data (now0 sch) th) = realtime_interval g)
        by (rewrite Hth; reflexivity).
      rewrite Hint, sim_time_from_zero. reflexivity.
    + split; [intros E; apply H0 in E; destruct E as [E|E]; [discriminate|exact E]
             | intros E; apply H0; right; exact E].
    + exact Hnext.
    + exact Hun.
    + exact Hem.
    + rewrite Htr, payloads_of_app, closing_no_payload, app_nil_r. exact Hcount.
  - intros -> sch its ex st' Hrun.
    destruct (Hsmu eq_refl) as [name Hname].
    assert (Hsim : simulation_mode th = false) by (rewrite Hth; reflexivity).
    assert (Hconn : k_connected th = Py.Present true)
      by (rewrite Hth; cbn; exact Hc).
    assert (Hs : smu th <> None)
      by (rewrite Hth; cbn; rewrite Hname; discriminate).
    destruct (run_device_mode sch th Hsim Hconn Hs Hrun) as [Htr _].
    split; [exact Htr|].
    unfold run_device in Hrun.
    assert (Hr : running (reset_data (now0 sch) (raise_timeout th)) = true).
    { cbn [reset_data running]. destruct (raise_timeout_frame th) as [_ [-> _]].
      exact Hrunning. }
    assert (Hi : interval (reset_data (now0 sch) (raise_timeout th))
                 = realtime_interval g).
    { cbn [reset_data interval]. destruct (raise_timeout_frame th) as [-> _].
      exact Hinterval. }
    destruct (real_loop_shape _ _ _ Hrun) as [H0 [Hun Hmv]].
    rewrite Hr in H0.
    split; [|split; [|split; [|split]]].
    + intros k it Hnth.
      destruct (proj2 (real_loop_events _ _ _ Hrun) k it Hnth)
        as [env [Henv [Hrd [Hh Hf]]]].
      exists env. split; [exact Henv|]. split; [exact Hh|]. split; [exact Hrd|].
      intros Hok. rewrite Hf in Hok. rewrite Hrd. unfold read_calls.
      unfold read_ok in Hok. destruct (measure_v env); [reflexivity|discriminate].
    + split; [intros E; apply H0 in E; destruct E as [E|E]; [discriminate|exact E]
             | intros E; apply H0; right; exact E].
    + intros Hsleep k it Hnth. rewrite <- Hi in Hsleep.
      destruct (real_loop_counter (real_envs sch) _ (Nat.lt_0_succ 2) Hrun)
        as [Hk _].
      destruct (real_loop_progress (real_envs sch) _ (Nat.lt_0_succ 2) Hsleep Hrun)
        as [_ [Hnext _]].
      destruct (Hk k it Hnth) as [<- _]. apply (Hnext k it Hnth).
    + exact Hun.
    + rewrite Htr, filter_app, closing_no_measure, app_nil_r. exact Hmv.
Qed.

End WithFloat.
End RealtimeFacts.

(* ===================================================================== *)
(** ** The mutex and the shared attributes                                *)
(* ===================================================================== *)

Module ThreadsFacts.
Import Threads.
Section WithFloat.

Variable F : Type.

Local Abbreviation op := (Threads.op F).
Local Abbreviation machine := (Threads.machine F).
Local Abbreviation access := (Threads.access F).
Local Abbreviation ui_call := (Threads.ui_call F).

Ltac iff_cases :=
  split; intros E; try discriminate E; try reflexivity; try congruence.

(** One scheduling step keeps the programs bracketed; if the thread
    moved, it logged its operation, and the operation touched the
    setpoint exactly when the thread held the mutex. *)
Lemma step_spec (t : tid) (m : machine) :
  balanced m ->
  balanced (step t m)
  /\ (step t m = m
      \/ exists o,
          log (step t m) = log m ++ [mkAccess t o (lock m) (voltage (step t m))]
          /\ voltage (step t m)
             = match o with WriteVoltage v => v | _ => voltage m end
          /\ forall a, target o = Some a ->
                       (lock m = Some t <-> a = current_voltage)).
Proof.
  destruct m as [lk v ur wr lg]. unfold balanced, holds, step, rest_of.
  cbn [lock ui_rest worker_rest voltage log].
  destruct t.
  - destruct ur as [|o rest]; [intros Hb; split; [exact Hb | left; reflexivity]|].
    destruct o as [| |a|a|w]; try destruct a; destruct lk as [[|]|];
      cbn; intros [H1 H2]; try discriminate;
      (split; [split; assumption|]);
      try (left; reflexivity);
      right; eexists; (split; [reflexivity|]); (split; [reflexivity|]);
      intros a' Ha; try discriminate Ha; injection Ha as <-; iff_cases.
  - destruct wr as [|o rest]; [intros Hb; split; [exact Hb | left; reflexivity]|].
    destruct o as [| |a|a|w]; try destruct a; destruct lk as [[|]|];
      cbn; intros [H1 H2]; try discriminate;
      (split; [split; assumption|]);
      try (left; reflexivity);
      right; eexists; (split; [reflexivity|]); (split; [reflexivity|]);
      intros a' Ha; try discriminate Ha; injection Ha as <-; iff_cases.
Qed.

Lemma last_written_app (v0 : F) (l : list access) (x : access) :
  last_written v0 (l ++ [x])
  = match what x with WriteVoltage v => v | _ => last_written v0 l end.
Proof.
  revert v0. induction l as [|y l IH]; intros v0; cbn.
  - destruct (what x); reflexivity.
  - apply IH.
Qed.

Lemma reads_latest_app (v0 : F) (l : list access) (x : access) :
  reads_latest v0 l ->
  (what x = Read F current_voltage -> setpoint x = last_written v0 l) ->
  reads_latest v0 (l ++ [x]).
Proof.
  revert v0. induction l as [|y l IH]; intros v0 Hl Hx.
  - cbn in *. destruct (what x) as [| |a|a|w]; try exact I.
    destruct a; try exact I. split; [apply Hx; reflexivity | exact I].
  - cbn in *. destruct (what y) as [| |a|a|w]; try (apply IH; assumption).
    destruct a; try (apply IH; assumption).
    destruct Hl as [Hs Hl]. split; [exact Hs|]. apply IH; assumption.
Qed.

Lemma ui_program_bracketed (calls : list ui_call) :
  bracketed false (ui_program calls) = true.
Proof.
  induction calls as [|c calls IH]; [reflexivity|].
  unfold ui_program in *. cbn [flat_map]. destruct c; cbn; exact IH.
Qed.

Lemma passes_bracketed (n : nat) (q : list op) :
  bracketed false q = true ->
  bracketed false (List.concat (repeat (@sim_pass F) n) ++ q) = true.
Proof.
  intros Hq. induction n as [|n IH]; [exact Hq|].
  cbn [repeat List.concat]. rewrite <- app_assoc. cbn. exact IH.
Qed.

Lemma run_simulation_bracketed (n : nat) :
  bracketed false (@_run_simulation F n) = true.
Proof.
  unfold _run_simulation. cbn [app bracketed touches target attribute_eqb Bool.eqb andb].
  apply passes_bracketed. reflexivity.
Qed.

Lemma init_balanced (v0 : F) (calls : list ui_call) (n : nat) :
  balanced (init v0 calls n).
Proof.
  split; cbn; [apply ui_program_bracketed | apply run_simulation_bracketed].
Qed.

(** Along any schedule: the programs stay bracketed, each logged access
    held the mutex exactly when it touched the setpoint, and each read of
    the setpoint returned the value written last. *)
Lemma exec_spec (sched : list tid) :
  forall (m : machine) (v0 : F),
    balanced m ->
    Forall (@exclusive F) (log m) ->
    reads_latest v0 (log m) ->
    last_written v0 (log m) = voltage m ->
    balanced (exec sched m)
    /\ Forall (@exclusive F) (log (exec sched m))
    /\ reads_latest v0 (log (exec sched m))
    /\ last_written v0 (log (exec sched m)) = voltage (exec sched m).
Proof.
  induction sched as [|t sched IH]; intros m v0 Hb Hex Hr Hw.
  - split; [exact Hb | split; [exact Hex | split; assumption]].
  - cbn [exec fold_left]. fold (exec sched (step t m)).
    destruct (step_spec t Hb) as [Hb' [Hsame | [o [Hlog [Hv Hlock]]]]].
    + rewrite Hsame. apply IH; assumption.
    + apply IH; [exact Hb' | | |].
      * rewrite Hlog. apply Forall_app. split; [exact Hex|].
        constructor; [|constructor]. intros a Ha. cbn in *. apply Hlock. exact Ha.
      * rewrite Hlog. apply reads_latest_app; [exact Hr|].
        cbn. intros ->. rewrite Hv, Hw. reflexivity.
      * rewrite Hlog, last_written_app. cbn. rewrite Hv, Hw.
        destruct o; reflexivity.
Qed.

(** C7 (amended).  Along every interleaving of the UI calls with the
    simulation loop, an attribute access is made holding the mutex exactly
    when the attribute is the setpoint [current_voltage] (so every write
    by [update_simulation_voltage] and every read by the loop holds it),
    and each read of the setpoint returns the value written last.  The
    attributes accessed by both threads are the setpoint and, without the
    mutex, the flag [running] and the lists [time_data] and
    [current_data] that the payload hands to the UI by reference. *)
Theorem mutex_guards_setpoint (v0 : F) (calls : list ui_call) (n : nat)
        (sched : list tid) :
  Forall (@exclusive F) (log (exec sched (init v0 calls n)))
  /\ reads_latest v0 (log (exec sched (init v0 calls n)))
  /\ forall a,
      (ui_accesses F a /\ worker_accesses F a)
      <-> In a [running; current_voltage; time_data; current_data].
Proof.
  assert (H0 : Forall (@exclusive F) (log (init v0 calls n))) by constructor.
  assert (H1 : reads_latest v0 (log (init v0 calls n))) by exact I.
  assert (H2 : last_written v0 (log (init v0 calls n)) = voltage (init v0 calls n))
    by reflexivity.
  destruct (@exec_spec sched (init v0 calls n) v0 (init_balanced v0 calls n) H0 H1 H2)
    as [_ [Hex [Hr _]]].
  split; [exact Hex|]. split; [exact Hr|].
  intros a. split.
  - intros [[c Hc] Hw]. unfold worker_accesses in Hw.
    destruct a; cbn in Hw; try discriminate; cbn; auto;
      destruct c; cbn in Hc; discriminate.
  - intros Hin. unfold ui_accesses, worker_accesses.
    destruct Hin as [<- | [<- | [<- | [<- | []]]]]; (split; [|reflexivity]).
    + exists (stop F). reflexivity.
    + exists (update_simulation_voltage v0). reflexivity.
    + exists (on_realtime_data F). reflexivity.
    + exists (on_realtime_data F). reflexivity.
Qed.

End WithFloat.
End ThreadsFacts.

(** C7, as stated, fails: the flag [running] is written by [stop()] on the
    UI thread and read by the loop test of the worker. *)
Lemma running_is_shared_too :
  Threads.ui_accesses Q Threads.running
  /\ Threads.worker_accesses Q Threads.running
  /\ ~ Threads.only_voltage_shared Q.
Proof.
  assert (Hui : Threads.ui_accesses Q Threads.running)
    by (exists (Threads.stop Q); reflexivity).
  assert (Hw : Threads.worker_accesses Q Threads.running) by reflexivity.
  split; [exact Hui|]. split; [exact Hw|].
  intros Honly. specialize (Honly Threads.running Hui Hw). discriminate.
Qed.

(* ===================================================================== *)
(** ** Runs on concrete inputs                                            *)
(* ===================================================================== *)

(** After one good read, three timeouts in a row end the loop at the
    threshold and the run emits [error_sig]. *)
Lemma retries_three_consecutive_errors_witness :
  exists its st',
    Realtime.run_device (Realtime.now0 Samples.three_timeouts)
                        (Realtime.real_envs Samples.three_timeouts)
                        (Realtime.raise_timeout Samples.device_thread)
    = (its, Realtime.Threshold, st')
    /\ map (@Realtime.errors_after Q) its = [0; 1; 2; 3]
    /\ existsb Realtime.is_error_sig
               (Realtime.trace (Realtime.run Samples.three_timeouts
                                             Samples.device_thread)) = true.
Proof.
  destruct (Realtime.run_device (Realtime.now0 Samples.three_timeouts)
                                (Realtime.real_envs Samples.three_timeouts)
                                (Realtime.raise_timeout Samples.device_thread))
    as [[its ex] st'] eqn:E.
  assert (Hsmu : Realtime.smu Samples.device_thread <> None) by discriminate.
  assert (Hsleep : sleep_ok (Realtime.interval Samples.device_thread) = true)
    by (vm_compute; reflexivity).
  destruct (@RealtimeFacts.retries_three_consecutive_errors
              Q _ Samples.three_timeouts Samples.device_thread its ex st'
              eq_refl eq_refl Hsmu Hsleep E) as [_ [_ Hrun]].
  vm_compute in E. injection E as <- <- <-.
  eexists. eexists. split; [reflexivity|]. split; [reflexivity|].
  apply Hrun. reflexivity.
Defined.

(** With no instrument connected and the dialog accepted, the thread is
    created in simulation mode. *)
Lemma start_selects_mode_witness :
  Act.outcome (Realtime.on_start_realtime_clicked Samples.offline_gui)
  = Py.Returns (Some Samples.offline_thread)
  /\ Realtime.simulation_mode Samples.offline_thread = true
  /\ existsb Realtime.is_read
             (Realtime.trace (Realtime.run Samples.two_passes Samples.offline_thread))
     = false
  /\ List.length
       (Realtime.payloads_of
          (Realtime.trace (Realtime.run Samples.two_passes Samples.offline_thread)))
     = 2.
Proof.
  destruct (Realtime._run_simulation (Realtime.now0 Samples.two_passes)
                                     (Realtime.sim_envs Samples.two_passes)
                                     Samples.offline_thread)
    as [[its ex] st'] eqn:E.
  destruct (@RealtimeFacts.start_selects_mode
              Q _ Samples.offline_gui Samples.offline_thread
              (Act.effects (Realtime.on_start_realtime_clicked Samples.offline_gui))
              eq_refl) as [c [Hc [Hmode [Hsim _]]]].
  assert (c = false) by (vm_compute in Hc; congruence). subst c.
  destruct (Hsim eq_refl Samples.two_passes its ex st' E)
    as [_ [Hreads [_ [_ [_ [_ [_ Hcount]]]]]]].
  split; [reflexivity|]. split; [exact Hmode|]. split; [exact Hreads|].
  rewrite Hcount. vm_compute in E. injection E as <- _ _. reflexivity.
Defined.

(** The simulated run: two samples, the second one at the raised
    setpoint, then the stop is seen and [finished_sig] closes the run. *)
Example simulation_two_passes :
  map (@Realtime.last_value Q)
      (Realtime.payloads_of
         (Realtime.trace (Realtime.run Samples.two_passes Samples.offline_thread)))
  = [((0 # 1)%Q, (1 # 1)%Q,
      Realtime.sim_current (1 # 1)%Q (0 # 1)%Q (1 # 20)%Q);
     ((0 # 1) + (1 # 2), (2 # 1),
      Realtime.sim_current (2 # 1)%Q ((0 # 1) + (1 # 2))%Q (0 # 1)%Q)]%Q
  /\ Realtime.ended (Realtime.run Samples.two_passes Samples.offline_thread) = true.
Proof. split; reflexivity. Qed.

(** The payload holds references: read later, the first payload of the
    run shows two samples, not the one it was emitted with. *)
Example payload_is_aliased :
  match Realtime._run_simulation (0 # 1)%Q (Realtime.sim_envs Samples.two_passes)
                                 Samples.offline_thread with
  | (its, _, final) =>
      match Realtime.emissions its with
      | (p, at_emit) :: _ =>
          List.length (Realtime.deref at_emit (Realtime.p_time p)) = 1
          /\ List.length (Realtime.deref final (Realtime.p_time p)) = 2
      | [] => False
      end
  end.
Proof. split; reflexivity. Qed.

(** At 50 Hz an integration time of 0.1 s starts a sweep, 1 s does not. *)
Example sweep_starts_inside_bounds :
  Sweep.started (Samples.sweep_gui (1 # 10)%Q) = true
  /\ Sweep.started (Samples.sweep_gui (1 # 1)%Q) = false
  /\ Sweep.parameter_error_shown (Samples.sweep_gui (1 # 1)%Q) = true.
Proof. repeat split; vm_compute; reflexivity. Qed.

(** A transfer sweep whose driver call raises is reported by one
    [error_sig]. *)
Example sweep_error_reported :
  let failing : Sweep.driver :=
    Sweep.mkDriver (fun _ => Py.Raises Samples.timeout)
                   (fun _ => Py.Raises Samples.timeout)
                   (fun _ _ _ _ _ => Py.Raises Samples.timeout)
                   (fun _ _ => Py.Returns tt) (Py.Returns tt)
                   (fun _ _ _ => Py.Returns []) in
  match Act.effects (Sweep.on_sweep_clicked (Samples.sweep_gui (1 # 10)%Q)) with
  | [_; _; Sweep.StartMeasureThread params] =>
      Sweep.run failing params
      = [Sweep.started_sig; Sweep.error_sig Samples.timeout]
  | _ => False
  end.
Proof. vm_compute. reflexivity. Qed.

(* ===================================================================== *)
(** ** From the sweep button to the driver                                *)
(* ===================================================================== *)

Module SweepMoreFacts.
Import Sweep SweepMore.
Section WithFloat.

Context {F : Type} `{PyFloat F}.

Local Abbreviation dict := (@Sweep.dict F).
Local Abbreviation driver := (@Sweep.driver F).
Local Abbreviation gui := (@Sweep.gui F).

(** The effects of a click that starts a thread on tab [tab]. *)
Lemma started_effects (g : gui) (params : dict) :
  In (StartMeasureThread params) (Act.effects (on_sweep_clicked g)) ->
  exists msg,
    Act.effects (on_sweep_clicked g)
    = [StatusBar msg; GuiStateBusy; StartMeasureThread params]
    /\ has_smu g (smu_gate_text g) = true
    /\ has_smu g (smu_drain_text g) = true.
Proof.
  unfold on_sweep_clicked, tab_params, keithley_getattr.
  destruct (busy g); [cbn; intros [E|[]]; discriminate|].
  destruct (apply_smu_settings g) as [[]|]; [|cbn; intros []].
  destruct (tab_index g =? 0)%Z; [|destruct (tab_index g =? 1)%Z;
                                    [|destruct (tab_index g =? 2)%Z;
                                      [destruct (has_smu g (smu_sweep_text g))|]]];
    cbn -[tint_invalid dict_set];
    try (intros []; fail);
    try (intros [E|[]]; discriminate).
  all: destruct (has_smu g (smu_gate_text g)); cbn -[tint_invalid dict_set];
    try (intros [E|[]]; discriminate).
  all: destruct (has_smu g (smu_drain_text g)); cbn -[tint_invalid dict_set];
    try (intros [E|[]]; discriminate).
  all: destruct (tint_invalid (linefreq g) (t_int g)) as [[|]|e];
    cbn -[dict_set]; try (intros [E|[E|[]]]; discriminate);
    try (intros [E|[]]; discriminate).
  all: intros [E|[E|[E|[]]]]; try discriminate; injection E as <-;
    eexists; repeat split; reflexivity.
Qed.

(** What the dictionary of a started thread holds, tab by tab. *)
Lemma started_params (g : gui) (params : dict) :
  In (StartMeasureThread params) (Act.effects (on_sweep_clicked g)) ->
  dict_gets ["tInt"; "delay"; "pulsed"; "smu_gate"; "smu_drain"] params
  = Py.Returns [VFloat (t_int g); VFloat (t_settling g); VBool (pulsed_of g);
                VSmu (smu_gate_text g); VSmu (smu_drain_text g)]
  /\ (tab_index g = 0%Z ->
      dict_gets ["sweep_type"; "VgStart"; "VgStop"; "VgStep"; "VdList"] params
      = Py.Returns [VStr "transfer"; VFloat (vg_start g); VFloat (vg_stop g);
                    VFloat (vg_step g); VList (vd_list g)])
  /\ (tab_index g = 1%Z ->
      dict_gets ["sweep_type"; "VdStart"; "VdStop"; "VdStep"; "VgList"] params
      = Py.Returns [VStr "output"; VFloat (vd_start g); VFloat (vd_stop g);
                    VFloat (vd_step g); VList (vg_list g)])
  /\ (tab_index g = 2%Z ->
      dict_gets ["sweep_type"; "VStart"; "VStop"; "VStep"; "smu_sweep"] params
      = Py.Returns [VStr "iv"; VFloat (v_start g); VFloat (v_stop g);
                    VFloat (v_step g); VSmu (smu_sweep_text g)]).
Proof.
  unfold on_sweep_clicked, tab_params, keithley_getattr, pulsed_of.
  destruct (busy g); [cbn; intros [E|[]]; discriminate|].
  destruct (apply_smu_settings g) as [[]|]; [|cbn; intros []].
  destruct (Z.eqb_spec (tab_index g) 0) as [E0|E0];
    [|destruct (Z.eqb_spec (tab_index g) 1) as [E1|E1];
      [|destruct (Z.eqb_spec (tab_index g) 2) as [E2|E2];
        [destruct (has_smu g (smu_sweep_text g))|]]];
    cbn -[tint_invalid dict_set];
    try (intros []; fail);
    try (intros [E|[]]; discriminate).
  all: destruct (has_smu g (smu_gate_text g)); cbn -[tint_invalid dict_set];
    try (intros [E|[]]; discriminate).
  all: destruct (has_smu g (smu_drain_text g)); cbn -[tint_invalid dict_set];
    try (intros [E|[]]; discriminate).
  all: destruct (tint_invalid (linefreq g) (t_int g)) as [[|]|e];
    cbn -[dict_set]; try (intros [E|[E|[]]]; discriminate);
    try (intros [E|[]]; discriminate).
  all: intros [E|[E|[E|[]]]]; try discriminate; injection E as <-.
  all: repeat split; intros; try lia; reflexivity.
Qed.

Lemma dict_gets_cons (k : string) (ks : list string) (d : dict) v vs :
  dict_gets (k :: ks) d = Py.Returns (v :: vs) ->
  dict_get k d = Py.Returns v /\ dict_gets ks d = Py.Returns vs.
Proof.
  cbn [dict_gets]. destruct (dict_get k d); cbn; [|discriminate].
  destruct (dict_gets ks d); cbn; [|discriminate].
  intros E. injection E as <- <-. split; reflexivity.
Qed.

Ltac lookups H :=
  repeat match type of H with
         | dict_gets (_ :: _) _ = Py.Returns (_ :: _) =>
             let H1 := fresh "Hget" in
             apply dict_gets_cons in H; destruct H as [H1 H]
         end.

Ltac finish_sweep keithley :=
  destruct (beep keithley _ _); cbn [Py.bind Py.try_except filter is_result_signal];
  [|reflexivity];
  destruct (reset keithley); reflexivity.

(** X1.  A click on the transfer tab that starts a thread makes the
    thread call [transfer_measurement] with the gate and drain SMUs, the
    three gate-voltage fields, the drain-voltage list, the integration
    time, the settling time and the pulsed flag of the window, in this
    order; the result signal is the one of that call followed by beep and
    reset. *)
Theorem transfer_click_reaches_driver (g : gui) (params : dict) (keithley : driver) :
  tab_index g = 0%Z ->
  In (StartMeasureThread params) (Act.effects (on_sweep_clicked g)) ->
  filter is_result_signal (run keithley params)
  = after_sweep keithley
      (transfer_measurement keithley
         [VSmu (smu_gate_text g); VSmu (smu_drain_text g);
          VFloat (vg_start g); VFloat (vg_stop g); VFloat (vg_step g);
          VList (vd_list g);
          VFloat (t_int g); VFloat (t_settling g); VBool (pulsed_of g)]).
Proof.
  intros Htab Hin.
  destruct (started_params g params Hin) as [Hgen [Htr _]].
  specialize (Htr Htab). lookups Hgen. lookups Htr.
  unfold run, run_try, after_sweep, transfer_keys. cbn [dict_gets].
  repeat match goal with Hg : dict_get _ params = _ |- _ => rewrite Hg; clear Hg end.
  cbn [Py.bind is_str String.eqb Ascii.eqb Bool.eqb].
  destruct (transfer_measurement keithley _);
    cbn [Py.bind Py.try_except filter is_result_signal]; [|reflexivity].
  finish_sweep keithley.
Qed.

(** X2.  The same for the output tab and [output_measurement]: drain
    sweep fields and the gate-voltage list. *)
Theorem output_click_reaches_driver (g : gui) (params : dict) (keithley : driver) :
  tab_index g = 1%Z ->
  In (StartMeasureThread params) (Act.effects (on_sweep_clicked g)) ->
  filter is_result_signal (run keithley params)
  = after_sweep keithley
      (output_measurement keithley
         [VSmu (smu_gate_text g); VSmu (smu_drain_text g);
          VFloat (vd_start g); VFloat (vd_stop g); VFloat (vd_step g);
          VList (vg_list g);
          VFloat (t_int g); VFloat (t_settling g); VBool (pulsed_of g)]).
Proof.
  intros Htab Hin.
  destruct (started_params g params Hin) as [Hgen [_ [Hout _]]].
  specialize (Hout Htab). lookups Hgen. lookups Hout.
  unfold run, run_try, after_sweep, output_keys. cbn [dict_gets].
  repeat match goal with Hg : dict_get _ params = _ |- _ => rewrite Hg; clear Hg end.
  cbn [Py.bind is_str String.eqb Ascii.eqb Bool.eqb].
  destruct (output_measurement keithley _);
    cbn [Py.bind Py.try_except filter is_result_signal]; [|reflexivity].
  finish_sweep keithley.
Qed.

(** X3.  A click on the IV tab that starts a thread makes the thread
    sweep the selected SMU over [arange(VStart, VStop + step, step)]
    followed by its reverse, where [step] has the magnitude of the VStep
    field and the sign of [VStop - VStart]; the table of a successful
    sweep has one row per returned sample and records the integration
    time, the delay and the pulsed flag of the window. *)
Theorem iv_click_reaches_driver (g : gui) (params : dict) (keithley : driver) :
  tab_index g = 2%Z ->
  In (StartMeasureThread params) (Act.effects (on_sweep_clicked g)) ->
  filter is_result_signal (run keithley params)
  = after_sweep keithley
      (sweeplist <- np_arange keithley (v_start g)
                      (fadd (v_stop g) (iv_step g)) (iv_step g) ;;
       vi <- voltage_sweep_single_smu keithley (VSmu (smu_sweep_text g))
               (sweeplist ++ rev sweeplist)
               (VFloat (t_int g)) (VFloat (t_settling g)) (VBool (pulsed_of g)) ;;
       rows <- np_transpose2 (fst vi) (snd vi) ;;
       Py.Returns
         (mkTable ["Voltage"; "Current"] ["V"; "A"] rows
                  [("sweep_type", VStr "iv"); ("t_int", VFloat (t_int g));
                   ("delay", VFloat (t_settling g));
                   ("pulsed", VBool (pulsed_of g))])).
Proof.
  intros Htab Hin.
  destruct (started_params g params Hin) as [Hgen [_ [_ Hiv]]].
  specialize (Hiv Htab). lookups Hgen. lookups Hiv.
  unfold run, run_try, after_sweep, iv_sweep, iv_step.
  repeat match goal with Hg : dict_get _ params = _ |- _ => rewrite Hg; clear Hg end.
  cbn [Py.bind is_str String.eqb Ascii.eqb Bool.eqb as_float].
  destruct (np_arange keithley _ _ _) as [l|e];
    cbn [Py.bind Py.try_except filter is_result_signal]; [|reflexivity].
  destruct (voltage_sweep_single_smu keithley _ _ _ _ _) as [vi|e];
    cbn [Py.bind Py.try_except filter is_result_signal]; [|reflexivity].
  destruct (np_transpose2 (fst vi) (snd vi)) as [rows|e];
    cbn [Py.bind Py.try_except filter is_result_signal]; [|reflexivity].
  finish_sweep keithley.
Qed.

Lemma there_and_back_app (l : list F) : there_and_back (l ++ rev l).
Proof.
  split.
  - rewrite rev_app_distr, rev_involutive. reflexivity.
  - rewrite List.length_app, List.length_rev.
    replace (List.length l + List.length l) with (2 * List.length l) by lia.
    apply Nat.even_spec. exists (List.length l). reflexivity.
Qed.

(** X4.  The IV branch hands the driver only sweep lists that read the
    same forwards and backwards and have an even number of points: two
    drivers that agree on such lists (and on [arange]) give the same IV
    sweep, whatever they would do on other lists. *)
Theorem iv_sweep_there_and_back (k k' : driver) (params : dict) :
  (forall a b c, np_arange k a b c = np_arange k' a b c) ->
  (forall smu l tInt delay pulsed,
      there_and_back l ->
      voltage_sweep_single_smu k smu l tInt delay pulsed
      = voltage_sweep_single_smu k' smu l tInt delay pulsed) ->
  iv_sweep k params = iv_sweep k' params.
Proof.
  intros Har Hsw. unfold iv_sweep.
  destruct (x <- dict_get "VStop" params ;; as_float x); [|reflexivity].
  destruct (x <- dict_get "VStart" params ;; as_float x); [|reflexivity].
  cbn [Py.bind].
  destruct (x <- dict_get "VStep" params ;; as_float x); [|reflexivity].
  cbn [Py.bind]. rewrite Har.
  destruct (np_arange k' _ _ _) as [l|e]; [|reflexivity].
  cbn [Py.bind].
  destruct (dict_get "smu_sweep" params); [|reflexivity].
  destruct (dict_get "tInt" params); [|reflexivity].
  destruct (dict_get "delay" params); [|reflexivity].
  destruct (dict_get "pulsed" params); [|reflexivity].
  cbn [Py.bind]. rewrite (Hsw _ _ _ _ _ (there_and_back_app l)). reflexivity.
Qed.

(** X5.  One click does at most one thing the user sees happen: it shows
    one dialog, or it starts one measurement thread, never both and never
    two of either; and the window is put in its busy state exactly when a
    thread is started. *)
Theorem click_one_dialog_or_one_thread (g : gui) :
  List.length (filter (fun e => is_message_box e || starts_thread e)
                      (Act.effects (on_sweep_clicked g))) <= 1
  /\ existsb is_gui_busy (Act.effects (on_sweep_clicked g)) = started g
  /\ (started g = true -> Act.outcome (on_sweep_clicked g) = Py.Returns tt).
Proof.
  unfold started, on_sweep_clicked, tab_params, keithley_getattr.
  destruct (busy g); [cbn; repeat split; try lia; discriminate|].
  destruct (apply_smu_settings g) as [[]|];
    [|cbn; repeat split; try lia; discriminate].
  destruct (tab_index g =? 0)%Z; [|destruct (tab_index g =? 1)%Z;
                                    [|destruct (tab_index g =? 2)%Z;
                                      [destruct (has_smu g (smu_sweep_text g))|]]];
    cbn -[tint_invalid dict_set];
    try (repeat split; try lia; discriminate).
  all: destruct (has_smu g (smu_gate_text g)); cbn -[tint_invalid dict_set];
    try (repeat split; try lia; discriminate).
  all: destruct (has_smu g (smu_drain_text g)); cbn -[tint_invalid dict_set];
    try (repeat split; try lia; discriminate).
  all: destruct (tint_invalid (linefreq g) (t_int g)) as [[|]|e];
    cbn -[dict_set]; repeat split; try lia; try discriminate; reflexivity.
Qed.

End WithFloat.
End SweepMoreFacts.

(** On the transfer tab the driver gets the nine arguments of the page and
    the sweep ends with [finished_sig]. *)
Lemma transfer_click_reaches_driver_witness :
  filter Sweep.is_result_signal
         (Sweep.run MoreSamples.answering
            (MoreSamples.first_thread
               (Act.effects (Sweep.on_sweep_clicked (MoreSamples.sweep_gui_on 0)))))
  = [Sweep.finished_sig (Some MoreSamples.empty_table)].
Proof.
  assert (Hin : In (Sweep.StartMeasureThread
                      (MoreSamples.first_thread
                         (Act.effects
                            (Sweep.on_sweep_clicked (MoreSamples.sweep_gui_on 0)))))
                   (Act.effects (Sweep.on_sweep_clicked (MoreSamples.sweep_gui_on 0))))
    by (vm_compute; right; right; left; reflexivity).
  rewrite (@SweepMoreFacts.transfer_click_reaches_driver
             Q _ (MoreSamples.sweep_gui_on 0) _ MoreSamples.answering eq_refl Hin).
  reflexivity.
Defined.

Lemma output_click_reaches_driver_witness :
  filter Sweep.is_result_signal
         (Sweep.run MoreSamples.answering
            (MoreSamples.first_thread
               (Act.effects (Sweep.on_sweep_clicked (MoreSamples.sweep_gui_on 1)))))
  = [Sweep.finished_sig (Some MoreSamples.empty_table)].
Proof.
  assert (Hin : In (Sweep.StartMeasureThread
                      (MoreSamples.first_thread
                         (Act.effects
                            (Sweep.on_sweep_clicked (MoreSamples.sweep_gui_on 1)))))
                   (Act.effects (Sweep.on_sweep_clicked (MoreSamples.sweep_gui_on 1))))
    by (vm_compute; right; right; left; reflexivity).
  rewrite (@SweepMoreFacts.output_click_reaches_driver
             Q _ (MoreSamples.sweep_gui_on 1) _ MoreSamples.answering eq_refl Hin).
  reflexivity.
Defined.

(** Sweeping from 0 V to -3 V with a step field of +1 V: the step is
    -1 V, and the two points of the driver's [arange] come back as four
    rows, there and back. *)
Lemma iv_click_reaches_driver_witness :
  (SweepMore.iv_step (MoreSamples.sweep_gui_on 2) == -(1 # 1))%Q
  /\ exists t,
      filter Sweep.is_result_signal
             (Sweep.run MoreSamples.answering
                (MoreSamples.first_thread
                   (Act.effects (Sweep.on_sweep_clicked (MoreSamples.sweep_gui_on 2)))))
      = [Sweep.finished_sig (Some t)]
      /\ List.length (Sweep.data t) = 4.
Proof.
  split; [vm_compute; reflexivity|].
  assert (Hin : In (Sweep.StartMeasureThread
                      (MoreSamples.first_thread
                         (Act.effects
                            (Sweep.on_sweep_clicked (MoreSamples.sweep_gui_on 2)))))
                   (Act.effects (Sweep.on_sweep_clicked (MoreSamples.sweep_gui_on 2))))
    by (vm_compute; right; right; left; reflexivity).
  rewrite (@SweepMoreFacts.iv_click_reaches_driver
             Q _ (MoreSamples.sweep_gui_on 2) _ MoreSamples.answering eq_refl Hin).
  eexists. split; [reflexivity|]. reflexivity.
Defined.

(** The IV sweep of the page gives the same table with the driver that
    refuses odd sweep lists. *)
Lemma iv_sweep_there_and_back_witness :
  Sweep.iv_sweep MoreSamples.answering
     (MoreSamples.first_thread
        (Act.effects (Sweep.on_sweep_clicked (MoreSamples.sweep_gui_on 2))))
  = Sweep.iv_sweep MoreSamples.even_only
     (MoreSamples.first_thread
        (Act.effects (Sweep.on_sweep_clicked (MoreSamples.sweep_gui_on 2)))).
Proof.
  apply (@SweepMoreFacts.iv_sweep_there_and_back Q _).
  - reflexivity.
  - intros smu l a b c [_ Heven]. cbn. rewrite Heven. reflexivity.
Defined.

(* ===================================================================== *)
(** ** More on the real-time thread                                       *)
(* ===================================================================== *)

Module RealtimeMoreFacts.
Import Realtime RealtimeMore.
Section WithFloat.

Context {F : Type} `{PyFloat F}.

Local Abbreviation thread := (@Realtime.thread F).
Local Abbreviation iteration := (@Realtime.iteration F).
Local Abbreviation event := (@Realtime.event F).
Local Abbreviation real_env := (@Realtime.real_env F).
Local Abbreviation sim_env := (@Realtime.sim_env F).
Local Abbreviation schedule := (@Realtime.schedule F).
Local Abbreviation gui := (@Realtime.gui F).

Ltac start_case :=
  cbn; repeat split; intros;
  repeat match goal with
         | H : exists _, _ |- _ => destruct H
         | H : _ /\ _ |- _ => destruct H
         | H : _ \/ _ |- _ => destruct H
         | H : False |- _ => destruct H
         end;
  try discriminate; try congruence;
  try (eexists; reflexivity);
  try (left; repeat split; eauto; fail);
  try (right; repeat split; eauto; fail);
  try (cbn; intuition congruence).

(** X6.  The start button creates a thread exactly when a real SMU is
    selected and either the instrument is connected, the SMU exists and
    the voltage could be applied, or the instrument is not connected and
    the simulation dialog was accepted.  The thread it returns is the one
    it starts; when it returns without a thread it has shown one dialog
    and started nothing. *)
Theorem start_creates_thread_iff (g : gui) :
  ((exists th, Act.outcome (on_start_realtime_clicked g) = Py.Returns (Some th))
   <-> may_start g)
  /\ (forall th,
         Act.outcome (on_start_realtime_clicked g) = Py.Returns (Some th)
         <-> In (StartThread th) (Act.effects (on_start_realtime_clicked g)))
  /\ (Act.outcome (on_start_realtime_clicked g) = Py.Returns None ->
      List.length (filter is_message_box (Act.effects (on_start_realtime_clicked g))) = 1
      /\ existsb is_start_thread (Act.effects (on_start_realtime_clicked g)) = false).
Proof.
  unfold may_start, on_start_realtime_clicked.
  destruct (String.eqb (smu_name g) "--"); [start_case|].
  destruct (keithley_connected g) as [|[|]|e]; [start_case| | |start_case].
  - destruct (keithley_smu g) as [name|e]; [|start_case].
    destruct (apply_voltage g) as [[]|e]; start_case.
  - destruct (dialog_cancelled g); start_case.
Qed.

(** X7.  A thread in real-device mode whose instrument is not connected
    (or has no [connected] attribute), or whose SMU could not be found,
    never enters the loop: its run reports one error, then
    [finished_sig], reads nothing and leaves the thread as it was.  An
    exception raised by reading [connected] is reported the same way. *)
Theorem device_run_without_device (sch : schedule) (st : thread) :
  simulation_mode st = false ->
  (k_connected st = Py.Absent \/ k_connected st = Py.Present false ->
   run sch st
   = mkRun [Emit (error_sig (Py.Exception "设备未连接")); Emit finished_sig] true st)
  /\ (forall e, k_connected st = Py.Faulty e ->
                run sch st = mkRun [Emit (error_sig e); Emit finished_sig] true st)
  /\ (k_connected st = Py.Present true -> smu st = None ->
      run sch st
      = mkRun [Emit (error_sig (Py.Exception "无法获取SMU对象")); Emit finished_sig]
              true st).
Proof.
  intros Hsim. unfold run, run_body. rewrite Hsim. repeat split.
  - intros [-> | ->]; cbn; destruct (k_visa_timeout st); reflexivity.
  - intros e ->. cbn. destruct (k_visa_timeout st); reflexivity.
  - intros -> ->. cbn. destruct (k_visa_timeout st); reflexivity.
Qed.

(** *** [error_sig] *)

Lemma filter_nil_In {A} (P : A -> bool) (l : list A) (x : A) :
  filter P l = [] -> In x l -> P x = false.
Proof.
  intros Hf Hin. destruct (P x) eqn:E; [|reflexivity].
  assert (Hx : In x (filter P l)) by (apply filter_In; split; assumption).
  rewrite Hf in Hx. destruct Hx.
Qed.

Lemma read_calls_no_error (env : real_env) :
  filter is_error_sig (read_calls env) = [].
Proof. unfold read_calls. destruct (measure_v env); reflexivity. Qed.

Lemma recovery_no_error (env : real_env) (st : thread) :
  filter is_error_sig (recovery env st) = [].
Proof.
  unfold recovery. destruct (k_has_reset st); [|reflexivity].
  destruct (reset_outcome env); reflexivity.
Qed.

(** A pass that breaks ends with its [error_sig]; other passes emit
    none.  The counter stays below three as long as the loop goes on. *)
Lemma real_iteration_error (env : real_env) (st : thread) (c : nat) :
  c < 3 ->
  let it := real_iteration env st c in
  match leaves it with
  | Break =>
      exists pre e, events it = pre ++ [Emit (error_sig e)]
                    /\ filter is_error_sig pre = []
  | Next => filter is_error_sig (events it) = [] /\ errors_after it < 3
  | Propagate _ => filter is_error_sig (events it) = []
  end.
Proof.
  intros Hc. cbv zeta. unfold real_iteration.
  pose proof (read_calls_no_error env) as Hr.
  pose proof (recovery_no_error env st) as Hrec.
  destruct (v <- measure_v env ;; i <- measure_i env ;; Py.Returns (v, i))
    as [[v i]|e].
  - cbn [leaves events errors_after].
    destruct (time_sleep _); rewrite filter_app, Hr; cbn; [split; [reflexivity|lia]|reflexivity].
  - destruct (Py.is_VisaIOError e);
      destruct (Py.str_in "VI_ERROR_TMO" (Py.exn_str e));
      destruct c as [|[|[|c]]]; try lia;
      cbn [max_consecutive_errors Nat.leb Nat.add leaves events errors_after];
      rewrite ?filter_app, ?Hr, ?Hrec; cbn [app];
      try (split; [reflexivity|lia]).
    all: eexists; eexists; split;
      [ rewrite ?app_assoc; reflexivity
      | rewrite ?filter_app, ?Hr, ?Hrec; reflexivity ].
Qed.

Lemma real_loop_error (envs : list real_env) :
  forall (st : thread) (c : nat) its ex st',
    c < 3 ->
    real_loop envs st c = (its, ex, st') ->
    match ex with
    | Threshold =>
        exists pre e, trace_of its = pre ++ [Emit (error_sig e)]
                      /\ filter is_error_sig pre = []
    | _ => filter is_error_sig (trace_of its) = []
    end.
Proof.
  induction envs as [|env rest IH]; intros st c its ex st' Hc Hrun;
    cbn [real_loop] in Hrun.
  - destruct (negb (running st)); injection Hrun as <- <- <-; reflexivity.
  - destruct (negb (running st)); [injection Hrun as <- <- <-; reflexivity|].
    pose proof (real_iteration_error env st Hc) as Hit. cbv zeta in Hit.
    set (it0 := real_iteration env st c) in *.
    destruct (leaves it0) eqn:Hleave.
    + destruct Hit as [Hnone Hlt].
      destruct (real_loop rest (after it0) (errors_after it0))
        as [[its' ex'] st''] eqn:Hrest.
      injection Hrun as <- <- <-.
      pose proof (IH _ _ _ _ _ Hlt Hrest) as IHr.
      unfold trace_of in *. cbn [map List.concat].
      destruct ex'; rewrite ?filter_app, ?Hnone; try exact IHr.
      destruct IHr as [pre [e [Htr Hpre]]].
      exists (events it0 ++ pre), e. split.
      * rewrite Htr, app_assoc. reflexivity.
      * rewrite filter_app, Hnone, Hpre. reflexivity.
    + injection Hrun as <- <- <-. destruct Hit as [pre [e [Hev Hpre]]].
      exists pre, e. unfold trace_of. cbn [map List.concat].
      rewrite app_nil_r. split; assumption.
    + injection Hrun as <- <- <-. unfold trace_of. cbn [map List.concat].
      rewrite app_nil_r. exact Hit.
Qed.

Lemma sim_loop_error (envs : list sim_env) :
  forall (st : thread) (t : F) its ex st',
    sim_loop envs st t = (its, ex, st') ->
    filter is_error_sig (trace_of its) = [] /\ ex <> Threshold.
Proof.
  induction envs as [|env rest IH]; intros st t its ex st' Hrun;
    cbn [sim_loop] in Hrun.
  - destruct (negb (running st)); injection Hrun as <- <- <-; split;
      try reflexivity; discriminate.
  - destruct (negb (running st));
      [injection Hrun as <- <- <-; split; try reflexivity; discriminate|].
    unfold sim_iteration in Hrun. cbn [leaves after] in Hrun.
    destruct (time_sleep _).
    + match type of Hrun with
      | context [sim_loop rest ?s ?t'] =>
          destruct (sim_loop rest s t') as [[its' ex'] st''] eqn:Hrest
      end.
      injection Hrun as <- <- <-.
      destruct (IH _ _ _ _ _ Hrest) as [IHf IHe].
      split; [|exact IHe].
      unfold trace_of in *. cbn [map List.concat events].
      rewrite filter_app, IHf. reflexivity.
    + injection Hrun as <- <- <-. split; [reflexivity | discriminate].
Qed.

(** The events of the [try] block of [run], by the way it ends. *)
Lemma run_body_error (sch : schedule) (st : thread) :
  match run_body sch st with
  | (evs, Escaped _, _, _) => filter is_error_sig evs = []
  | (evs, Running, _, _) => filter is_error_sig evs = []
  | (evs, Returned, _, _) =>
      filter is_error_sig evs = []
      \/ exists pre e, evs = pre ++ [Emit (error_sig e)]
                       /\ filter is_error_sig pre = []
  end.
Proof.
  unfold run_body. destruct (simulation_mode st).
  - destruct (_run_simulation (now0 sch) (sim_envs sch) st)
      as [[its ex] st'] eqn:Hrun.
    destruct (sim_loop_error _ _ _ Hrun) as [Hf Hne].
    destruct ex; cbn [end_of]; auto.
  - destruct (k_connected st) as [|[|]|e]; cbn;
      try reflexivity;
      try (right; exists []; eexists; split; reflexivity).
    destruct (smu st); [|right; exists []; eexists; split; reflexivity].
    destruct (run_device (now0 sch) (real_envs sch) (raise_timeout st))
      as [[its ex] st'] eqn:Hrun.
    pose proof (real_loop_error _ _ (Nat.lt_0_succ 2) Hrun) as Hloop.
    destruct ex; cbn [end_of]; auto.
Qed.

(** X8.  A run emits [error_sig] at most once, and when it does, the
    [error_sig] is the last thing before the closing [finished_sig]:
    nothing is measured or emitted after an error has been reported. *)
Theorem error_sig_once_before_finished (sch : schedule) (st : thread) :
  List.length (filter is_error_sig (trace (run sch st))) <= 1
  /\ forall e,
      In (Emit (error_sig e)) (trace (run sch st)) ->
      ended (run sch st) = true
      /\ exists pre,
          trace (run sch st) = pre ++ [Emit (error_sig e); Emit finished_sig]
          /\ filter is_error_sig pre = [].
Proof.
  pose proof (run_body_error sch st) as Hbody. unfold run.
  destruct (run_body sch st) as [[[evs e0] st1] ot].
  destruct e0 as [|e0|]; cbn [trace ended].
  - destruct Hbody as [Hnone | [pre [e1 [Hev Hpre]]]].
    + rewrite filter_app, Hnone. cbn. split; [lia|].
      intros e Hin. apply in_app_or in Hin. destruct Hin as [Hin | [E|[]]].
      * apply (filter_nil_In _ _ _ Hnone) in Hin. discriminate.
      * discriminate.
    + rewrite Hev, !filter_app, Hpre. cbn. split; [lia|].
      intros e Hin. split; [reflexivity|].
      assert (e = e1).
      { apply in_app_or in Hin. destruct Hin as [Hin | [E|[]]]; [|discriminate].
        apply in_app_or in Hin. destruct Hin as [Hin | [E|[]]].
        - apply (filter_nil_In _ _ _ Hpre) in Hin. discriminate.
        - congruence. }
      subst e1. exists pre. rewrite <- app_assoc. split; [reflexivity | exact Hpre].
  - rewrite filter_app, Hbody. cbn. split; [lia|].
    intros e Hin. split; [reflexivity|].
    apply in_app_or in Hin. destruct Hin as [Hin | [E|[E|[]]]].
    + apply (filter_nil_In _ _ _ Hbody) in Hin. discriminate.
    + injection E as <-. exists evs. split; [reflexivity | exact Hbody].
    + discriminate.
  - rewrite Hbody. cbn. split; [lia|].
    intros e Hin. apply (filter_nil_In _ _ _ Hbody) in Hin. discriminate.
Qed.

(** *** Samples and successful reads *)

Lemma ui_calls_keeps (cs : list (@Realtime.ui_call F)) (st : thread) :
  time_data (ui_calls cs st) = time_data st
  /\ voltage_data (ui_calls cs st) = voltage_data st
  /\ current_data (ui_calls cs st) = current_data st
  /\ k_visa_timeout (ui_calls cs st) = k_visa_timeout st
  /\ k_has_reset (ui_calls cs st) = k_has_reset st.
Proof.
  revert st. induction cs as [|c cs IH]; intros st; [repeat split|].
  cbn [ui_calls fold_left]. fold (ui_calls cs (ui_apply c st)).
  destruct (IH (ui_apply c st)) as [H1 [H2 [H3 [H4 H5]]]].
  rewrite H1, H2, H3, H4, H5. destruct c; repeat split.
Qed.

(** A pass of the real-device loop: a sample is appended and emitted
    exactly when both reads returned; the driver attributes stay as they
    are; the instrument is reset exactly in the recovery from a VISA
    timeout. *)
Lemma real_iteration_pass (env : real_env) (st : thread) (c : nat) :
  let it := real_iteration env st c in
  (if read_ok env
   then exists t v i p s,
       emitted it = Some (p, s)
       /\ time_data (after it) = time_data st ++ [t]
       /\ voltage_data (after it) = voltage_data st ++ [v]
       /\ current_data (after it) = current_data st ++ [i]
       /\ measure_v env = Py.Returns v /\ measure_i env = Py.Returns i
       /\ k_visa_timeout s = k_visa_timeout st
   else emitted it = None
        /\ time_data (after it) = time_data st
        /\ voltage_data (after it) = voltage_data st
        /\ current_data (after it) = current_data st)
  /\ k_visa_timeout (after it) = k_visa_timeout st
  /\ k_has_reset (after it) = k_has_reset st
  /\ existsb is_reset (events it) = k_has_reset st && timed_out env.
Proof.
  cbv zeta. unfold real_iteration, read_ok, timed_out, read_error.
  assert (Hreads : existsb is_reset (read_calls env) = false)
    by (unfold read_calls; destruct (measure_v env); reflexivity).
  assert (Hrec : existsb is_reset (recovery env st) = k_has_reset st).
  { unfold recovery. destruct (k_has_reset st); [|reflexivity].
    destruct (reset_outcome env); reflexivity. }
  destruct (measure_v env) as [v|e]; [destruct (measure_i env) as [i|e]|];
    cbn [Py.bind].
  - cbn [emitted after events].
    match goal with
    | |- context [ui_calls (ui_during env) ?s] =>
        destruct (ui_calls_keeps (ui_during env) s) as [-> [-> [-> [-> ->]]]]
    end.
    rewrite existsb_app, Hreads, andb_false_r. cbn.
    repeat split. do 5 eexists. repeat split.
  - destruct (ui_calls_keeps (ui_during env) st) as [E1 [E2 [E3 [E4 E5]]]].
    destruct (Py.is_VisaIOError e);
      destruct (Py.str_in "VI_ERROR_TMO" (Py.exn_str e));
      repeat match goal with |- context [if ?b then _ else _] => destruct b end;
      cbn [emitted after events];
      rewrite ?existsb_app, ?Hreads, ?Hrec, E1, E2, E3, E4, E5; cbn;
      rewrite ?orb_false_r, ?andb_true_r, ?andb_false_r; repeat split.
  - destruct (ui_calls_keeps (ui_during env) st) as [E1 [E2 [E3 [E4 E5]]]].
    destruct (Py.is_VisaIOError e);
      destruct (Py.str_in "VI_ERROR_TMO" (Py.exn_str e));
      repeat match goal with |- context [if ?b then _ else _] => destruct b end;
      cbn [emitted after events];
      rewrite ?existsb_app, ?Hreads, ?Hrec, E1, E2, E3, E4, E5; cbn;
      rewrite ?orb_false_r, ?andb_true_r, ?andb_false_r; repeat split.
Qed.

Lemma emissions_cons_more (it : iteration) (its : list iteration) :
  emissions (it :: its)
  = match emitted it with Some x => [x] | None => [] end ++ emissions its.
Proof. reflexivity. Qed.

Lemma read_pair_ok (env : real_env) :
  List.length (read_pair env) = if read_ok env then 1 else 0.
Proof.
  unfold read_pair, read_ok.
  destruct (measure_v env); [destruct (measure_i env)|]; reflexivity.
Qed.

Lemma real_loop_passes (envs : list real_env) :
  forall (st : thread) (c : nat) its ex st',
    real_loop envs st c = (its, ex, st') ->
    List.length its <= List.length envs
    /\ voltage_data st'
       = voltage_data st
         ++ map fst (flat_map read_pair (firstn (List.length its) envs))
    /\ current_data st'
       = current_data st
         ++ map snd (flat_map read_pair (firstn (List.length its) envs))
    /\ List.length (time_data st')
       = List.length (time_data st)
         + List.length (flat_map read_pair (firstn (List.length its) envs))
    /\ List.length (emissions its)
       = List.length (flat_map read_pair (firstn (List.length its) envs))
    /\ k_visa_timeout st' = k_visa_timeout st
    /\ (forall p s, In (p, s) (emissions its) ->
                    k_visa_timeout s = k_visa_timeout st)
    /\ map (fun it => existsb is_reset (events it)) its
       = map (fun env => k_has_reset st && timed_out env)
             (firstn (List.length its) envs).
Proof.
  induction envs as [|env rest IH]; intros st c its ex st' Hrun;
    cbn [real_loop] in Hrun.
  - destruct (negb (running st)); injection Hrun as <- <- <-; cbn;
      rewrite !app_nil_r; repeat split; try lia;
      intros p s Hin; contradiction.
  - destruct (negb (running st)).
    { injection Hrun as <- <- <-. cbn. rewrite !app_nil_r.
      repeat split; try lia; intros p s Hin; contradiction. }
    pose proof (real_iteration_pass env st c) as Hit. cbv zeta in Hit.
    destruct Hit as [Hdata [Hto [Hhr Hreset]]].
    pose proof (read_pair_ok env) as Hlen.
    set (it0 := real_iteration env st c) in *.
    assert (Hone :
      voltage_data (after it0) = voltage_data st ++ map fst (read_pair env)
      /\ current_data (after it0) = current_data st ++ map snd (read_pair env)
      /\ List.length (time_data (after it0))
         = List.length (time_data st) + List.length (read_pair env)
      /\ List.length (emissions [it0]) = List.length (read_pair env)
      /\ (forall p s, In (p, s) (emissions [it0]) ->
                      k_visa_timeout s = k_visa_timeout st)).
    { unfold read_pair in *. cbn [emissions flat_map]. rewrite app_nil_r.
      destruct (read_ok env).
      - destruct Hdata as [t [v [i [p [s [Hem [Ht [Hv [Hc [Hmv [Hmi Hs]]]]]]]]]]].
        rewrite Hem, Ht, Hv, Hc, Hmv, Hmi, List.length_app. cbn.
        repeat split. intros p' s' [E|[]]. injection E as <- <-. exact Hs.
      - destruct Hdata as [Hem [Ht [Hv Hc]]]. rewrite Hem, Ht, Hv, Hc.
        destruct (measure_v env); [destruct (measure_i env)|];
          try discriminate; cbn; rewrite ?app_nil_r;
          repeat split; try lia; intros p s Hin; contradiction. }
    destruct Hone as [Hv1 [Hc1 [Ht1 [He1 Hs1]]]].
    destruct (leaves it0).
    + destruct (real_loop rest (after it0) (errors_after it0))
        as [[its' ex'] st''] eqn:Hrest.
      injection Hrun as <- <- <-.
      destruct (IH _ _ _ _ _ Hrest) as [Hle [Hv [Hc [Ht [He [Hto' [Hs Hr]]]]]]].
      cbn [List.length firstn flat_map map]. rewrite emissions_cons_more.
      rewrite !map_app, !List.length_app, Hv, Hc, Ht, Hv1, Hc1, Ht1, Hto', Hto, He.
      cbn [emissions flat_map] in He1. rewrite app_nil_r in He1. rewrite He1.
      rewrite <- !app_assoc, Hr, Hhr, Hreset.
      repeat split; try lia.
      intros p s Hin. apply in_app_or in Hin. destruct Hin as [Hin|Hin].
      * apply (Hs1 p s). cbn [emissions flat_map]. rewrite app_nil_r. exact Hin.
      * rewrite <- Hto. apply (Hs p s Hin).
    + injection Hrun as <- <- <-. cbn [List.length firstn flat_map map].
      rewrite app_nil_r, Hv1, Hc1, Ht1, He1, Hto, Hreset.
      repeat split; try lia; assumption.
    + injection Hrun as <- <- <-. cbn [List.length firstn flat_map map].
      rewrite app_nil_r, Hv1, Hc1, Ht1, He1, Hto, Hreset.
      repeat split; try lia; assumption.
Qed.

(** X9.  In real-device mode the recorded samples are exactly the
    successful reads: after the loop, [voltage_data] and [current_data]
    hold the values returned by the passes whose two reads both returned,
    in order; a pass with a failed read records and emits nothing, and
    there is one emission per recorded sample, with a time stamp each. *)
Theorem samples_are_successful_reads (t0 : F) (envs : list real_env) (st : thread) :
  voltage_data (snd (run_device t0 envs st))
  = map fst (flat_map read_pair
               (firstn (List.length (fst (fst (run_device t0 envs st)))) envs))
  /\ current_data (snd (run_device t0 envs st))
     = map snd (flat_map read_pair
                  (firstn (List.length (fst (fst (run_device t0 envs st)))) envs))
  /\ List.length (time_data (snd (run_device t0 envs st)))
     = List.length (voltage_data (snd (run_device t0 envs st)))
  /\ List.length (emissions (fst (fst (run_device t0 envs st))))
     = List.length (voltage_data (snd (run_device t0 envs st))).
Proof.
  unfold run_device.
  destruct (real_loop envs (reset_data t0 st) 0) as [[its ex] st'] eqn:Hrun.
  destruct (real_loop_passes _ _ _ Hrun) as [_ [Hv [Hc [Ht [He _]]]]].
  cbn [fst snd]. cbn [reset_data voltage_data current_data time_data] in Hv, Hc, Ht.
  cbn [app List.length Nat.add] in Hv, Hc, Ht.
  rewrite Hv, Hc, Ht, He, List.length_map. repeat split.
Qed.

Lemma sim_loop_keeps (envs : list sim_env) :
  forall (st : thread) (t : F) its ex st',
    sim_loop envs st t = (its, ex, st') ->
    k_visa_timeout st' = k_visa_timeout st.
Proof.
  induction envs as [|env rest IH]; intros st t its ex st' Hrun;
    cbn [sim_loop] in Hrun.
  - destruct (negb (running st)); injection Hrun as <- <- <-; reflexivity.
  - destruct (negb (running st)); [injection Hrun as <- <- <-; reflexivity|].
    assert (Hkeep : k_visa_timeout (after (sim_iteration env st t)) = k_visa_timeout st).
    { unfold sim_iteration. cbn [after].
      match goal with
      | |- context [ui_calls (ui_after env) ?s] =>
          destruct (ui_calls_keeps (ui_after env) s) as [_ [_ [_ [-> _]]]]
      end.
      cbn [append_sample k_visa_timeout].
      destruct (ui_calls_keeps (ui_before env) st) as [_ [_ [_ [-> _]]]].
      reflexivity. }
    destruct (leaves (sim_iteration env st t));
      try (injection Hrun as <- <- <-; exact Hkeep).
    destruct (sim_loop rest (after (sim_iteration env st t)) (fadd t (interval st)))
      as [[its' ex'] st''] eqn:Hrest.
    injection Hrun as <- <- <-. rewrite (IH _ _ _ _ _ Hrest). exact Hkeep.
Qed.

Lemma ui_calls_restore (cs : list (@Realtime.ui_call F)) (st : thread) :
  k_restore_timeout (ui_calls cs st) = k_restore_timeout st.
Proof.
  revert st. induction cs as [|c cs IH]; intros st; [reflexivity|].
  cbn [ui_calls fold_left]. fold (ui_calls cs (ui_apply c st)).
  rewrite IH. destruct c; reflexivity.
Qed.

Lemma real_iteration_restore (env : real_env) (st : thread) (c : nat) :
  k_restore_timeout (after (real_iteration env st c)) = k_restore_timeout st.
Proof.
  unfold real_iteration.
  destruct (v <- measure_v env ;; i <- measure_i env ;; Py.Returns (v, i))
    as [[v i]|e].
  - cbn [after]. rewrite ui_calls_restore. reflexivity.
  - destruct (Py.is_VisaIOError e);
      repeat match goal with |- context [if ?b then _ else _] => destruct b end;
      cbn [after]; rewrite ui_calls_restore; reflexivity.
Qed.

Lemma real_loop_restore (envs : list real_env) :
  forall (st : thread) (c : nat) its ex st',
    real_loop envs st c = (its, ex, st') ->
    k_restore_timeout st' = k_restore_timeout st.
Proof.
  induction envs as [|env rest IH]; intros st c its ex st' Hrun;
    cbn [real_loop] in Hrun.
  - destruct (negb (running st)); injection Hrun as <- <- <-; reflexivity.
  - destruct (negb (running st)); [injection Hrun as <- <- <-; reflexivity|].
    pose proof (real_iteration_restore env st c) as Hit.
    destruct (leaves (real_iteration env st c));
      try (injection Hrun as <- <- <-; exact Hit).
    destruct (real_loop rest (after (real_iteration env st c))
                        (errors_after (real_iteration env st c)))
      as [[its' ex'] st''] eqn:Hrest.
    injection Hrun as <- <- <-. rewrite (IH _ _ _ _ _ Hrest). exact Hit.
Qed.

(** X10.  What a run that has ended leaves in [keithley.visa.timeout]:
    the value it found, unless the run got as far as the real-device
    loop, the assignment of 30000 succeeded and the restoring assignment
    of the [finally] clause raised; then 30000 stays.  While the
    real-device loop samples, the timeout is 30000 ms when the driver has
    one and the assignment succeeded, and as it was otherwise. *)
Theorem visa_timeout_restored (sch : schedule) (st : thread) :
  (ended (run sch st) = true ->
   k_visa_timeout (final (run sch st))
   = if enters_loop st && returned (k_set_timeout st)
        && negb (returned (k_restore_timeout st))
     then option_map (fun _ => 30000%Z) (k_visa_timeout st)
     else k_visa_timeout st)
  /\ (forall p s,
         In (p, s) (emissions
                      (fst (fst (run_device (now0 sch) (real_envs sch)
                                            (raise_timeout st))))) ->
         k_visa_timeout s
         = if returned (k_set_timeout st)
           then option_map (fun _ => 30000%Z) (k_visa_timeout st)
           else k_visa_timeout st).
Proof.
  split.
  - unfold run, run_body, enters_loop. destruct (simulation_mode st).
    + destruct (_run_simulation (now0 sch) (sim_envs sch) st)
        as [[its ex] st'] eqn:Hrun.
      unfold _run_simulation in Hrun. pose proof (sim_loop_keeps _ _ _ Hrun) as Hk.
      cbn [reset_data k_visa_timeout] in Hk.
      destruct ex; cbn; try discriminate; intros _;
        destruct (k_visa_timeout st') eqn:E; cbn; congruence.
    + destruct (k_connected st) as [|[|]|e]; cbn;
        try (intros _; destruct (k_visa_timeout st) eqn:E; cbn; congruence).
      destruct (smu st); cbn;
        [|intros _; destruct (k_visa_timeout st) eqn:E; cbn; congruence].
      destruct (run_device (now0 sch) (real_envs sch) (raise_timeout st))
        as [[its ex] st'] eqn:Hrun.
      unfold run_device in Hrun.
      destruct (real_loop_passes _ _ _ Hrun) as [_ [_ [_ [_ [_ [Hk _]]]]]].
      pose proof (real_loop_restore _ _ _ Hrun) as Hr.
      cbn [reset_data k_visa_timeout k_restore_timeout] in Hk, Hr.
      assert (Hr' : k_restore_timeout st' = k_restore_timeout st).
      { rewrite Hr. unfold raise_timeout.
        destruct (k_visa_timeout st); [destruct (k_set_timeout st)|]; reflexivity. }
      assert (Hk' : k_visa_timeout st'
                    = if returned (k_set_timeout st)
                      then option_map (fun _ => 30000%Z) (k_visa_timeout st)
                      else k_visa_timeout st).
      { rewrite Hk. unfold raise_timeout.
        destruct (k_visa_timeout st) eqn:E;
          [destruct (k_set_timeout st)|]; cbn; rewrite ?E;
          try reflexivity.
        destruct (k_set_timeout st); reflexivity. }
      clear Hk Hr Hrun.
      destruct (k_visa_timeout st) as [z|] eqn:E;
        destruct (k_set_timeout st) as [[]|es];
        destruct (k_restore_timeout st) as [[]|er] eqn:Er;
        cbn in Hk' |- *;
        destruct ex; cbn; try discriminate; intros _;
        rewrite ?Hk', ?Hr'; cbn; rewrite ?Hk'; reflexivity.
  - intros p s. unfold run_device.
    destruct (real_loop (real_envs sch)
                        (reset_data (now0 sch) (raise_timeout st)) 0)
      as [[its ex] st'] eqn:Hrun.
    destruct (real_loop_passes _ _ _ Hrun) as [_ [_ [_ [_ [_ [_ [Hs _]]]]]]].
    cbn [fst]. intros Hin. rewrite (Hs p s Hin).
    cbn [reset_data k_visa_timeout]. unfold raise_timeout.
    destruct (k_visa_timeout st) eqn:E;
      [destruct (k_set_timeout st)|]; cbn; rewrite ?E; try reflexivity.
    destruct (k_set_timeout st); reflexivity.
Qed.

(** X11.  The real-device loop resets the instrument in a pass exactly
    when the driver has a [reset] and the reads of that pass ended with a
    VISA error whose text contains "VI_ERROR_TMO"; no other error, and no
    successful pass, resets it. *)
Theorem reset_only_after_timeout (t0 : F) (envs : list real_env) (st : thread) :
  map (fun it => existsb is_reset (events it)) (fst (fst (run_device t0 envs st)))
  = map (fun env => k_has_reset st && timed_out env)
        (firstn (List.length (fst (fst (run_device t0 envs st)))) envs).
Proof.
  unfold run_device.
  destruct (real_loop envs (reset_data t0 st) 0) as [[its ex] st'] eqn:Hrun.
  destruct (real_loop_passes _ _ _ Hrun) as [_ [_ [_ [_ [_ [_ [_ Hr]]]]]]].
  cbn [fst]. exact Hr.
Qed.

End WithFloat.
End RealtimeMoreFacts.

(** The same three timeouts on an instrument that refuses the restoring
    assignment: the long timeout stays; on one that accepts it, the old
    timeout is back. *)
Example restore_failure_keeps_long_timeout :
  Realtime.k_visa_timeout
    (Realtime.final (Realtime.run Samples.three_timeouts MoreSamples.stuck_thread))
  = Some 30000%Z
  /\ Realtime.k_visa_timeout
       (Realtime.final (Realtime.run Samples.three_timeouts Samples.device_thread))
     = Some 10000%Z.
Proof. split; vm_compute; reflexivity. Qed.

Lemma device_run_without_device_witness :
  Realtime.run Samples.three_timeouts MoreSamples.unplugged_thread
  = Realtime.mkRun
      [Realtime.Emit (Realtime.error_sig (Py.Exception "设备未连接"));
       Realtime.Emit Realtime.finished_sig]
      true MoreSamples.unplugged_thread.
Proof.
  destruct (RealtimeMoreFacts.device_run_without_device
              Samples.three_timeouts MoreSamples.unplugged_thread eq_refl)
    as [Hoff _].
  apply Hoff. right. reflexivity.
Defined.

(* ===================================================================== *)
(** ** More on the selectors                                              *)
(* ===================================================================== *)

Module SelectorsMoreFacts.
Import Selectors SelectorsMore.

Lemma clear_spec (fuel : nat) (s : selector) (w : SweepSettingsWidget) :
  clear fuel s w = Some (put s (mkCombo 0 (-1)) w).
Proof.
  unfold clear. destruct (currentIndex (get s w) =? -1)%Z; reflexivity.
Qed.

(** X12.  Whatever the two selectors showed before, after
    [update_smu_list] both list the SMUs that [_get_smus] returns, the
    gate selector shows the first of them and the drain selector the
    second; the signal cascade between the two selectors ends. *)
Theorem update_smu_list_selects_first_two
        (fuel : nat) (keithley : keithley_view) (w : SweepSettingsWidget) :
  update_smu_list (3 + fuel) (_get_smus keithley) w
  = Some (of_smus (_get_smus keithley) 0 1)
  /\ exists gate drain rest,
      _get_smus keithley = gate :: drain :: rest
      /\ currentText Gate (of_smus (_get_smus keithley) 0 1) = gate
      /\ currentText Drain (of_smus (_get_smus keithley) 0 1) = drain.
Proof.
  pose proof (get_smus_length keithley) as Hlen.
  destruct (_get_smus keithley) as [|a [|b rest]]; cbn [List.length] in Hlen;
    try lia.
  split; [|exists a, b, rest; repeat split].
  unfold update_smu_list. rewrite clear_spec. cbn [and_then].
  rewrite clear_spec. cbn [and_then put smu_list smu_gate smu_drain].
  destruct rest as [|c rest]; [reflexivity|].
  assert (Hbig : (List.length (a :: b :: c :: rest) <? 3)%nat = false)
    by reflexivity.
  assert (Hn : (3 <= Z.of_nat (List.length (a :: b :: c :: rest)))%Z)
    by (cbn [List.length]; lia).
  remember (a :: b :: c :: rest) as smus eqn:Es. clear Es.
  unfold of_smus, addItems, on_smu_changed.
  remember (Z.of_nat (List.length smus)) as n eqn:En. clear En.
  assert (H0 : (0 <? n)%Z = true) by (apply Z.ltb_lt; lia).
  assert (H1 : (1 <? n)%Z = true) by (apply Z.ltb_lt; lia).
  cbn [get put count currentIndex smu_list smu_gate smu_drain other Z.add].
  rewrite ?H0, ?Hbig. cbn -[Z.ltb Nat.ltb].
  unfold on_smu_changed, target.
  do 3 (cbn -[Z.ltb Nat.ltb]; rewrite ?H0, ?H1, ?Hbig).
  reflexivity.
Qed.

End SelectorsMoreFacts.

(* ===================================================================== *)
(** ** The connection state                                               *)
(* ===================================================================== *)

Module ConnectionFacts.
Import Connection.

Lemma update_gui_connection_inv (k : keithley) (w : window) :
  match update_gui_connection k w with
  | Raises e => connected k = Faulty e
  | Returns (k', w') =>
      connected k' = Present (led w')
      /\ localnode_model k' = localnode_model k /\ busy k' = busy k
      /\ (w' = _gui_state_disconnected w
          \/ (connected k = Present true /\ k' = k
              /\ (exists u, localnode_model k = Returns u)
              /\ ((busy k = Returns true /\ w' = _gui_state_busy w)
                  \/ (busy k = Returns false /\ w' = _gui_state_idle w))))
      /\ (led w' = false -> w' = _gui_state_disconnected w)
  end.
Proof.
  unfold update_gui_connection, update_gui_connection_try.
  destruct k as [[|[|]|e] [u|em] [[|]|eb]]; cbn;
    repeat split; try reflexivity; try discriminate;
    try (left; reflexivity);
    try (right; repeat split; try reflexivity; eauto; fail).
Qed.

(** X13.  [update_gui_connection] raises only when reading [connected]
    raises something that is not an [AttributeError].  When it returns,
    the LED shows the value that the [connected] flag has afterwards, and
    the window is in exactly one of the three interface states: busy or
    idle only if the flag was true, the model of the instrument could be
    read and [busy] could be read (which of the two is the value of
    [busy]), disconnected otherwise.  The Run and the Abort button are
    never enabled together, and neither is when the LED is off. *)
Theorem led_shows_connected_flag (k : keithley) (w : window) :
  (forall e, update_gui_connection k w = Raises e <-> connected k = Faulty e)
  /\ (forall k' w',
         update_gui_connection k w = Returns (k', w') ->
         connected k' = Present (led w')
         /\ (led w' = true
             <-> connected k = Present true
                 /\ (exists u, localnode_model k = Returns u)
                 /\ (exists b, busy k = Returns b))
         /\ (led w' = true ->
             k' = k
             /\ w' = (if pushButtonAbort w' then _gui_state_busy w
                      else _gui_state_idle w)
             /\ busy k = Returns (pushButtonAbort w'))
         /\ (led w' = false -> w' = _gui_state_disconnected w)
         /\ pushButtonRun w' && pushButtonAbort w' = false
         /\ (led w' = false ->
             pushButtonRun w' = false /\ pushButtonAbort w' = false
             /\ actionConnect w' = true)).
Proof.
  pose proof (update_gui_connection_inv k w) as Hinv. split.
  - intros e. split.
    + intros Hr. rewrite Hr in Hinv. exact Hinv.
    + intros Hf. unfold update_gui_connection, update_gui_connection_try.
      rewrite Hf. reflexivity.
  - clear Hinv. intros k' w'.
    unfold update_gui_connection, update_gui_connection_try.
    destruct k as [[|[|]|e] [u|em] [[|]|eb]]; cbn; intros Hr;
      try discriminate; injection Hr as <- <-; cbn;
      repeat split; intros;
      repeat match goal with
             | Hx : _ /\ _ |- _ => destruct Hx
             | Hx : exists _, _ |- _ => destruct Hx
             end;
      try discriminate; try reflexivity; eauto.
Qed.

Lemma connect_failed_spec (e : Py.exn) (effs : list effect)
      (k : keithley) (w : window) :
  connect_failed e effs k w
  = (effs ++ [MessageBox "连接错误"
                         ("连接Keithley设备时出错:" ++ newline ++ Py.exn_str e)],
     Returns (set_connected false k, _gui_state_disconnected w)).
Proof.
  unfold connect_failed, update_gui_connection, update_gui_connection_try.
  reflexivity.
Qed.

(** X14.  A click on Connect never raises.  It ends with the LED showing
    the [connected] flag of the driver, and it shows exactly one error
    dialog when the LED is off at the end and none when it is on; the LED
    is on only if [connect()] returned and left the flag true. *)
Theorem connect_click_reports_failure (env : connect_env) (w : window) :
  exists k' w',
    snd (on_connect_clicked env w) = Returns (k', w')
    /\ connected k' = Present (led w')
    /\ List.length (filter is_message_box (fst (on_connect_clicked env w)))
       = (if led w' then 0 else 1)
    /\ (led w' = true ->
        (exists u, connect env = Returns u)
        /\ connected (after_connect env) = Present true
        /\ k' = after_connect env).
Proof.
  unfold on_connect_clicked.
  destruct (connect env) as [u|e].
  2:{ rewrite connect_failed_spec. do 2 eexists. cbn.
      repeat split; try reflexivity; discriminate. }
  pose proof (update_gui_connection_inv (after_connect env) w) as Hinv.
  destruct (update_gui_connection (after_connect env) w) as [[k' w']|e].
  2:{ rewrite connect_failed_spec. do 2 eexists. cbn.
      repeat split; try reflexivity; discriminate. }
  destruct Hinv as [Hc [_ [_ [Hst _]]]]. rewrite Hc. cbn [Py.getattr].
  destruct (led w') eqn:Hled.
  - exists k', w'. cbn. rewrite Hled. repeat split; try reflexivity; eauto.
    + destruct Hst as [-> | [Hk _]]; [discriminate | exact Hk].
    + destruct Hst as [-> | [_ [Hk _]]]; [discriminate | exact Hk].
  - destruct (visa_address env) as [address|e].
    + exists k', w'. cbn. rewrite Hled.
      repeat split; try reflexivity; try assumption; discriminate.
    + rewrite connect_failed_spec. do 2 eexists. cbn.
      repeat split; try reflexivity; discriminate.
Qed.

End ConnectionFacts.

(** A driver that connected and then stopped answering: the LED goes
    off and the flag is cleared. *)
Example silent_driver_disconnected :
  Connection.update_gui_connection SlotSamples.silent SlotSamples.fresh_window
  = Returns (Connection.set_connected false SlotSamples.silent,
             Connection._gui_state_disconnected SlotSamples.fresh_window).
Proof. reflexivity. Qed.

(* ===================================================================== *)
(** ** The slots of the real-time page                                    *)
(* ===================================================================== *)

Module SlotsFacts.
Import Realtime RealtimeMore Slots.
Section WithFloat.

Context {F : Type} `{PyFloat F}.

Local Abbreviation thread := (@Realtime.thread F).
Local Abbreviation iteration := (@Realtime.iteration F).
Local Abbreviation event := (@Realtime.event F).
Local Abbreviation payload := (@Realtime.payload F).
Local Abbreviation real_env := (@Realtime.real_env F).
Local Abbreviation sim_env := (@Realtime.sim_env F).
Local Abbreviation schedule := (@Realtime.schedule F).
Local Abbreviation gui := (@Realtime.gui F).
Local Abbreviation ui_call := (@Realtime.ui_call F).

(** *** The passes of the two loops *)

Lemma sim_loop_its (envs : list sim_env) :
  forall (st : thread) (t : F) its ex st',
    sim_loop envs st t = (its, ex, st') ->
    Forall (fun it => exists env st0 t0, it = sim_iteration env st0 t0) its.
Proof.
  induction envs as [|env rest IH]; intros st t its ex st' Hrun;
    cbn [sim_loop] in Hrun.
  - destruct (negb (running st)); injection Hrun as <- <- <-; constructor.
  - destruct (negb (running st)); [injection Hrun as <- <- <-; constructor|].
    assert (Hit : exists env0 st0 t0,
               sim_iteration env st t = sim_iteration env0 st0 t0)
      by (do 3 eexists; reflexivity).
    destruct (leaves (sim_iteration env st t));
      try (injection Hrun as <- <- <-; constructor; [exact Hit | constructor]).
    destruct (sim_loop rest (after (sim_iteration env st t)) (fadd t (interval st)))
      as [[its' ex'] st''] eqn:Hrest.
    injection Hrun as <- <- <-. constructor; [exact Hit|].
    apply (IH _ _ _ _ _ Hrest).
Qed.

Lemma real_loop_its (envs : list real_env) :
  forall (st : thread) (c : nat) its ex st',
    real_loop envs st c = (its, ex, st') ->
    Forall (fun it => exists env st0 c0, it = real_iteration env st0 c0) its.
Proof.
  induction envs as [|env rest IH]; intros st c its ex st' Hrun;
    cbn [real_loop] in Hrun.
  - destruct (negb (running st)); injection Hrun as <- <- <-; constructor.
  - destruct (negb (running st)); [injection Hrun as <- <- <-; constructor|].
    assert (Hit : exists env0 st0 c0,
               real_iteration env st c = real_iteration env0 st0 c0)
      by (do 3 eexists; reflexivity).
    destruct (leaves (real_iteration env st c));
      try (injection Hrun as <- <- <-; constructor; [exact Hit | constructor]).
    destruct (real_loop rest (after (real_iteration env st c))
                        (errors_after (real_iteration env st c)))
      as [[its' ex'] st''] eqn:Hrest.
    injection Hrun as <- <- <-. constructor; [exact Hit|].
    apply (IH _ _ _ _ _ Hrest).
Qed.

Lemma sim_iteration_refs (env : sim_env) (st : thread) (t : F) :
  refers_to_thread (sim_iteration env st t).
Proof. unfold refers_to_thread, sim_iteration. cbn. split; reflexivity. Qed.

Lemma real_iteration_refs (env : real_env) (st : thread) (c : nat) :
  refers_to_thread (real_iteration env st c).
Proof.
  unfold refers_to_thread, real_iteration.
  destruct (measure_v env) as [v|e]; cbn [Py.bind].
  - destruct (measure_i env) as [i|e]; cbn [Py.bind].
    + cbn. split; reflexivity.
    + destruct (Py.is_VisaIOError e);
        destruct (max_consecutive_errors <=? c + 1)%nat; exact I.
  - destruct (Py.is_VisaIOError e);
      destruct (max_consecutive_errors <=? c + 1)%nat; exact I.
Qed.

Lemma emissions_refs (its : list iteration) :
  Forall refers_to_thread its ->
  forall p s, In (p, s) (emissions its) ->
              p_time p = TimeData /\ p_current p = CurrentData.
Proof.
  induction 1 as [|it its Hit _ IH]; intros p s Hin; [destruct Hin|].
  rewrite RealtimeFacts.emissions_cons in Hin. apply in_app_or in Hin.
  destruct Hin as [Hin | Hin]; [|apply (IH p s Hin)].
  unfold refers_to_thread in Hit. destruct (emitted it) as [[p0 s0]|].
  - destruct Hin as [E|[]]. injection E as <- <-. exact Hit.
  - destruct Hin.
Qed.

(** *** Simulation mode *)

Lemma sim_loop_quiet (envs : list sim_env) (st : thread) (t : F) its ex st' :
  sim_loop envs st t = (its, ex, st') ->
  existsb asks_instrument (trace_of its) = false.
Proof.
  intros Hrun. pose proof (sim_loop_its _ _ _ Hrun) as Hall.
  clear Hrun. induction Hall as [|it its [env [st0 [t0 ->]]] _ IH]; [reflexivity|].
  rewrite RealtimeFacts.trace_of_cons, existsb_app, IH. reflexivity.
Qed.

(** X15.  Nothing reaches the instrument through a thread in simulation
    mode, whether or not an instrument is connected by then: a change of
    the voltage field only moves the setpoint of a running thread (and
    does not raise), the run reads nothing and resets nothing, and the
    end of the run does not switch an output off. *)
Theorem simulation_never_touches_instrument
        (g : gui) (th : thread) (sch : schedule) (v : F) (is_running : bool) :
  simulation_mode th = true ->
  existsb touches_instrument
          (Act.effects (on_voltage_changed g (Some (th, is_running)) v)) = false
  /\ Act.outcome (on_voltage_changed g (Some (th, is_running)) v)
     = Returns (Some (if is_running then set_current_voltage v th else th,
                      is_running))
  /\ existsb touches_instrument (on_realtime_finished g (Some th)) = false
  /\ existsb asks_instrument (trace (run sch th)) = false.
Proof.
  intros Hsim. repeat split.
  - unfold on_voltage_changed. rewrite Hsim. destruct is_running; reflexivity.
  - unfold on_voltage_changed. rewrite Hsim. destruct is_running; reflexivity.
  - unfold on_realtime_finished. rewrite Hsim. reflexivity.
  - destruct (_run_simulation (now0 sch) (sim_envs sch) th)
      as [[its ex] st'] eqn:Hrun.
    destruct (RealtimeFacts.run_simulation_mode sch th Hsim Hrun) as [-> _].
    unfold _run_simulation in Hrun.
    rewrite existsb_app, (sim_loop_quiet _ _ _ Hrun).
    destruct ex; reflexivity.
Qed.

(** *** The setpoint *)

Lemma ui_calls_setpoint (cs : list ui_call) (st : thread) :
  current_voltage (ui_calls cs st) = last_setpoint (current_voltage st) cs.
Proof.
  revert st. induction cs as [|c cs IH]; intros st; [reflexivity|].
  cbn [ui_calls last_setpoint fold_left].
  fold (ui_calls cs (ui_apply c st)).
  fold (last_setpoint (match c with
                       | update_simulation_voltage v' => v'
                       | stop => current_voltage st
                       end) cs).
  rewrite IH. destruct c; reflexivity.
Qed.

Lemma sim_loop_setpoints (envs : list sim_env) :
  forall (st : thread) (t : F) its ex st',
    sim_loop envs st t = (its, ex, st') ->
    voltage_data st'
    = voltage_data st
      ++ firstn (List.length its) (setpoints (current_voltage st) envs).
Proof.
  induction envs as [|env rest IH]; intros st t its ex st' Hrun;
    cbn [sim_loop] in Hrun.
  - destruct (negb (running st)); injection Hrun as <- <- <-;
      cbn; rewrite app_nil_r; reflexivity.
  - destruct (negb (running st)).
    { injection Hrun as <- <- <-. cbn. rewrite app_nil_r. reflexivity. }
    assert (Hv : voltage_data (after (sim_iteration env st t))
                 = voltage_data st
                   ++ [last_setpoint (current_voltage st) (ui_before env)]).
    { unfold sim_iteration. cbn [after].
      match goal with
      | |- context [ui_calls (ui_after env) ?s] =>
          destruct (RealtimeMoreFacts.ui_calls_keeps (ui_after env) s)
            as [_ [-> _]]
      end.
      cbn [append_sample voltage_data].
      destruct (RealtimeMoreFacts.ui_calls_keeps (ui_before env) st)
        as [_ [-> _]].
      rewrite ui_calls_setpoint. reflexivity. }
    assert (Hc : current_voltage (after (sim_iteration env st t))
                 = last_setpoint
                     (last_setpoint (current_voltage st) (ui_before env))
                     (ui_after env)).
    { unfold sim_iteration. cbn [after]. rewrite ui_calls_setpoint.
      cbn [append_sample current_voltage]. rewrite ui_calls_setpoint.
      reflexivity. }
    destruct (leaves (sim_iteration env st t));
      try (injection Hrun as <- <- <-; refine (eq_trans Hv _); reflexivity).
    destruct (sim_loop rest (after (sim_iteration env st t)) (fadd t (interval st)))
      as [[its' ex'] st''] eqn:Hrest.
    injection Hrun as <- <- <-.
    rewrite (IH _ _ _ _ _ Hrest), Hv, Hc, <- app_assoc. reflexivity.
Qed.

(** X16.  The voltages recorded by a simulated run are the setpoints in
    force when each pass reads the setpoint: the last value handed to
    [update_simulation_voltage] before that read, or the setpoint the
    thread started with.  A thread created by the start button starts
    with 1.0 V, whatever the voltage field of the window holds. *)
Theorem simulated_voltage_follows_setpoint
        (now : F) (envs : list sim_env) (st : thread) :
  voltage_data (snd (_run_simulation now envs st))
  = firstn (List.length (fst (fst (_run_simulation now envs st))))
           (setpoints (current_voltage st) envs)
  /\ (forall (g : gui) eff th,
         on_start_realtime_clicked g = (eff, Returns (Some th)) ->
         current_voltage th = flit (1 # 1)).
Proof.
  split.
  - unfold _run_simulation.
    destruct (sim_loop envs (reset_data now st) (flit (0 # 1)))
      as [[its ex] st'] eqn:Hrun.
    cbn [fst snd]. rewrite (sim_loop_setpoints _ _ _ Hrun). reflexivity.
  - intros g eff th Hstart.
    destruct (RealtimeFacts.on_start_creates g Hstart) as [c [_ [-> _]]].
    reflexivity.
Qed.

(** *** Plotting *)

(** X17.  The payload holds the lists of the thread, not copies, and the
    slot reads them when it runs.  When the payload of one emission is
    handled while the thread is as it was at the emission numbered [j]
    (from zero) of the same run, the labels show the sample of the
    payload, but the curve is drawn from the [j + 1] samples recorded by
    then; it is drawn exactly when [j] is not zero. *)
Theorem plot_reads_lists_when_handled
        (now : F) (senvs : list sim_env) (renvs : list real_env) (st : thread)
        (its : list iteration) (k j : nat) (p q : payload) (sk sj : thread) :
  its = fst (fst (_run_simulation now senvs st))
  \/ its = fst (fst (run_device now renvs st)) ->
  nth_error (emissions its) k = Some (p, sk) ->
  nth_error (emissions its) j = Some (q, sj) ->
  on_realtime_data p sj
  = (let '(t, v, i) := last_value p in SetLabels t v i)
    :: (if (0 <? j)%nat
        then [ClearCanvas; PlotXY (time_data sj) (current_data sj)]
        else [])
  /\ List.length (time_data sj) = S j
  /\ List.length (current_data sj) = S j.
Proof.
  intros Hits Hk Hj.
  assert (Hrefs : Forall refers_to_thread its
                  /\ well_formed_payload j q sj).
  { destruct Hits as [-> | ->].
    - unfold _run_simulation in *.
      destruct (sim_loop senvs (reset_data now st) (flit (0 # 1)))
        as [[its ex] st'] eqn:Hrun. cbn [fst] in *.
      split.
      + eapply Forall_impl; [|apply (sim_loop_its _ _ _ Hrun)].
        intros it [env [st0 [t0 ->]]]. apply sim_iteration_refs.
      + destruct (RealtimeFacts.sim_loop_payloads
                    _ _ _ Hrun (n := 0) eq_refl eq_refl eq_refl)
          as [_ [_ Hwf]].
        apply (Hwf j q sj Hj).
    - unfold run_device in *.
      destruct (real_loop renvs (reset_data now st) 0)
        as [[its ex] st'] eqn:Hrun. cbn [fst] in *.
      split.
      + eapply Forall_impl; [|apply (real_loop_its _ _ _ Hrun)].
        intros it [env [st0 [c0 ->]]]. apply real_iteration_refs.
      + destruct (RealtimeFacts.real_loop_payloads
                    _ _ _ Hrun (n := 0) eq_refl eq_refl eq_refl)
          as [_ Hwf].
        apply (Hwf j q sj Hj). }
  destruct Hrefs as [Hall Hwf].
  destruct (emissions_refs Hall p sk (nth_error_In _ _ Hk)) as [Hpt Hpc].
  destruct (emissions_refs Hall q sj (nth_error_In _ _ Hj)) as [Hqt Hqc].
  destruct Hwf as [ts [vs [cs [t [v [i [Ht [_ [Hc [Hlt [_ [Hlc _]]]]]]]]]]]].
  rewrite Hqt in Ht. rewrite Hqc in Hc. cbn [deref] in Ht, Hc.
  assert (Hlen : List.length (time_data sj) = S j)
    by (rewrite Ht, List.length_app; cbn; lia).
  assert (Hlen' : List.length (current_data sj) = S j)
    by (rewrite Hc, List.length_app; cbn; lia).
  split; [|split; assumption].
  unfold on_realtime_data. rewrite Hpt, Hpc. cbn [deref]. rewrite Hlen.
  destruct (last_value p) as [[t' v'] i']. destruct j; reflexivity.
Qed.

End WithFloat.
End SlotsFacts.

(** A click on Connect that the instrument refuses: one dialog, LED
    off. *)
Example refused_connection :
  List.length (filter Connection.is_message_box
                      (fst (Connection.on_connect_clicked SlotSamples.refused
                                                          SlotSamples.fresh_window)))
  = 1
  /\ snd (Connection.on_connect_clicked SlotSamples.refused SlotSamples.fresh_window)
     = Returns (Connection.set_connected false SlotSamples.silent,
                Connection._gui_state_disconnected SlotSamples.fresh_window).
Proof. split; reflexivity. Qed.

(** A simulated thread that is still running when the instrument has
    been connected. *)
Lemma simulation_never_touches_instrument_witness :
  existsb Slots.touches_instrument
          (Act.effects (Slots.on_voltage_changed
                          SlotSamples.online_gui
                          (Some (Samples.offline_thread, true)) (2 # 1)%Q)) = false
  /\ Act.outcome (Slots.on_voltage_changed
                    SlotSamples.online_gui
                    (Some (Samples.offline_thread, true)) (2 # 1)%Q)
     = Returns (Some (Realtime.set_current_voltage (2 # 1)%Q Samples.offline_thread,
                      true))
  /\ existsb Slots.touches_instrument
             (Slots.on_realtime_finished SlotSamples.online_gui
                                         (Some Samples.offline_thread)) = false
  /\ existsb Slots.asks_instrument
             (Realtime.trace (Realtime.run Samples.two_passes Samples.offline_thread))
     = false.
Proof.
  apply (SlotsFacts.simulation_never_touches_instrument
           SlotSamples.online_gui Samples.offline_thread Samples.two_passes
           (2 # 1)%Q true eq_refl).
Defined.

(** The first payload of the simulated run, handled after the second
    sample has been recorded: a curve of two points is drawn. *)
Lemma plot_reads_lists_when_handled_witness :
  existsb Slots.is_plot
          (Slots.on_realtime_data (fst (SlotSamples.emission 0))
                                  (snd (SlotSamples.emission 1))) = true
  /\ List.length (Realtime.time_data (snd (SlotSamples.emission 1))) = 2.
Proof.
  assert (H0 : nth_error (Realtime.emissions SlotSamples.simulated_passes) 0
               = Some (fst (SlotSamples.emission 0), snd (SlotSamples.emission 0)))
    by (vm_compute; reflexivity).
  assert (H1 : nth_error (Realtime.emissions SlotSamples.simulated_passes) 1
               = Some (fst (SlotSamples.emission 1), snd (SlotSamples.emission 1)))
    by (vm_compute; reflexivity).
  destruct (@SlotsFacts.plot_reads_lists_when_handled
              Q _ (0 # 1)%Q (Realtime.sim_envs Samples.two_passes) []
              Samples.offline_thread SlotSamples.simulated_passes 0 1
              _ _ _ _ (or_introl eq_refl) H0 H1)
    as [Heq [Hlen _]].
  split; [|exact Hlen].
  rewrite Heq. destruct (Realtime.last_value (fst (SlotSamples.emission 0)))
    as [[t v] i]. reflexivity.
Defined.
(* ===================================================================== *)
(** ** Waiting for the mutex                                              *)
(* ===================================================================== *)

Module ThreadsMoreFacts.
Import Threads ThreadsMore.
Section WithFloat.

Variable F : Type.

Local Abbreviation op := (Threads.op F).
Local Abbreviation machine := (Threads.machine F).
Local Abbreviation ui_call := (Threads.ui_call F).

Lemma ui_program_completes (calls : list ui_call) :
  completes false (ui_program calls) = true.
Proof.
  induction calls as [|c calls IH]; [reflexivity|].
  unfold ui_program in *. cbn [flat_map]. destruct c; cbn; exact IH.
Qed.

Lemma run_simulation_completes (n : nat) :
  completes false (@_run_simulation F n) = true.
Proof.
  unfold _run_simulation. cbn [app completes].
  induction n as [|n IH]; [reflexivity|].
  cbn [repeat List.concat]. rewrite <- app_assoc. cbn. exact IH.
Qed.

Lemma init_settled (v0 : F) (calls : list ui_call) (n : nat) :
  settled (init v0 calls n).
Proof.
  split; cbn; [apply ui_program_completes | apply run_simulation_completes].
Qed.

Lemma step_settled (t : tid) (m : machine) :
  settled m -> settled (step t m).
Proof.
  destruct m as [lk v ur wr lg]. unfold settled, holds, step, rest_of.
  cbn [lock ui_rest worker_rest voltage log].
  destruct t.
  - destruct ur as [|o rest]; [intros Hs; exact Hs|].
    destruct o as [| |a|a|w]; destruct lk as [[|]|];
      cbn; intros [H1 H2]; try discriminate; split; assumption.
  - destruct wr as [|o rest]; [intros Hs; exact Hs|].
    destruct o as [| |a|a|w]; destruct lk as [[|]|];
      cbn; intros [H1 H2]; try discriminate; split; assumption.
Qed.

Lemma exec_settled (sched : list tid) (m : machine) :
  settled m -> settled (exec sched m).
Proof.
  revert m. induction sched as [|t sched IH]; intros m Hs; [exact Hs|].
  cbn [exec fold_left]. fold (exec sched (step t m)).
  apply IH, step_settled, Hs.
Qed.

Lemma exec_app (s1 s2 : list tid) (m : machine) :
  exec (s1 ++ s2) m = exec s2 (exec s1 m).
Proof. unfold exec. apply fold_left_app. Qed.

(** A thread that has work left and cannot move waits at [lock()] for
    the other thread, and the other thread can move. *)
Lemma waits_for_other (t : tid) (m : machine) :
  settled m ->
  rest_of t m <> [] ->
  can_move t m = false ->
  hd_error (rest_of t m) = Some (Acquire F)
  /\ lock m = Some (other t)
  /\ can_move (other t) m = true.
Proof.
  destruct m as [lk v ur wr lg]. unfold settled, holds, can_move, rest_of.
  cbn [lock ui_rest worker_rest].
  destruct t; cbn [other].
  - destruct ur as [|o rest]; [congruence|].
    destruct o as [| |a|a|w]; try discriminate.
    destruct lk as [[|]|]; cbn; intros [H1 H2] _ Hc; try discriminate.
    destruct wr as [|o' rest']; [discriminate|].
    destruct o' as [| |a|a|w]; try discriminate; repeat split.
  - destruct wr as [|o rest]; [congruence|].
    destruct o as [| |a|a|w]; try discriminate.
    destruct lk as [[|]|]; cbn; intros [H1 H2] _ Hc; try discriminate.
    destruct ur as [|o' rest']; [discriminate|].
    destruct o' as [| |a|a|w]; try discriminate; repeat split.
Qed.

Lemma step_moves (t : tid) (m : machine) :
  can_move t m = true -> S (remaining (step t m)) = remaining m.
Proof.
  destruct m as [lk v ur wr lg]. unfold can_move, step, rest_of, remaining.
  cbn [lock ui_rest worker_rest].
  destruct t.
  - destruct ur as [|o rest]; [discriminate|].
    destruct o as [| |a|a|w]; try destruct lk; cbn; intros Hc;
      try discriminate; lia.
  - destruct wr as [|o rest]; [discriminate|].
    destruct o as [| |a|a|w]; try destruct lk; cbn; intros Hc;
      try discriminate; lia.
Qed.

Lemma some_thread_moves (m : machine) :
  settled m -> remaining m <> 0 -> exists t, can_move t m = true.
Proof.
  intros Hs Hr.
  assert (Ht : exists t, rest_of t m <> []).
  { unfold remaining in Hr. destruct (ui_rest m) eqn:Eu.
    - exists Worker. cbn [rest_of]. destruct (worker_rest m); [cbn in Hr; lia|discriminate].
    - exists UI. cbn [rest_of]. rewrite Eu. discriminate. }
  destruct Ht as [t Ht]. destruct (can_move t m) eqn:Hc.
  - exists t. exact Hc.
  - exists (other t). apply (waits_for_other t Hs Ht Hc).
Qed.

Lemma can_finish (k : nat) :
  forall m : machine,
    settled m -> remaining m = k ->
    exists sched, List.length sched = k /\ finished (exec sched m).
Proof.
  induction k as [|k IH]; intros m Hs Hr.
  - exists []. split; [reflexivity|]. unfold remaining in Hr. unfold finished. cbn.
    destruct (ui_rest m); [|discriminate]. destruct (worker_rest m); [|discriminate].
    split; reflexivity.
  - destruct (some_thread_moves Hs) as [t Ht]; [lia|].
    pose proof (step_moves t m Ht) as Hm.
    destruct (IH (step t m) (step_settled t Hs)) as [sched [Hl Hf]]; [lia|].
    exists (t :: sched). split; [cbn; lia | exact Hf].
Qed.

(** X18.  The mutex cannot deadlock the two threads.  Wherever an
    interleaving of the UI calls with the simulation loop has got to, a
    thread that cannot move is waiting in [lock()] for the other thread,
    which can move; and the interleaving can be continued so that both
    programs run to their end, in as many steps as they have operations
    left. *)
Theorem mutex_never_deadlocks
        (v0 : F) (calls : list ui_call) (n : nat) (sched : list tid) :
  (forall t,
      rest_of t (exec sched (init v0 calls n)) <> [] ->
      step t (exec sched (init v0 calls n)) = exec sched (init v0 calls n) ->
      hd_error (rest_of t (exec sched (init v0 calls n))) = Some (Acquire F)
      /\ lock (exec sched (init v0 calls n)) = Some (other t)
      /\ step (other t) (exec sched (init v0 calls n))
         <> exec sched (init v0 calls n))
  /\ exists sched',
      List.length sched' = remaining (exec sched (init v0 calls n))
      /\ finished (exec (sched ++ sched') (init v0 calls n)).
Proof.
  pose proof (exec_settled sched (init_settled v0 calls n)) as Hs.
  set (m := exec sched (init v0 calls n)) in *. split.
  - intros t Hrest Hstep.
    assert (Hc : can_move t m = false).
    { destruct (can_move t m) eqn:Hc; [|reflexivity].
      pose proof (step_moves t m Hc) as Hm. rewrite Hstep in Hm. lia. }
    destruct (waits_for_other t Hs Hrest Hc) as [Hhd [Hlk Hmove]].
    split; [exact Hhd|]. split; [exact Hlk|].
    intros Hsame. pose proof (step_moves (other t) m Hmove) as Hm.
    rewrite Hsame in Hm. lia.
  - destruct (can_finish Hs eq_refl) as [sched' [Hl Hf]].
    exists sched'. split; [exact Hl|]. rewrite exec_app. exact Hf.
Qed.

End WithFloat.
End ThreadsMoreFacts.
